(** * MotionCraft: remote-generation orchestration and GIF transcoding

    A shallow embedding of [services/geminiService.ts] and of the helpers of
    [utils.ts] it relies on ([getRandomStyle], [cleanBase64],
    [createGifFromVideo]).

    Asynchronous code is written in explicit state-passing style: a
    computation takes the state of the world (wall clock, the record of
    what has been sent and slept so far, the state of the remote service)
    and hands back either a value or a thrown error together with the new
    world.  [await] is sequencing; [try]/[catch] is a match on the outcome.

    Numbers that count or measure milliseconds are integers ([Z]); the
    numbers of the transcoder (durations, timestamps, dimensions) are
    binary64 floating-point numbers; strings are byte strings.  A timer
    fires when its delay has elapsed or later, as the event loop allows.
    [getAI()] builds a client object and sends nothing by itself, so it
    leaves no mark in the model; console output is not part of the model
    either. *)

From Stdlib Require Import ZArith NArith List String Ascii Bool Lia QArith Sorted.
From Stdlib Require Import DecimalString SpecFloat.
From Equations Require Import Equations.
Import ListNotations.

Local Open Scope string_scope.
Local Open Scope Z_scope.

Set Implicit Arguments.

(* ===================================================================== *)
(** ** JavaScript strings (the ASCII part that the code relies on)        *)
(* ===================================================================== *)

(** [hay.includes(needle)] *)
Fixpoint includes (hay needle : string) : bool :=
  String.prefix needle hay ||
  match hay with
  | EmptyString => false
  | String _ rest => includes rest needle
  end.

(** White space removed by [String.prototype.trim], restricted to ASCII:
    TAB, LF, VT, FF, CR and SPACE. *)
Definition isWhiteSpace (c : ascii) : bool :=
  let n := nat_of_ascii c in
  ((9 <=? n) && (n <=? 13))%nat || (n =? 32)%nat.

Fixpoint trimStart (s : string) : string :=
  match s with
  | EmptyString => EmptyString
  | String c rest => if isWhiteSpace c then trimStart rest else s
  end.

(** Drops trailing white space: a character is kept when it is not white
    space or when something is kept after it. *)
Fixpoint trimEnd (s : string) : string :=
  match s with
  | EmptyString => EmptyString
  | String c rest =>
      match trimEnd rest with
      | EmptyString => if isWhiteSpace c then EmptyString else String c EmptyString
      | kept => String c kept
      end
  end.

(** [s.trim()] *)
Definition trim (s : string) : string := trimEnd (trimStart s).

(** Truthiness of a string: only the empty string is falsy. *)
Definition truthy (s : string) : bool :=
  match s with EmptyString => false | _ => true end.

(** The double-quote character, as a one-character string. *)
Definition dquote : string := String (ascii_of_nat 34) EmptyString.

(** A line feed, as it appears inside the multi-line template literals. *)
Definition newline : string := String (ascii_of_nat 10) EmptyString.

(* ===================================================================== *)
(** ** Thrown values and outcomes of awaited promises                     *)
(* ===================================================================== *)

(** A thrown value, as far as the code looks at it: its [message]
    property when it has one ([error?.message]). *)
Record JsError : Type := mkJsError { message : option string }.

(** [new Error(msg)] *)
Definition newError (msg : string) : JsError := mkJsError (Some msg).

(** [error?.message || ""] *)
Definition errorMsg (e : JsError) : string :=
  match message e with
  | Some m => m
  | None => ""
  end.

Inductive Outcome (A : Type) : Type :=
| Returned (a : A)
| Threw (e : JsError).
Arguments Returned {A} a.
Arguments Threw {A} e.

(* ===================================================================== *)
(** ** Data exchanged with the generation service                         *)
(* ===================================================================== *)

(** [{ data, mimeType }]; either property may be [undefined]. *)
Record InlineData : Type := mkInlineData {
  data : option string;
  mimeType : option string
}.

(** A content part: one carrying [inlineData], or a text part. *)
Inductive Part : Type :=
| PartInline (inlineData : InlineData)
| PartText (text : string).

Inductive Contents : Type :=
| ContentsString (s : string)
| ContentsParts (parts : list Part).

Inductive GenConfig : Type :=
| SamplingConfig (temperature : Q) (maxOutputTokens : Z)
| ImageConfig (aspectRatio imageSize : string).

Record GenerateContentRequest : Type := mkGenerateContentRequest {
  gc_model : string;
  gc_contents : Contents;
  gc_config : GenConfig
}.

(** What the code reads of a [generateContent] response: [response.text]
    and [response.candidates?.[0]?.content?.parts]. *)
Record GenerateContentResponse : Type := mkGenerateContentResponse {
  resp_text : option string;
  resp_parts : option (list Part)
}.

Record ImageInput : Type := mkImageInput {
  imageBytes : string;
  image_mimeType : string
}.

Record GenerateVideosRequest : Type := mkGenerateVideosRequest {
  gv_model : string;
  gv_prompt : string;
  gv_image : ImageInput;
  gv_numberOfVideos : Z;
  gv_resolution : string;
  gv_aspectRatio : string;
  gv_lastFrame : ImageInput
}.

(** [op.error], of which only [message] is read. *)
Record OpError : Type := mkOpError { op_message : option string }.

(** The handle of a long-running video job.  [done] may be absent;
    [video_uri] stands for [op.response?.generatedVideos?.[0]?.video?.uri]. *)
Record Operation : Type := mkOperation {
  op_name : string;
  done : option bool;
  error : option OpError;
  video_uri : option string
}.

(** [op.done] as a condition. *)
Definition isDone (op : Operation) : bool :=
  match done op with
  | Some true => true
  | _ => false
  end.

Record Blob : Type := mkBlob {
  blob_bytes : list Byte.byte;
  blob_type : string
}.

(** What the code reads of a [fetch] response; [body] is the result of
    awaiting [videoResponse.blob()]. *)
Record FetchResponse : Type := mkFetchResponse {
  ok : bool;
  statusText : string;
  body : Outcome Blob
}.

(** A value of [Math.random()]: a binary64 number in [0, 1), that is
    [mantissa * 2^-(53 + scale)] with [mantissa < 2^53]. *)
Record Unit01 : Type := mkUnit01 {
  mantissa : N;
  scale : N;
  mantissa_bound : (mantissa <? 2 ^ 53)%N = true
}.

(* ===================================================================== *)
(** ** The world: clock, record of effects, remote service                *)
(* ===================================================================== *)

Inductive Request : Type :=
| ReqGenerateContent (r : GenerateContentRequest)
| ReqGenerateVideos (r : GenerateVideosRequest)
| ReqGetVideosOperation (op : Operation)
| ReqFetch (url : string).

(** What is recorded, in chronological order: every invocation of an
    operation wrapped by [withRetry], every [sleep], and every request
    that leaves the client. *)
Inductive Event : Type :=
| EvAttempt
| EvSleep (ms : Z)
| EvRequest (r : Request).

Record World (E : Type) : Type := mkWorld {
  now : Z;                (* Date.now(), in milliseconds *)
  trace : list Event;
  remote : E              (* whatever the outside world remembers *)
}.
Arguments mkWorld {E} now trace remote.

(** The answer to a request: how long it took, from the moment it was
    sent to the moment the code that awaits it goes on, and how it
    settled. *)
Definition Reply (A : Type) : Type := (N * Outcome A)%type.

(** The collaborators of the module.  Remote calls answer as a function of
    the request, the time at which it is sent and the state of the outside
    world. *)
Record Host (E : Type) : Type := mkHost {
  generateContent : GenerateContentRequest -> Z -> E -> Reply GenerateContentResponse * E;
  generateVideos : GenerateVideosRequest -> Z -> E -> Reply Operation * E;
  getVideosOperation : Operation -> Z -> E -> Reply Operation * E;
  fetch : string -> Z -> E -> Reply FetchResponse * E;
  mathRandom : E -> Unit01 * E;
  (* [URL.createObjectURL(blob)] *)
  createObjectURL : Blob -> E -> string * E;
  (* [new URL(uri)], [searchParams.append('key', k)], [toString()];
     the constructor throws on a string that is not a URL *)
  urlWithKey : string -> string -> Outcome string;
  (* [canvas.toDataURL('image/png')] of a black canvas of the given size *)
  blackCanvasDataURL : Z -> Z -> string;
  (* [process.env.API_KEY] *)
  API_KEY : option string
}.

(** Asynchronous computations. *)
Definition M (E A : Type) : Type := World E -> Outcome A * World E.

Definition ret {E A} (a : A) : M E A := fun w => (Returned a, w).

Definition throw {E A} (e : JsError) : M E A := fun w => (Threw e, w).

Definition bind {E A B} (c : M E A) (k : A -> M E B) : M E B :=
  fun w =>
    match c w with
    | (Returned a, w') => k a w'
    | (Threw e, w') => (Threw e, w')
    end.

(** [try { c } catch (e) { handler e }] *)
Definition tryCatch {E A} (c : M E A) (handler : JsError -> M E A) : M E A :=
  fun w =>
    match c w with
    | (Returned a, w') => (Returned a, w')
    | (Threw e, w') => handler e w'
    end.

Notation "x <- c ;; k" := (bind c (fun x => k))
  (at level 61, c at next level, right associativity).

Definition record {E} (ev : Event) (w : World E) : World E :=
  mkWorld (now w) (trace w ++ [ev]) (remote w).

(** The timers of the event loop.  [setTimeout] promises a minimum only:
    the callback runs once the delay has elapsed and the event loop gets
    to it.  [lateness ms t e] is how long after the delay the code that
    awaits a timer set at time [t] for [ms] milliseconds goes on, in the
    outside world [e]. *)
Class Timers (E : Type) : Type := mkTimers {
  lateness : Z -> Z -> E -> N * E
}.

(** [await sleep(ms)]: the clock moves by the delay, which [setTimeout]
    takes as zero when it is negative, and by the lateness of the timer. *)
Definition sleep {E} {timers : Timers E} (ms : Z) : M E unit :=
  fun w =>
    let '(late, e') := lateness ms (now w) (remote w) in
    (Returned tt,
     mkWorld (now w + Z.max 0 ms + Z.of_N late) (trace w ++ [EvSleep ms]) e').

(** Sending a request and awaiting its answer. *)
Definition call {E A} (req : Request) (answer : Z -> E -> Reply A * E) : M E A :=
  fun w =>
    let '((latency, outcome), e') := answer (now w) (remote w) in
    (outcome, mkWorld (now w + Z.of_N latency) (trace w ++ [EvRequest req]) e').

(* ===================================================================== *)
(** ** The backoff retrier                                                *)
(* ===================================================================== *)

Definition isRetryable (e : JsError) : bool :=
  let errorMsg := errorMsg e in
  includes errorMsg "503" ||
  includes errorMsg "Deadline expired" ||
  includes errorMsg "UNAVAILABLE" ||
  includes errorMsg "429".

Equations withRetry {E A} {timers : Timers E} (fn : M E A) (retries baseDelay : Z) (w : World E)
  : Outcome A * World E by wf (Z.to_nat retries) lt :=
withRetry fn retries baseDelay w with fn (record EvAttempt w) := {
  | (Returned a, w1) => (Returned a, w1)
  | (Threw e, w1) with Z_gt_dec retries 0 := {
      | left _ =>
          if isRetryable e
          then withRetry fn (retries - 1) (baseDelay * 2) (snd (sleep baseDelay w1))
          else (Threw e, w1)
      | right _ => (Threw e, w1) } }.
Next Obligation. lia. Qed.

(** [withRetry(fn)] with the default parameters [retries = 3] and
    [baseDelay = 3000]. *)
Definition withRetryDefault {E A} {timers : Timers E} (fn : M E A) : M E A := withRetry fn 3 3000.

(* ===================================================================== *)
(** ** The operation poller                                               *)
(* ===================================================================== *)

Definition MAX_WAIT_TIME : Z := 300000.

(** The delay between two status checks, [sleep(10000)]. *)
Definition POLL_INTERVAL : Z := 10000.

Definition timeoutError : JsError :=
  newError "Video generation timed out. Please try again.".

(** The test applied to a failed status check. *)
Definition isTransientPollFailure (e : JsError) : bool :=
  let msg := errorMsg e in
  includes msg "503" || includes msg "Deadline expired" || includes msg "UNAVAILABLE".

Section Poller.
Context {E : Type} {timers : Timers E} (host : Host E).

(** [await ai.operations.getVideosOperation({ operation: op })] *)
Definition checkStatus (op : Operation) : M E Operation :=
  call (ReqGetVideosOperation op) (getVideosOperation host op).

(** Keeps the equation between a computation and its result at hand. *)
Definition inspect {A : Type} (a : A) : {b : A | a = b} := exist _ a eq_refl.

(** The [while (!op.done)] loop, entered with [startTime] already read.
    Every iteration that gets past the timeout test moves the clock by at
    least the polling interval, which is what makes the loop finite. *)
Equations pollLoop (startTime : Z) (op : Operation) (w : World E)
  : Outcome Operation * World E
  by wf (Z.to_nat (startTime + MAX_WAIT_TIME + 1 - now w)) lt :=
pollLoop startTime op w with isDone op := {
  | true => (Returned op, w)
  | false with Z_gt_dec (now w - startTime) MAX_WAIT_TIME := {
      | left _ => (Threw timeoutError, w)
      | right _ with inspect (checkStatus op (snd (sleep POLL_INTERVAL w))) := {
          | exist _ (Returned op', w2) _ => pollLoop startTime op' w2
          | exist _ (Threw e, w2) _ =>
              if isTransientPollFailure e
              then pollLoop startTime op w2
              else (Threw e, w2) } } }.
Next Obligation.
  match goal with
  | Heq : checkStatus _ _ = _ |- _ => unfold checkStatus, call, sleep in Heq
  end.
  destruct (lateness POLL_INTERVAL (now w) (remote w)) as [late e0].
  cbn [snd now remote trace] in *.
  destruct (getVideosOperation host op _ _) as [[latency outcome] e'].
  match goal with
  | Heq : (_, _) = (_, _) |- _ => injection Heq as _ <-
  end.
  cbn [now]. unfold POLL_INTERVAL, MAX_WAIT_TIME in *. lia.
Qed.
Next Obligation.
  match goal with
  | Heq : checkStatus _ _ = _ |- _ => unfold checkStatus, call, sleep in Heq
  end.
  destruct (lateness POLL_INTERVAL (now w) (remote w)) as [late e0].
  cbn [snd now remote trace] in *.
  destruct (getVideosOperation host op _ _) as [[latency outcome] e'].
  match goal with
  | Heq : (_, _) = (_, _) |- _ => injection Heq as _ <-
  end.
  cbn [now]. unfold POLL_INTERVAL, MAX_WAIT_TIME in *. lia.
Qed.

Definition pollForVideo (operation : Operation) : M E Operation :=
  fun w =>
    let op := operation in
    let startTime := now w in
    pollLoop startTime op w.

End Poller.

(* ===================================================================== *)
(** ** Helpers of [utils.ts]                                              *)
(* ===================================================================== *)

Fixpoint dropChars (n : nat) (s : string) : string :=
  match n, s with
  | S n', String _ rest => dropChars n' rest
  | _, _ => s
  end.

(** Cuts [s] at the first occurrence of [sep]: what precedes it and what
    follows it. *)
Fixpoint cut (sep s : string) : option (string * string) :=
  if String.prefix sep s then Some (EmptyString, dropChars (String.length sep) s)
  else
    match s with
    | EmptyString => None
    | String c rest =>
        match cut sep rest with
        | Some (before, after) => Some (String c before, after)
        | None => None
        end
    end.

(** [s.replace(pattern, replacement)] with a string pattern: the first
    occurrence only. *)
Definition replaceFirst (pattern replacement s : string) : string :=
  match cut pattern s with
  | Some (before, after) => before ++ replacement ++ after
  | None => s
  end.

(** The first two elements of [s.split(sep)]; the second is [undefined]
    when [sep] does not occur. *)
Definition splitFirstTwo (sep s : string) : string * option string :=
  match cut sep s with
  | None => (s, None)
  | Some (first, rest) =>
      match cut sep rest with
      | Some (second, _) => (first, Some second)
      | None => (first, Some rest)
      end
  end.

(** Line terminators, which [.] does not match (ASCII: LF and CR). *)
Definition isLineTerminator (c : ascii) : bool :=
  let n := nat_of_ascii c in ((n =? 10) || (n =? 13))%nat.

(** What follows the last comma of the first line of [s], if that line
    has a comma: the greedy [.*,] of the pattern. *)
Fixpoint afterLastComma (s : string) : option string :=
  match s with
  | EmptyString => None
  | String c rest =>
      if isLineTerminator c then None
      else
        match afterLastComma rest with
        | Some t => Some t
        | None => if (nat_of_ascii c =? 44)%nat then Some rest else None
        end
  end.

(** [data.replace(/^data:.*,/, '')] *)
Definition cleanBase64 (data : string) : string :=
  if String.prefix "data:" data
  then
    match afterLastComma (dropChars 5 data) with
    | Some t => t
    | None => data
    end
  else data.

Definition styles : list string := [
  "formed by fluffy white clouds in a deep blue summer sky";
  "written in glowing constellations against a dark nebula galaxy";
  "arranged using colorful autumn leaves on wet green grass";
  "reflected in cyberpunk neon puddles on a rainy street";
  "drawn with latte art foam in a ceramic coffee cup";
  "glowing as ancient magical runes carved into a dark cave wall";
  "displayed on a futuristic translucent holographic interface";
  "sculpted from melting surrealist gold in a desert landscape";
  "arranged with intricate mechanical gears and steampunk machinery";
  "formed by bioluminescent jellyfish in the deep ocean";
  "composed of vibrant colorful smoke swirling in a dark room";
  "carved into the bark of an ancient mossy oak tree";
  "made of sparkling diamonds scattered on black velvet"
].

(** [Math.floor(r * len)] in binary64 arithmetic, for a small integer
    [len]: the exact product [mantissa * len] (in units of
    [2^-(53 + scale)]) is rounded to a 53-bit significand, ties to even,
    and the integer part of the rounded number is taken. *)
Definition floorTimes (r : Unit01) (len : N) : N :=
  let n := (mantissa r * len)%N in
  let s := (N.log2 n + 1 - 53)%N in
  let q := (n / 2 ^ s)%N in
  let rest := (n mod 2 ^ s)%N in
  let half := (2 ^ s / 2)%N in
  let roundUp := ((0 <? s) && ((half <? rest) || ((rest =? half) && N.odd q)))%N in
  let significand := if roundUp then (q + 1)%N else q in
  (significand * 2 ^ s / 2 ^ (53 + scale r))%N.

Section Client.
Context {E : Type} {timers : Timers E} (host : Host E).

(** [Math.random()] *)
Definition random : M E Unit01 :=
  fun w =>
    let '(r, e') := mathRandom host (remote w) in
    (Returned r, mkWorld (now w) (trace w) e').

(** [styles[Math.floor(Math.random() * styles.length)]]; an index past
    the end would give [undefined]. *)
Definition getRandomStyle : M E (option string) :=
  r <- random ;;
  ret (nth_error styles (N.to_nat (floorTimes r (N.of_nat (List.length styles))))).

(** [createBlankImage(width, height)] *)
Definition createBlankImage (width height : Z) : string :=
  let dataUrl := blackCanvasDataURL host width height in
  cleanBase64 dataUrl.

(* =================================================================== *)
(** *** Style suggestion                                                *)
(* =================================================================== *)

Definition styleRequest (text : string) : GenerateContentRequest :=
  mkGenerateContentRequest
    "gemini-3-flash-preview"
    (ContentsString
       ("Cinematic style for " ++ dquote ++ text ++ dquote ++
        " in 10 words: material, lighting, environment. Output description only."))
    (SamplingConfig (9 # 10) 50).

Definition generateStyleSuggestion (text : string) : M E (option string) :=
  tryCatch
    (response <- call (ReqGenerateContent (styleRequest text))
                      (generateContent host (styleRequest text)) ;;
     match resp_text response with
     | Some t => if truthy (trim t) then ret (Some (trim t)) else getRandomStyle
     | None => getRandomStyle
     end)
    (fun error => getRandomStyle).

(* =================================================================== *)
(** *** Image generation                                                *)
(* =================================================================== *)

Record TextImageOptions : Type := mkTextImageOptions {
  text : string;
  style : string;
  typographyPrompt : option string;
  referenceImage : option string
}.

Record ImageResult : Type := mkImageResult {
  image_data : option string;
  image_type : string
}.

(** The line break and indentation inside the template literals. *)
Definition continuation : string := newline ++ "        ".

Definition typoInstruction (typographyPrompt : option string) : string :=
  match typographyPrompt with
  | Some p =>
      if truthy p && (0 <? String.length (trim p))%nat then p
      else "High-quality, creative typography that perfectly matches the visual environment. Legible and artistic."
  | None =>
      "High-quality, creative typography that perfectly matches the visual environment. Legible and artistic."
  end.

(** The [parts] array built for one request. *)
Definition imageParts (o : TextImageOptions) : list Part :=
  let typoInstruction := typoInstruction (typographyPrompt o) in
  match referenceImage o with
  | Some (String c r as referenceImage) =>
      let '(mimeTypePart, data) := splitFirstTwo ";base64," referenceImage in
      [ PartInline (mkInlineData data (Some (replaceFirst "data:" "" mimeTypePart)));
        PartText
          ("Analyze the visual style, color palette, lighting, and textures of this reference image. " ++
           continuation ++
           "Create a NEW high-resolution cinematic image featuring the text " ++
           dquote ++ text o ++ dquote ++ " written in the center. " ++
           continuation ++ "Typography Instruction: " ++ typoInstruction ++ "." ++
           continuation ++
           "The text should look like it perfectly belongs in the world of the reference image." ++
           continuation ++ "Additional style instructions: " ++ style o ++ ".") ]
  | _ =>
      [ PartText
          ("A hyper-realistic, cinematic, high-resolution image featuring the text " ++
           dquote ++ text o ++ dquote ++ ". " ++
           continuation ++ "Typography Instruction: " ++ typoInstruction ++ ". " ++
           continuation ++ "Visual Style: " ++ style o ++ ". " ++
           continuation ++
           "The typography must be legible, artistic, and centered. Lighting should be dramatic and atmospheric. 8k resolution, detailed texture.") ]
  end.

Definition imageRequest (o : TextImageOptions) : GenerateContentRequest :=
  mkGenerateContentRequest
    "gemini-3-pro-image-preview"
    (ContentsParts (imageParts o))
    (ImageConfig "16:9" "1K").

(** The [for] loop over the parts of the response: the first part that
    carries [inlineData]. *)
Fixpoint firstInlineData (parts : list Part) : option ImageResult :=
  match parts with
  | [] => None
  | PartInline d :: rest =>
      Some (mkImageResult (data d)
              match mimeType d with
              | Some (String c r as m) => m
              | _ => "image/png"
              end)
  | PartText _ :: rest => firstInlineData rest
  end.

(** The operation that [generateTextImage] hands to the retrier. *)
Definition requestImage (o : TextImageOptions) : M E ImageResult :=
  response <- call (ReqGenerateContent (imageRequest o))
                   (generateContent host (imageRequest o)) ;;
  match firstInlineData (match resp_parts response with Some ps => ps | None => [] end) with
  | Some result => ret result
  | None => throw (newError "No image generated")
  end.

Definition generateTextImage (o : TextImageOptions) : M E ImageResult :=
  withRetryDefault (requestImage o).

(* =================================================================== *)
(** *** Asset download                                                  *)
(* =================================================================== *)

Definition settle {A : Type} (o : Outcome A) : M E A :=
  fun w => (o, w).

(** The operation that [fetchVideoBlob] hands to the retrier. *)
Definition downloadVideo (uri : string) : M E string :=
  url <- settle (urlWithKey host uri
                   match API_KEY host with
                   | Some (String c r as k) => k
                   | _ => ""
                   end) ;;
  videoResponse <- call (ReqFetch url) (fetch host url) ;;
  if negb (ok videoResponse)
  then throw (newError ("Failed to fetch video content: " ++ statusText videoResponse))
  else
    blob <- settle (body videoResponse) ;;
    fun w =>
      let '(handle, e') := createObjectURL host blob (remote w) in
      (Returned handle, mkWorld (now w) (trace w) e').

Definition fetchVideoBlob (uri : string) : M E string :=
  withRetry (downloadVideo uri) 2 2000.

(* =================================================================== *)
(** *** Video generation                                                *)
(* =================================================================== *)

Definition videoRequest (text imageBase64 imageMimeType promptStyle : string)
  : GenerateVideosRequest :=
  let cleanImageBase64 := cleanBase64 imageBase64 in
  let startImage := createBlankImage 1280 720 in
  let revealPrompt :=
    "Cinematic transition. The text " ++ dquote ++ text ++ dquote ++
    " gradually forms and materializes from darkness. " ++ promptStyle ++
    ". High quality, 8k, smooth motion." in
  mkGenerateVideosRequest
    "veo-3.1-fast-generate-preview"
    revealPrompt
    (mkImageInput startImage "image/png")
    1 "720p" "16:9"
    (mkImageInput cleanImageBase64 imageMimeType).

Definition generateTextVideo (text imageBase64 imageMimeType promptStyle : string)
  : M E string :=
  if negb (truthy imageBase64)
  then throw (newError "Image generation failed, cannot generate video.")
  else
    let request := videoRequest text imageBase64 imageMimeType promptStyle in
    operation <- withRetryDefault
                   (call (ReqGenerateVideos request) (generateVideos host request)) ;;
    op <- pollForVideo host operation ;;
    match error op, video_uri op with
    | None, Some (String c r as uri) => fetchVideoBlob uri
    | Some err, _ =>
        throw (newError
                 match op_message err with
                 | Some (String c r as m) => m
                 | _ => "The video generation service encountered an internal error."
                 end)
    | None, _ => throw (newError "Unable to generate video.")
    end.

End Client.

(* ===================================================================== *)
(** ** The frame transcoder ([createGifFromVideo])                        *)
(* ===================================================================== *)

(** JavaScript numbers are binary64 floating-point numbers.  They are
    modelled by the Standard Library's specification of IEEE 754
    arithmetic, [spec_float], at precision 53 with exponents below 1024:
    products and quotients are rounded to the nearest number, ties to
    even. *)
Definition Number : Type := spec_float.

(** An integer as a number.  Integers up to [2^53] in absolute value are
    numbers as they are; larger ones are rounded. *)
Definition number (z : Z) : Number := binary_normalize 53 1024 z 0 false.

(** [x * y] *)
Definition times (x y : Number) : Number := SFmul 53 1024 x y.

(** [x / y] *)
Definition over (x y : Number) : Number := SFdiv 53 1024 x y.

(** [Math.floor(x)] when that is an integer; [Math.floor] leaves [NaN],
    [Infinity] and [-Infinity] as they are, which is [None] here.  A
    finite number is [m * 2^e] up to its sign, and a shift by a negative
    [e] rounds down. *)
Definition floor (x : Number) : option Z :=
  match x with
  | S754_zero _ => Some 0
  | S754_finite negative m e => Some (Z.shiftl (if negative then Z.neg m else Z.pos m) e)
  | S754_infinity _ | S754_nan => None
  end.

(** The numbers that count as false: [NaN], [0] and [-0]. *)
Definition falsy (x : Number) : bool :=
  match x with
  | S754_nan | S754_zero _ => true
  | _ => false
  end.

Definition fps : Z := 10.

Definition targetWidth : Z := 400.

(** [video.duration || 5] *)
Definition effectiveDuration (d : Number) : Number :=
  if falsy d then number 5 else d.

(** [Math.floor(duration * fps)]; [None] when the product is infinite. *)
Definition totalFrames (d : Number) : option Z :=
  floor (times (effectiveDuration d) (number fps)).

(** Whether the loop [for (let i = 0; i < totalFrames; i++)] can come to
    its end by itself.  Its counter is a number too, and [i++] leaves it
    where it is once it has reached [2^53]; against a frame count above
    that, or an infinite one, the loop has no end. *)
Definition countable (d : Number) : bool :=
  match totalFrames d with
  | Some n => n <=? 2 ^ 53
  | None => false
  end.

(** What the transcoder reads of the video element once its metadata is
    loaded.  Durations that leave the sampling loop without an end (more
    than 28 million years, or [Infinity] for an unbounded stream) are not
    covered. *)
Record Metadata : Type := mkMetadata {
  video_duration : Number;
  videoWidth : N;
  videoHeight : N;
  duration_countable : countable video_duration = true
}.

(** RGBA bytes read back from the canvas. *)
Definition ImageData : Type := list Byte.byte.
Definition Palette : Type := list (N * N * N).
Definition IndexedPixels : Type := list Byte.byte.

(** The arguments of one [gif.writeFrame] call; the height is [None] when
    it is not a finite number. *)
Record Frame : Type := mkFrame {
  frame_index : IndexedPixels;
  frame_width : Z;
  frame_height : option Z;
  frame_palette : Palette;
  frame_delay : Number
}.

(** The video element and the canvas, as the transcoder uses them.  The
    element fires [error] whenever the media fails, and the handler set by
    [video.onerror] stays in place: the two waits of the loop say whether
    an [error] event reached the element while the loop was waiting. *)
Record VideoHost (V : Type) : Type := mkVideoHost {
  (* [video.load()]: the metadata, or [None] when [error] fires instead
     of [loadedmetadata] *)
  loadMetadata : string -> V -> option Metadata * V;
  (* whether [canvas.getContext('2d', ...)] gives a context *)
  contextAvailable : bool;
  (* [await new Promise(r => setTimeout(r, 0))]; [true] for a media
     error in the meantime *)
  yieldToMainThread : V -> bool * V;
  (* [video.currentTime = time], then the wait for [seeked] or for the
     one-second timer, whichever comes first; [true] for a media error in
     the meantime *)
  seek : Number -> V -> bool * V;
  (* [ctx.drawImage(video, ...)] and [ctx.getImageData(...).data] *)
  capture : Z -> option Z -> V -> Outcome ImageData * V
}.

(** The [gifenc] library, which is not part of the repository; [G] is the
    state of an encoder.  Any of its functions may throw. *)
Record GifLibrary (G : Type) : Type := mkGifLibrary {
  (* [typeof GIFEncoder === 'function'] *)
  encoderLoaded : bool;
  GIFEncoder : Outcome G;
  quantize : ImageData -> Z -> Outcome Palette;
  applyPalette : ImageData -> Palette -> Outcome IndexedPixels;
  writeFrame : Frame -> G -> Outcome G;
  finish : G -> Outcome G;
  bytes : G -> Outcome (list Byte.byte)
}.

Inductive TranscodeEvent : Type :=
| Sought (time : Number)
| Drawn (data : ImageData)
| FrameWritten (f : Frame).

(** The video element together with the record of what was sought, read
    back and appended, in chronological order. *)
Record Studio (V : Type) : Type := mkStudio {
  element : V;
  journal : list TranscodeEvent
}.
Arguments mkStudio {V} element journal.

(** What [video.onerror] rejects the promise with. *)
Definition videoLoadFailed : JsError := newError "Video load failed".

(** [Math.floor((videoHeight / videoWidth) * width)], lowered to an even
    number.  When the quotient is [NaN] or infinite (a width of 0), so is
    the height: [height % 2] is [NaN] then, and [height - 1] is [height]. *)
Definition targetHeight (m : Metadata) : option Z :=
  match floor (times (over (number (Z.of_N (videoHeight m))) (number (Z.of_N (videoWidth m))))
                 (number targetWidth)) with
  | Some height => Some (if negb (Z.rem height 2 =? 0) then height - 1 else height)
  | None => None
  end.

(** [i / fps] *)
Definition sampleTime (i : Z) : Number := over (number i) (number fps).

Section Transcoder.
Context {V G : Type} (dom : VideoHost V) (lib : GifLibrary G).

(** The steps of the transcoder: each takes the studio and settles with a
    value or a thrown error, leaving the studio as it is by then. *)
Definition Step (A : Type) : Type := Studio V -> Outcome A * Studio V.

Definition andThen {A B : Type} (c : Step A) (k : A -> Step B) : Step B :=
  fun s =>
    match c s with
    | (Returned a, s') => k a s'
    | (Threw e, s') => (Threw e, s')
    end.

(** A call into the library. *)
Definition library {A : Type} (result : Outcome A) : Step A := fun s => (result, s).

Definition note (ev : TranscodeEvent) : Step unit :=
  fun s => (Returned tt, mkStudio (element s) (journal s ++ [ev])).

(** A wait of the loop.  A media error in the meantime rejects the
    promise through [video.onerror]; what the loop does after that has no
    bearing on how the promise settled, and is left out. *)
Definition waiting (wait : V -> bool * V) : Step unit :=
  fun s =>
    let '(mediaError, v) := wait (element s) in
    (if mediaError then Threw videoLoadFailed else Returned tt, mkStudio v (journal s)).

Definition draw (height : option Z) : Step ImageData :=
  fun s =>
    let '(pixels, v) := capture dom targetWidth height (element s) in
    (pixels, mkStudio v (journal s)).

(** One turn of the [for] loop, for the index [i]. *)
Definition encodeFrame (i : Z) (height : option Z) (gif : G) : Step G :=
  andThen (waiting (yieldToMainThread dom)) (fun _ =>
  let time := sampleTime i in
  andThen (note (Sought time)) (fun _ =>
  andThen (waiting (seek dom time)) (fun _ =>
  andThen (draw height) (fun data =>
  andThen (note (Drawn data)) (fun _ =>
  andThen (library (quantize lib data 256)) (fun palette =>
  andThen (library (applyPalette lib data palette)) (fun index =>
  let frame := mkFrame index targetWidth height palette (over (number 1000) (number fps)) in
  andThen (library (writeFrame lib frame gif)) (fun gif' =>
  andThen (note (FrameWritten frame)) (fun _ =>
  library (Returned gif')))))))))).

(** The [for] loop from index [i], with [remaining] turns to go. *)
Fixpoint encodeFrames (remaining : nat) (i : Z) (height : option Z) (gif : G) : Step G :=
  match remaining with
  | O => library (Returned gif)
  | S remaining' =>
      andThen (encodeFrame i height gif) (fun gif' =>
      encodeFrames remaining' (i + 1) height gif')
  end.

(** The promise returned by [createGifFromVideo]: how it settles, and
    the studio by then. *)
Definition createGifFromVideo (videoUrl : string) (s : Studio V)
  : Outcome Blob * Studio V :=
  if negb (encoderLoaded lib)
  then (Threw (newError "GIF library failed to load correctly. Please refresh the page."), s)
  else
    match loadMetadata dom videoUrl (element s) with
    | (None, v) => (Threw videoLoadFailed, mkStudio v (journal s))
    | (Some video, v) =>
        let height := targetHeight video in
        let totalFrames :=
          match totalFrames (video_duration video) with
          | Some n => n
          | None => 0   (* never: [duration_countable] *)
          end in
        if negb (contextAvailable dom)
        then (Threw (newError "Could not get canvas context"), mkStudio v (journal s))
        else
          andThen (library (GIFEncoder lib)) (fun gif =>
          andThen (encodeFrames (Z.to_nat totalFrames) 0 height gif) (fun gif =>
          andThen (library (finish lib gif)) (fun gif =>
          andThen (library (bytes lib gif)) (fun buffer =>
          library (Returned (mkBlob buffer "image/gif"))))))
            (mkStudio v (journal s))
    end.

End Transcoder.


(* ===================================================================== *)
(** ** History management ([utils.ts])                                    *)
(* ===================================================================== *)

Module History.

Definition MAX_HISTORY_ITEMS : Z := 20.

Record HistoryItem : Type := mkHistoryItem {
  id : string;
  text : string;
  style : string;
  typographyPrompt : string;
  imageSrc : string;
  videoUrl : string;
  timestamp : Z;
  mimeType : string
}.

(** [Omit<HistoryItem, 'id' | 'timestamp'>] *)
Record NewItem : Type := mkNewItem {
  new_text : string;
  new_style : string;
  new_typographyPrompt : string;
  new_imageSrc : string;
  new_videoUrl : string;
  new_mimeType : string
}.

(** An element of the stored array, as [JSON.parse] gives it back: the
    [videoUrl] property may be missing. *)
Record StoredItem : Type := mkStoredItem {
  s_id : string;
  s_text : string;
  s_style : string;
  s_typographyPrompt : string;
  s_imageSrc : string;
  s_videoUrl : option string;
  s_timestamp : Z;
  s_mimeType : string
}.

(** [JSON.stringify] of an array of items, and [JSON.parse] followed by
    the reading of the array; [None] when that throws. *)
Record Json : Type := mkJson {
  stringify : list StoredItem -> string;
  parse : string -> option (list StoredItem)
}.

(** [localStorage], as far as the key [motioncraft_history] goes: whether
    the storage can be used at all, the string stored under the key, and
    the longest string that the quota lets this key hold. *)
Record Storage : Type := mkStorage {
  available : bool;
  slot : option string;
  capacity : nat
}.

Definition storageError : JsError := newError "The operation is insecure.".
Definition quotaError : JsError := newError "The quota has been exceeded.".

(** [localStorage.getItem(HISTORY_STORAGE_KEY)] *)
Definition getItem (st : Storage) : Outcome (option string) :=
  if available st then Returned (slot st) else Threw storageError.

(** [localStorage.setItem(HISTORY_STORAGE_KEY, value)] *)
Definition setItem (value : string) (st : Storage) : Outcome unit * Storage :=
  if negb (available st) then (Threw storageError, st)
  else if (String.length value <=? capacity st)%nat
       then (Returned tt, mkStorage true (Some value) (capacity st))
       else (Threw quotaError, st).

(** [localStorage.removeItem(HISTORY_STORAGE_KEY)] *)
Definition removeItem (st : Storage) : Outcome unit * Storage :=
  if available st then (Returned tt, mkStorage true None (capacity st))
  else (Threw storageError, st).

(** What the clock and the random source give to one call of
    [saveToHistory]: [Date.now()] for the identifier,
    [Math.random().toString(36).substr(2, 9)], and [Date.now()] for the
    timestamp. *)
Record Stamp : Type := mkStamp {
  idTime : Z;
  idSuffix : string;
  stampTime : Z
}.

(** A number in a template literal (an integer below [10^21]). *)
Definition decimal (z : Z) : string := NilZero.string_of_int (Z.to_int z).

(** [{ ...item, videoUrl: item.videoUrl || '' }] *)
Definition restore (item : StoredItem) : HistoryItem :=
  mkHistoryItem (s_id item) (s_text item) (s_style item) (s_typographyPrompt item)
    (s_imageSrc item)
    match s_videoUrl item with
    | Some (String c r as u) => u
    | _ => ""
    end
    (s_timestamp item) (s_mimeType item).

(** An item as it goes into [JSON.stringify]. *)
Definition toStored (item : HistoryItem) : StoredItem :=
  mkStoredItem (id item) (text item) (style item) (typographyPrompt item)
    (imageSrc item) (Some (videoUrl item)) (timestamp item) (mimeType item).

(** [({ videoUrl, ...rest }) => ({ ...rest, videoUrl:
    videoUrl.startsWith('blob:') ? '' : videoUrl })] *)
Definition withoutBlobUrl (item : HistoryItem) : HistoryItem :=
  mkHistoryItem (id item) (text item) (style item) (typographyPrompt item)
    (imageSrc item)
    (if String.prefix "blob:" (videoUrl item) then "" else videoUrl item)
    (timestamp item) (mimeType item).

Section WithJson.
Context (json : Json).

Definition getHistory (st : Storage) : list HistoryItem :=
  match getItem st with
  | Threw error => []
  | Returned None => []
  | Returned (Some EmptyString) => []
  | Returned (Some stored) =>
      match parse json stored with
      | Some parsed => map restore parsed
      | None => []
      end
  end.

Definition newHistoryItem (item : NewItem) (stamp : Stamp) : HistoryItem :=
  mkHistoryItem
    ("history_" ++ decimal (idTime stamp) ++ "_" ++ idSuffix stamp)
    (new_text item) (new_style item) (new_typographyPrompt item)
    (new_imageSrc item) (new_videoUrl item)
    (stampTime stamp) (new_mimeType item).

Definition saveToHistory (item : NewItem) (stamp : Stamp) (st : Storage) : Storage :=
  let history := getHistory st in
  let newItem := newHistoryItem item stamp in
  let updatedHistory := firstn (Z.to_nat MAX_HISTORY_ITEMS) (newItem :: history) in
  let storageData := map withoutBlobUrl updatedHistory in
  match setItem (stringify json (map toStored storageData)) st with
  | (Returned _, st') => st'
  | (Threw error, st') =>
      let history := getHistory st' in
      let trimmed := firstn (Z.to_nat (MAX_HISTORY_ITEMS / 2)) history in
      match setItem (stringify json (map toStored trimmed)) st' with
      | (Returned _, st'') => st''
      | (Threw e, st'') => st''
      end
  end.

Definition clearHistory (st : Storage) : Storage :=
  match removeItem st with
  | (Returned _, st') => st'
  | (Threw error, st') => st'
  end.

Definition removeHistoryItem (id0 : string) (st : Storage) : Storage :=
  let history := getHistory st in
  let filtered := filter (fun item => negb (String.eqb (id item) id0)) history in
  match setItem (stringify json (map toStored filtered)) st with
  | (Returned _, st') => st'
  | (Threw error, st') => st'
  end.

End WithJson.

(** [formatHistoryDate(timestamp)], called when the clock reads [nowMs];
    [toLocaleDateString] stands for the method of that name. *)
Definition formatHistoryDate (toLocaleDateString : Z -> string) (nowMs timestamp : Z)
  : string :=
  let diffMs := nowMs - timestamp in
  let diffMins := diffMs / 60000 in
  let diffHours := diffMs / 3600000 in
  let diffDays := diffMs / 86400000 in
  if diffMins <? 1 then "Just now"
  else if diffMins <? 60 then decimal diffMins ++ "m ago"
  else if diffHours <? 24 then decimal diffHours ++ "h ago"
  else if diffDays <? 7 then decimal diffDays ++ "d ago"
  else toLocaleDateString timestamp.

End History.

(* ===================================================================== *)
(** ** The hero carousel ([App.tsx])                                      *)
(* ===================================================================== *)

Module Carousel.

Record Video : Type := mkVideo {
  id : string;
  title : string;
  videoUrl : string;
  description : string
}.

Definition staticFilesUrl : string :=
  "https://www.gstatic.com/aistudio/starter-apps/type-motion/".

Definition MOCK_VIDEOS : list Video := [
  mkVideo "1" "Cloud Formations" (staticFilesUrl ++ "clouds_v2.mp4")
    "Text formed by fluffy white clouds in a deep blue summer sky.";
  mkVideo "2" "Elemental Fire" (staticFilesUrl ++ "fire_v2.mp4")
    "Flames erupt into text in an arid dry environment.";
  mkVideo "3" "Mystic Smoke" (staticFilesUrl ++ "smoke_v2.mp4")
    "A sudden wave of smoke swirling to reveal the text.";
  mkVideo "4" "Water Blast" (staticFilesUrl ++ "water_v2.mp4")
    "A wall of water punching through text with power."
].

(** [(prev) => (prev + 1) % MOCK_VIDEOS.length] *)
Definition handleNext (prev : Z) : Z :=
  Z.rem (prev + 1) (Z.of_nat (List.length MOCK_VIDEOS)).

(** [(prev) => (prev - 1 + MOCK_VIDEOS.length) % MOCK_VIDEOS.length] *)
Definition handlePrev (prev : Z) : Z :=
  Z.rem (prev - 1 + Z.of_nat (List.length MOCK_VIDEOS)) (Z.of_nat (List.length MOCK_VIDEOS)).

(** [MOCK_VIDEOS[currentIndex]], [undefined] outside the array. *)
Definition currentVideo (currentIndex : Z) : option Video :=
  if currentIndex <? 0 then None else nth_error MOCK_VIDEOS (Z.to_nat currentIndex).

End Carousel.

(* ===================================================================== *)
(** ** The generation session ([startProcess] of [App.tsx])               *)
(* ===================================================================== *)

Module App.

(** Modelled from the spec: the enumeration [AppState] is declared in
    [./types], which is not among the sources; these are the five members
    that [App.tsx] names. *)
Inductive AppState : Type :=
| IDLE
| GENERATING_IMAGE
| GENERATING_VIDEO
| PLAYING
| ERROR.

(** The state variables of the component that [startProcess] reads or
    sets. *)
Record Ui : Type := mkUi {
  state : AppState;
  showKeyDialog : bool;
  inputText : string;
  inputStyle : string;
  typographyPrompt : string;
  referenceImage : option string;
  imageSrc : option string;
  videoSrc : option string;
  statusMessage : string;
  isGifGenerating : bool
}.

(** What the page provides besides the generation service. *)
Record Shell (E : Type) : Type := mkShell {
  (* [window.aistudio?.hasSelectedApiKey], when there is one *)
  hasSelectedApiKey : option (E -> Outcome bool * E);
  (* [process.env.GEMINI_API_KEY] *)
  GEMINI_API_KEY : option string;
  (* [URL.revokeObjectURL(url)] *)
  revokeObjectURL : string -> E -> E
}.

(** A value inside a template literal. *)
Definition render (o : option string) : string :=
  match o with
  | Some s => s
  | None => "undefined"
  end.

(** [!!(apiKey && apiKey !== 'undefined' && apiKey.trim().length > 0)] *)
Definition usableKey (apiKey : option string) : bool :=
  match apiKey with
  | Some k => truthy k && negb (String.eqb k "undefined") && (0 <? String.length (trim k))%nat
  | None => false
  end.

(** [a || b] on two strings that may be undefined. *)
Definition orElse (a b : option string) : option string :=
  match a with
  | Some (String c r) => a
  | _ => b
  end.

Section WithHost.
Context {E : Type} {timers : Timers E} (host : Host E) (shell : Shell E).

(** The check for an API key. *)
Definition keySelected : M E bool :=
  match hasSelectedApiKey shell with
  | Some ask =>
      fun w =>
        let '(answer, e') := ask (remote w) in
        (answer, mkWorld (now w) (trace w) e')
  | None => ret (usableKey (orElse (API_KEY host) (GEMINI_API_KEY shell)))
  end.

(** The state once [catch (err)] has run. *)
Definition failed (ui : Ui) (err : JsError) : Ui :=
  mkUi ERROR
    (match message err with
     | Some (String c r as m) =>
         if includes m "Requested entity was not found." then true else showKeyDialog ui
     | _ => showKeyDialog ui
     end)
    (inputText ui) (inputStyle ui) (typographyPrompt ui) (referenceImage ui)
    (imageSrc ui) (videoSrc ui)
    (match message err with
     | Some (String c r as m) => m
     | _ => "Failed to create art."
     end)
    (isGifGenerating ui).

(** [startProcess(e)], run to its end on its own: the state variables as
    the handler found them, and as its last setter left them. *)
Definition startProcess (ui : Ui) : M E Ui :=
  if negb (truthy (trim (inputText ui))) then ret ui
  else
    selected <- keySelected ;;
    if negb selected
    then ret (mkUi (state ui) true (inputText ui) (inputStyle ui) (typographyPrompt ui)
                (referenceImage ui) (imageSrc ui) (videoSrc ui) (statusMessage ui)
                (isGifGenerating ui))
    else
      fun w0 =>
        let w1 :=
          match videoSrc ui with
          | Some v =>
              if String.prefix "blob:" v
              then mkWorld (now w0) (trace w0) (revokeObjectURL shell v (remote w0))
              else w0
          | None => w0
          end in
        let '(styleOutcome, w2) :=
          if truthy (trim (inputStyle ui))
          then (Returned (trim (inputStyle ui)), w1)
          else
            match getRandomStyle host w1 with
            | (Returned s, w) => (Returned (render s), w)
            | (Threw e, w) => (Threw e, w)
            end in
        match styleOutcome with
        | Threw e => (Threw e, w2)
        | Returned styleToUse =>
            let designing :=
              mkUi GENERATING_IMAGE (showKeyDialog ui) (inputText ui) (inputStyle ui)
                (typographyPrompt ui) (referenceImage ui) None None
                ("Designing " ++ dquote ++ inputText ui ++ dquote ++ "...") false in
            match generateTextImage host
                    (mkTextImageOptions (inputText ui) styleToUse
                       (Some (typographyPrompt ui))
                       (orElse (referenceImage ui) None)) w2 with
            | (Threw err, w3) => (Returned (failed designing err), w3)
            | (Returned image, w3) =>
                let b64Image := image_data image in
                let mimeType := image_type image in
                let animating :=
                  mkUi GENERATING_VIDEO (showKeyDialog ui) (inputText ui) (inputStyle ui)
                    (typographyPrompt ui) (referenceImage ui)
                    (Some ("data:" ++ mimeType ++ ";base64," ++ render b64Image)) None
                    "Animating..." false in
                match generateTextVideo host (inputText ui)
                        (match b64Image with Some b => b | None => "" end)
                        mimeType styleToUse w3 with
                | (Threw err, w4) => (Returned (failed animating err), w4)
                | (Returned videoUrl, w4) =>
                    (Returned
                       (mkUi PLAYING (showKeyDialog ui) (inputText ui) (inputStyle ui)
                          (typographyPrompt ui) (referenceImage ui)
                          (imageSrc animating) (Some videoUrl) "Animating..." false),
                     w4)
                end
            end
        end.

End WithHost.

End App.

(* ===================================================================== *)
(** ** Vocabulary of the properties                                    *)
(* ===================================================================== *)

Local Open Scope list_scope.

Unset Implicit Arguments.

Definition isRetrierEvent (ev : Event) : bool :=
  match ev with
  | EvAttempt | EvSleep _ => true
  | EvRequest _ => false
  end.

(** The attempts and sleeps of a trace, in order. *)
Definition retrierView (tr : list Event) : list Event := filter isRetrierEvent tr.

(** How many times a wrapped operation was invoked. *)
Fixpoint attemptsOf (tr : list Event) : nat :=
  match tr with
  | [] => 0
  | EvAttempt :: rest => S (attemptsOf rest)
  | _ :: rest => attemptsOf rest
  end.

(** The delays slept, in order. *)
Fixpoint sleepsOf (tr : list Event) : list Z :=
  match tr with
  | [] => []
  | EvSleep ms :: rest => ms :: sleepsOf rest
  | _ :: rest => sleepsOf rest
  end.

(** The requests sent, in order. *)
Fixpoint requestsOf (tr : list Event) : list Request :=
  match tr with
  | [] => []
  | EvRequest r :: rest => r :: requestsOf rest
  | _ :: rest => requestsOf rest
  end.

(** What a retrier does when every attempt but the last is followed by a
    backoff: attempt, sleep [baseDelay], attempt, sleep [2 * baseDelay], ...
    with [n] sleeps and [n + 1] attempts. *)
Fixpoint backoffSchedule (n : nat) (baseDelay : Z) : list Event :=
  match n with
  | O => [EvAttempt]
  | S n' => EvAttempt :: EvSleep baseDelay :: backoffSchedule n' (baseDelay * 2)
  end.

(** [baseDelay * 2^k] for [k = from, from + 1, ..., from + n - 1]. *)
Fixpoint doublings (n : nat) (delay : Z) : list Z :=
  match n with
  | O => []
  | S n' => delay :: doublings n' (delay * 2)
  end.

(** An operation that neither sleeps nor goes through the retrier itself
    leaves the attempts and sleeps of the trace as they are. *)
Definition quiet {E A} (fn : M E A) : Prop :=
  forall w0, retrierView (trace (snd (fn w0))) = retrierView (trace w0).

(** The world in which the retrier makes its attempt of rank [k] (the
    first one has rank 0) when every attempt before it failed and was
    retried: what these attempts, and the sleep that followed each of
    them, have made of [w]. *)
Fixpoint beforeAttempt {E A} {timers : Timers E} (fn : M E A) (k : nat)
    (baseDelay : Z) (w : World E) : World E :=
  match k with
  | O => w
  | S k' =>
      beforeAttempt fn k' (baseDelay * 2)
        (snd (sleep baseDelay (snd (fn (record EvAttempt w)))))
  end.

(** The attempt of rank [k] of that run: how the operation settles when it
    is invoked there, and the world it leaves. *)
Definition attempt {E A} {timers : Timers E} (fn : M E A) (k : nat)
    (baseDelay : Z) (w : World E) : Outcome A * World E :=
  fn (record EvAttempt (beforeAttempt fn k baseDelay w)).

(** How long a host may take to answer a status check, at most. *)
Definition statusLatencyWithin {E} (host : Host E) (limit : Z) : Prop :=
  forall (op : Operation) (t : Z) (e : E),
    Z.of_N (fst (fst (getVideosOperation host op t e))) <= limit.

(** How late a timer may fire, at most. *)
Definition timersWithin {E} (timers : Timers E) (lag : Z) : Prop :=
  forall (ms t : Z) (e : E), Z.of_N (fst (lateness ms t e)) <= lag.

(** The three ways in which the poll loop ends. *)
Inductive PollEnd {E : Type} (host : Host E) (startTime : Z)
  : Outcome Operation * World E -> Prop :=
| EndDone (op : Operation) (w : World E) :
    isDone op = true -> PollEnd host startTime (Returned op, w)
| EndTimeout (w : World E) :
    now w - startTime > MAX_WAIT_TIME -> PollEnd host startTime (Threw timeoutError, w)
| EndFailure (e : JsError) (op : Operation) (w1 w2 : World E) :
    checkStatus host op w1 = (Threw e, w2) ->
    isTransientPollFailure e = false ->
    PollEnd host startTime (Threw e, w2).


(** The frames appended, in order. *)
Fixpoint framesWritten (j : list TranscodeEvent) : list Frame :=
  match j with
  | [] => []
  | FrameWritten f :: rest => f :: framesWritten rest
  | _ :: rest => framesWritten rest
  end.

(** What complete turns of the loop leave in the journal, from the index
    [i] on: for each, the timestamp sought, the pixels read back and the
    frame appended. *)
Fixpoint shooting (i : Z) (shots : list (ImageData * Frame)) : list TranscodeEvent :=
  match shots with
  | [] => []
  | (data, f) :: rest =>
      Sought (sampleTime i) :: Drawn data :: FrameWritten f :: shooting (i + 1) rest
  end.



(** The encoder after the given frames have been appended, in order. *)
Fixpoint appendAll {G : Type} (lib : GifLibrary G) (frames : list Frame) (gif : G)
  : Outcome G :=
  match frames with
  | [] => Returned gif
  | f :: rest =>
      match writeFrame lib f gif with
      | Returned gif' => appendAll lib rest gif'
      | Threw e => Threw e
      end
  end.

(** One complete turn of the loop for the index [i], from the element as
    the turn finds it to the element as it leaves it: no media error
    during the two waits, the timestamp sought, the canvas read back, and
    the frame built from the pixels that were read back then. *)
Inductive Shot {V G : Type} (dom : VideoHost V) (lib : GifLibrary G)
    (height : option Z) (i : Z) : V -> V -> ImageData -> Frame -> Prop :=
| shot (v0 v1 v2 v3 : V) (data : ImageData) (palette : Palette) (index : IndexedPixels) :
    yieldToMainThread dom v0 = (false, v1) ->
    seek dom (sampleTime i) v1 = (false, v2) ->
    capture dom targetWidth height v2 = (Returned data, v3) ->
    quantize lib data 256 = Returned palette ->
    applyPalette lib data palette = Returned index ->
    Shot dom lib height i v0 v3 data
      (mkFrame index targetWidth height palette (number 100)).

(** Complete turns in a row, for the indices from [i] on. *)
Inductive Shots {V G : Type} (dom : VideoHost V) (lib : GifLibrary G)
    (height : option Z) : Z -> V -> list (ImageData * Frame) -> V -> Prop :=
| shots_done (i : Z) (v : V) : Shots dom lib height i v [] v
| shots_more (i : Z) (v v' v'' : V) (data : ImageData) (f : Frame)
    (rest : list (ImageData * Frame)) :
    Shot dom lib height i v v' data f ->
    Shots dom lib height (i + 1) v' rest v'' ->
    Shots dom lib height i v ((data, f) :: rest) v''.


(** What a turn of the loop that was cut short leaves in the journal. *)
Inductive Interrupted : list TranscodeEvent -> Prop :=
| before_seek : Interrupted []
| after_seek (t : Number) : Interrupted [Sought t]
| after_capture (t : Number) (data : ImageData) : Interrupted [Sought t; Drawn data].

(* ===================================================================== *)
(** ** Scripted hosts and sample inputs, for concrete runs             *)
(* ===================================================================== *)

(** Timers that fire exactly when their delay has elapsed, for the hosts
    below, whose outside world is a count of requests. *)
#[global] Instance punctual : Timers nat := mkTimers (fun _ _ n => (0%N, n)).

(** Timers that fire two seconds late, every one of them. *)
Definition tardy : Timers nat := mkTimers (fun _ _ n => (2000%N, n)).

(** A host whose outside world is the number of requests answered so far:
    the [n]-th request of any kind is answered by the script of its kind. *)
Definition scriptedHost
    (content : nat -> Reply GenerateContentResponse)
    (videos : nat -> Reply Operation)
    (status : nat -> Operation -> Reply Operation)
    (download : nat -> Reply FetchResponse)
    (draw : Unit01) : Host nat :=
  mkHost
    (fun _ _ n => (content n, S n))
    (fun _ _ n => (videos n, S n))
    (fun op _ n => (status n op, S n))
    (fun _ _ n => (download n, S n))
    (fun n => (draw, n))
    (fun _ n => ("blob:video", n))
    (fun uri key => Returned (uri ++ "?key=" ++ key)%string)
    (fun _ _ => "data:image/png;base64,iVBORw0KGgo=")
    (Some "k").

Definition offline {A : Type} : nat -> Reply A :=
  fun _ => (0%N, Threw (newError "Failed to fetch")).

Definition zeroDraw : Unit01 := mkUnit01 0 0 eq_refl.

Definition pendingOperation : Operation :=
  mkOperation "operations/1" (Some false) None None.

Definition finishedOperation : Operation :=
  mkOperation "operations/1" (Some true) None (Some "https://videos.example/1").

Definition startOfTime : World nat := mkWorld 0 [] O.

(** Every status check takes two seconds and finds the job still running. *)
Definition sluggishHost : Host nat :=
  scriptedHost offline offline (fun _ op => (2000%N, Returned op)) offline zeroDraw.

(** Every status check is answered at once and finds the job still
    running. *)
Definition stalledHost : Host nat :=
  scriptedHost offline offline (fun _ op => (0%N, Returned op)) offline zeroDraw.

(** The first status check is refused for rate limiting; the job is
    finished by the time of the second. *)
Definition rateLimitedHost : Host nat :=
  scriptedHost offline offline
    (fun n _ =>
       match n with
       | O => (0%N, Threw (newError "429 Too Many Requests"))
       | _ => (0%N, Returned finishedOperation)
       end)
    offline zeroDraw.

(** The first status check meets an overloaded service; the job is
    finished by the time of the second. *)
Definition overloadedHost : Host nat :=
  scriptedHost offline offline
    (fun n _ =>
       match n with
       | O => (150%N, Threw (newError "503 Service Unavailable"))
       | _ => (150%N, Returned finishedOperation)
       end)
    offline zeroDraw.

(** An operation that is refused for good. *)
Definition alwaysForbidden : M nat nat :=
  fun w => (Threw (newError "403 Forbidden"), w).

(** The asset server answers every download with 404. *)
Definition notFoundHost : Host nat :=
  scriptedHost offline offline (fun _ op => (0%N, Returned op))
    (fun _ => (0%N, Returned (mkFetchResponse false "Not Found"
                                (Threw (newError "body unavailable")))))
    zeroDraw.

(** The asset server is overloaded: every download is refused with 503. *)
Definition busyAssetHost : Host nat :=
  scriptedHost offline offline (fun _ op => (0%N, Returned op))
    (fun _ => (0%N, Threw (newError "503 Service Unavailable")))
    zeroDraw.

(** Nothing can be reached. *)
Definition offlineHost : Host nat :=
  scriptedHost offline offline (fun _ _ => (0%N, Threw (newError "Failed to fetch")))
    offline zeroDraw.

(** The style request is answered with blank text. *)
Definition blankHost : Host nat :=
  scriptedHost
    (fun _ => (40%N, Returned (mkGenerateContentResponse (Some "   ") None)))
    offline (fun _ op => (0%N, Returned op)) offline zeroDraw.

Definition helloWithReference : TextImageOptions :=
  mkTextImageOptions "HELLO" "neon" None (Some "data:image/png;base64,QUJD").

Definition helloWithoutReference : TextImageOptions :=
  mkTextImageOptions "HELLO" "neon" None None.

(** A clip of the given duration, 1280 by 720. *)
Definition clip (d : Number) (ok : countable d = true) : Metadata :=
  mkMetadata d 1280 720 ok.

Definition fiveSeconds : Metadata := clip (number 5) eq_refl.

(** A video that loads with the given metadata, meets no media error, and
    whose frames are all read back as four zero bytes. *)
Definition stillVideoHost (video : Metadata) : VideoHost unit :=
  mkVideoHost
    (fun _ v => (Some video, v))
    true
    (fun v => (false, v))
    (fun _ v => (false, v))
    (fun _ _ v => (Returned [Byte.x00; Byte.x00; Byte.x00; Byte.x00], v)).

(** A stand-in for the encoder: a byte stream that grows by a separator
    for each frame and by the trailer when finished. *)
Definition plainGif : GifLibrary (list Byte.byte) :=
  mkGifLibrary
    true
    (Returned [])
    (fun _ _ => Returned [(0, 0, 0)%N])
    (fun data _ => Returned data)
    (fun _ g => Returned (g ++ [Byte.x2c]))
    (fun g => Returned (g ++ [Byte.x3b]))
    (fun g => Returned g).

Definition emptyStudio : Studio unit := mkStudio tt [].

(** A video whose frames cannot be read back. *)
Definition taintedVideoHost : VideoHost unit :=
  mkVideoHost
    (fun _ v => (Some fiveSeconds, v))
    true
    (fun v => (false, v))
    (fun _ v => (false, v))
    (fun _ _ v => (Threw (newError "The canvas has been tainted by cross-origin data."), v)).

(** A video whose stream breaks during the third seek; the element counts
    the seeks. *)
Definition brokenStreamHost : VideoHost nat :=
  mkVideoHost
    (fun _ v => (Some fiveSeconds, v))
    true
    (fun v => (false, v))
    (fun _ v => ((2 <=? v)%nat, S v))
    (fun _ _ v => (Returned [Byte.x00; Byte.x00; Byte.x00; Byte.x00], v)).



(** The sum of a list of delays. *)
Fixpoint sumZ (l : list Z) : Z :=
  match l with
  | [] => 0
  | x :: rest => x + sumZ rest
  end.

(** One turn of the poll loop on the trace: the sleep, then the status
    check of the given handle. *)
Definition pollTurn (op : Operation) : list Event :=
  [EvSleep POLL_INTERVAL; EvRequest (ReqGetVideosOperation op)].

(** The turns of the poll loop that can still start when it is at [w]. *)
Definition turnsLeft {E : Type} (startTime : Z) (w : World E) : Z :=
  if now w - startTime >? MAX_WAIT_TIME then 0
  else (MAX_WAIT_TIME - (now w - startTime)) / POLL_INTERVAL + 1.

(** Whether the character [c] occurs nowhere in [s]. *)
Fixpoint lacks (c : ascii) (s : string) : bool :=
  match s with
  | EmptyString => true
  | String c' rest => negb (Ascii.eqb c' c) && lacks c rest
  end.

(** Whether [s] is free of line terminators. *)
Fixpoint singleLine (s : string) : bool :=
  match s with
  | EmptyString => true
  | String c rest => negb (isLineTerminator c) && singleLine rest
  end.

(** [`data:${mimeType};base64,${payload}`] *)
Definition dataUrl (mimeType payload : string) : string :=
  ("data:" ++ mimeType ++ ";base64," ++ payload)%string.

Definition isStatusCheck (r : Request) : Prop :=
  match r with ReqGetVideosOperation _ => True | _ => False end.

Definition isDownload (r : Request) : Prop :=
  match r with ReqFetch _ => True | _ => False end.

(** The parts of an answer, none when it has no candidate. *)
Definition answerParts (response : GenerateContentResponse) : list Part :=
  match resp_parts response with Some ps => ps | None => [] end.

(** [op.error.message || "The video generation service ..."] *)
Definition jobErrorMessage (err : OpError) : string :=
  match op_message err with
  | Some (String c r as m) => m
  | _ => "The video generation service encountered an internal error."
  end.

(** The operation that [generateTextVideo] hands to the retrier: the
    submission of the job. *)
Definition submitVideo {E : Type} (host : Host E)
    (text imageBase64 imageMimeType promptStyle : string) : M E Operation :=
  let request := videoRequest host text imageBase64 imageMimeType promptStyle in
  call (ReqGenerateVideos request) (generateVideos host request).

Definition isSubmission (r : Request) : Prop :=
  match r with ReqGenerateVideos _ => True | _ => False end.

Module HistoryVocabulary.
Import History.

(** What is assumed of [JSON]: parsing what was stringified gives it back,
    and a stringified array is never the empty string. *)
Definition lawful (json : Json) : Prop :=
  (forall l, parse json (stringify json l) = Some l)
  /\ (forall l, stringify json l <> EmptyString).

(** Whether the array of items, once stringified, can be stored. *)
Definition fits (json : Json) (items : list HistoryItem) (st : Storage) : bool :=
  available st && (String.length (stringify json (map toStored items)) <=? capacity st)%nat.

Definition hasBlobUrl (item : HistoryItem) : bool :=
  String.prefix "blob:" (videoUrl item).

End HistoryVocabulary.

(** A codec that writes lengths with tally marks, to run the history
    functions on. *)
Module TallyJson.
Import History.

Fixpoint tally (n : nat) : string :=
  match n with
  | O => "0"
  | S k => String "1" (tally k)
  end.

Fixpoint readTally (s : string) : option (nat * string) :=
  match s with
  | String c rest =>
      if Ascii.eqb c "0" then Some (O, rest)
      else if Ascii.eqb c "1"
           then match readTally rest with
                | Some (n, r) => Some (S n, r)
                | None => None
                end
           else None
  | EmptyString => None
  end.

Fixpoint splitAt (n : nat) (s : string) : option (string * string) :=
  match n, s with
  | O, _ => Some (EmptyString, s)
  | S k, String c rest =>
      match splitAt k rest with
      | Some (a, b) => Some (String c a, b)
      | None => None
      end
  | S _, EmptyString => None
  end.

Definition writeString (s : string) : string := tally (String.length s) ++ s.

Definition readString (s : string) : option (string * string) :=
  match readTally s with
  | Some (n, rest) => splitAt n rest
  | None => None
  end.

Definition writeOption (o : option string) : string :=
  match o with
  | Some s => String "S" (writeString s)
  | None => "N"
  end.

Definition readOption (s : string) : option (option string * string) :=
  match s with
  | String c rest =>
      if Ascii.eqb c "N" then Some (None, rest)
      else if Ascii.eqb c "S"
           then match readString rest with
                | Some (v, r) => Some (Some v, r)
                | None => None
                end
           else None
  | EmptyString => None
  end.

Definition writeZ (z : Z) : string :=
  String (if z <? 0 then "-"%char else "+"%char) (tally (Z.abs_nat z)).

Definition readZ (s : string) : option (Z * string) :=
  match s with
  | String c rest =>
      match readTally rest with
      | Some (n, r) =>
          if Ascii.eqb c "-" then Some (- Z.of_nat n, r)
          else if Ascii.eqb c "+" then Some (Z.of_nat n, r) else None
      | None => None
      end
  | EmptyString => None
  end.

Definition writeItem (i : StoredItem) : string :=
  writeString (s_id i) ++ writeString (s_text i) ++ writeString (s_style i) ++
  writeString (s_typographyPrompt i) ++ writeString (s_imageSrc i) ++
  writeOption (s_videoUrl i) ++ writeZ (s_timestamp i) ++ writeString (s_mimeType i).

Definition readItem (s : string) : option (StoredItem * string) :=
  match readString s with
  | Some (a, s1) =>
    match readString s1 with
    | Some (b, s2) =>
      match readString s2 with
      | Some (c, s3) =>
        match readString s3 with
        | Some (d, s4) =>
          match readString s4 with
          | Some (e, s5) =>
            match readOption s5 with
            | Some (f, s6) =>
              match readZ s6 with
              | Some (g, s7) =>
                match readString s7 with
                | Some (h, s8) => Some (mkStoredItem a b c d e f g h, s8)
                | None => None
                end
              | None => None
              end
            | None => None
            end
          | None => None
          end
        | None => None
        end
      | None => None
      end
    | None => None
    end
  | None => None
  end.

Fixpoint writeItems (l : list StoredItem) : string :=
  match l with
  | [] => EmptyString
  | i :: rest => writeItem i ++ writeItems rest
  end.

Fixpoint readItems (n : nat) (s : string) : option (list StoredItem * string) :=
  match n with
  | O => Some ([], s)
  | S k =>
      match readItem s with
      | Some (i, rest) =>
          match readItems k rest with
          | Some (l, r) => Some (i :: l, r)
          | None => None
          end
      | None => None
      end
  end.

Definition tallyStringify (l : list StoredItem) : string :=
  tally (List.length l) ++ writeItems l.

Definition tallyParse (s : string) : option (list StoredItem) :=
  match readTally s with
  | Some (n, rest) =>
      match readItems n rest with
      | Some (l, EmptyString) => Some l
      | _ => None
      end
  | None => None
  end.

Definition tallyJson : Json := mkJson tallyStringify tallyParse.

Definition emptyStorage : Storage := mkStorage true None 4096.

Definition helloItem : NewItem :=
  mkNewItem "HELLO" "neon" "" "data:image/png;base64,QUJD" "blob:https://app/1" "image/png".

Definition firstStamp : Stamp := mkStamp 7 "k3x9q1zab" 7.

End TallyJson.

(** The image service answers with a comment and then the picture. *)
Definition pictureResponse : GenerateContentResponse :=
  mkGenerateContentResponse (Some "Here it is.")
    (Some [PartText "Here it is."; PartInline (mkInlineData (Some "QUJD") None)]).

Definition pictureHost : Host nat :=
  scriptedHost (fun _ => (900%N, Returned pictureResponse))
    offline (fun _ op => (0%N, Returned op)) offline zeroDraw.

(** The image service is overloaded for its first [failures] requests,
    which it refuses after 120 ms, and answers with the picture from then
    on. *)
Definition flakyHost (failures : nat) : Host nat :=
  scriptedHost
    (fun n => if (n <? failures)%nat
              then (120%N, Threw (newError "503 Service Unavailable"))
              else (900%N, Returned pictureResponse))
    offline (fun _ op => (0%N, Returned op)) offline zeroDraw.

(** The image service answers with words only. *)
Definition wordsOnlyHost : Host nat :=
  scriptedHost
    (fun _ => (900%N, Returned (mkGenerateContentResponse (Some "Sorry.")
                                  (Some [PartText "Sorry."]))))
    offline (fun _ op => (0%N, Returned op)) offline zeroDraw.

(** The job is accepted at once and has failed by the first status
    check. *)
Definition failedOperation : Operation :=
  mkOperation "operations/1" (Some true) (Some (mkOpError (Some "Quota exceeded.")))
    (Some "https://videos.example/1").

Definition failingJobHost : Host nat :=
  scriptedHost offline (fun _ => (0%N, Returned pendingOperation))
    (fun _ _ => (0%N, Returned failedOperation)) offline zeroDraw.

(** Every service answers: the picture, the job, its completion and the
    bytes of the video. *)
Definition servingHost : Host nat :=
  scriptedHost (fun _ => (900%N, Returned pictureResponse))
    (fun _ => (300%N, Returned pendingOperation))
    (fun _ _ => (200%N, Returned finishedOperation))
    (fun _ => (700%N, Returned (mkFetchResponse true "OK"
                                  (Returned (mkBlob [Byte.x00] "video/mp4")))))
    zeroDraw.

(** A page without [window.aistudio]. *)
Definition plainShell : App.Shell nat := App.mkShell None None (fun _ e => e).


Definition helloForm : App.Ui :=
  App.mkUi App.IDLE false "HELLO" "neon" "" None None None "" false.


(* ===================================================================== *)
(** * Properties                                                          *)
(* ===================================================================== *)

(* ===================================================================== *)
(** ** Reading the record of effects                                      *)
(* ===================================================================== *)

Lemma attemptsOf_app (a b : list Event) :
  attemptsOf (a ++ b) = (attemptsOf a + attemptsOf b)%nat.
Proof.
  induction a as [| ev a IH]; simpl; [reflexivity |].
  destruct ev; simpl; rewrite IH; reflexivity.
Qed.

Lemma sleepsOf_app (a b : list Event) :
  sleepsOf (a ++ b) = sleepsOf a ++ sleepsOf b.
Proof.
  induction a as [| ev a IH]; simpl; [reflexivity |].
  destruct ev; simpl; rewrite IH; reflexivity.
Qed.

Lemma requestsOf_app (a b : list Event) :
  requestsOf (a ++ b) = requestsOf a ++ requestsOf b.
Proof.
  induction a as [| ev a IH]; simpl; [reflexivity |].
  destruct ev; simpl; rewrite IH; reflexivity.
Qed.

Lemma retrierView_app (a b : list Event) :
  retrierView (a ++ b) = retrierView a ++ retrierView b.
Proof. apply filter_app. Qed.

Lemma attemptsOf_view (tr : list Event) : attemptsOf (retrierView tr) = attemptsOf tr.
Proof.
  induction tr as [| ev tr IH]; simpl; [reflexivity |].
  destruct ev; simpl; rewrite ?IH; reflexivity.
Qed.

Lemma sleepsOf_view (tr : list Event) : sleepsOf (retrierView tr) = sleepsOf tr.
Proof.
  induction tr as [| ev tr IH]; simpl; [reflexivity |].
  destruct ev; simpl; rewrite ?IH; reflexivity.
Qed.

Lemma attemptsOf_schedule (n : nat) (b : Z) :
  attemptsOf (backoffSchedule n b) = S n.
Proof.
  revert b; induction n as [| n IH]; intros b; simpl; [reflexivity |].
  rewrite IH. reflexivity.
Qed.

Lemma sleepsOf_schedule (n : nat) (b : Z) :
  sleepsOf (backoffSchedule n b) = doublings n b.
Proof.
  revert b; induction n as [| n IH]; intros b; simpl; [reflexivity |].
  rewrite IH. reflexivity.
Qed.



(* ===================================================================== *)
(** ** The backoff retrier                                                *)
(* ===================================================================== *)

(** One step of [withRetry], as the source reads. *)
Lemma withRetry_step {E A} {timers : Timers E} (fn : M E A) (retries baseDelay : Z) (w : World E) :
  withRetry fn retries baseDelay w =
  match fn (record EvAttempt w) with
  | (Returned a, w1) => (Returned a, w1)
  | (Threw e, w1) =>
      if (retries >? 0) && isRetryable e
      then withRetry fn (retries - 1) (baseDelay * 2) (snd (sleep baseDelay w1))
      else (Threw e, w1)
  end.
Proof.
  rewrite withRetry_equation_1.
  destruct (fn (record EvAttempt w)) as [[a | e] w1]; simpl; [reflexivity |].
  destruct (Z_gt_dec retries 0) as [Hpos | Hneg];
    destruct (Z.gtb_spec retries 0) as [Hgt | Hle]; simpl; try reflexivity; lia.
Qed.

Lemma retrierView_record {E} (ev : Event) (w : World E) :
  retrierView (trace (record ev w)) = retrierView (trace w) ++ retrierView [ev].
Proof. unfold record; simpl. apply retrierView_app. Qed.

Lemma trace_sleep {E} {timers : Timers E} (ms : Z) (w : World E) :
  trace (snd (sleep ms w)) = trace w ++ [EvSleep ms].
Proof.
  unfold sleep. destruct (lateness ms (now w) (remote w)) as [late e']. reflexivity.
Qed.

(** A sleep lasts at least as long as asked. *)
Lemma now_sleep {E} {timers : Timers E} (ms : Z) (w : World E) :
  now w + Z.max 0 ms <= now (snd (sleep ms w)).
Proof.
  unfold sleep. destruct (lateness ms (now w) (remote w)) as [late e'].
  cbn [snd now]. lia.
Qed.

(** The schedule followed when the first [n] attempts fail with a
    retryable error, whatever the last attempt does. *)
Lemma withRetry_schedule {E A} {timers : Timers E} (fn : M E A) (n : nat) :
  quiet fn ->
  forall (retries baseDelay : Z) (w : World E),
    retries = Z.of_nat n ->
    (forall w0,
        (attemptsOf (trace w0) <= attemptsOf (trace w) + n)%nat ->
        exists e, fst (fn w0) = Threw e /\ isRetryable e = true) ->
    retrierView (trace (snd (withRetry fn retries baseDelay w))) =
    retrierView (trace w) ++ backoffSchedule n baseDelay.
Proof.
  intros Hquiet. induction n as [| n IH]; intros retries baseDelay w Hn Hfail.
  - rewrite withRetry_step.
    pose proof (Hquiet (record EvAttempt w)) as Hq.
    rewrite retrierView_record in Hq.
    destruct (fn (record EvAttempt w)) as [[a | e] w1]; simpl in *; [exact Hq |].
    subst retries. simpl. exact Hq.
  - rewrite withRetry_step.
    pose proof (Hquiet (record EvAttempt w)) as Hq.
    rewrite retrierView_record in Hq.
    destruct (Hfail (record EvAttempt w)) as [e [He Hre]].
    { unfold record; simpl. rewrite attemptsOf_app. simpl. lia. }
    destruct (fn (record EvAttempt w)) as [[a | e'] w1]; simpl in *; [discriminate |].
    injection He as ->.
    rewrite Hre.
    replace (retries >? 0) with true
      by (symmetry; destruct (Z.gtb_spec retries 0); [reflexivity | lia]).
    simpl andb. cbv iota.
    rewrite (IH (retries - 1) (baseDelay * 2)).
    + rewrite trace_sleep, retrierView_app, Hq. simpl.
      rewrite <- !app_assoc. reflexivity.
    + lia.
    + intros w0 Hw0. apply Hfail.
      rewrite trace_sleep, attemptsOf_app in Hw0. simpl in Hw0.
      rewrite <- (attemptsOf_view (trace w1)), Hq in Hw0.
      rewrite attemptsOf_app, attemptsOf_view in Hw0. simpl in Hw0. lia.
Qed.


(** After [k] attempts that failed with a retryable error, the retrier is
    where a retrier with [k] retries less and [2^k] times the delay would
    start. *)
Lemma withRetry_after_failures {E A} {timers : Timers E} (fn : M E A) (k : nat) :
  forall (retries baseDelay : Z) (w : World E),
    Z.of_nat k <= retries ->
    (forall j : nat, (j < k)%nat ->
        exists e, fst (attempt fn j baseDelay w) = Threw e /\ isRetryable e = true) ->
    withRetry fn retries baseDelay w =
    withRetry fn (retries - Z.of_nat k) (baseDelay * 2 ^ Z.of_nat k)
      (beforeAttempt fn k baseDelay w).
Proof.
  induction k as [| k IH]; intros retries baseDelay w Hk Hfail.
  - cbn [beforeAttempt Z.of_nat]. rewrite Z.sub_0_r, Z.pow_0_r, Z.mul_1_r. reflexivity.
  - rewrite withRetry_step.
    destruct (Hfail 0%nat ltac:(lia)) as [e [He Hre]].
    unfold attempt in He. cbn [beforeAttempt] in He.
    cbn [beforeAttempt].
    destruct (fn (record EvAttempt w)) as [[a | e'] w1] eqn:Hfn;
      cbn [fst snd] in *; [discriminate |].
    injection He as ->. rewrite Hre.
    replace (retries >? 0) with true
      by (symmetry; destruct (Z.gtb_spec retries 0); [reflexivity | lia]).
    cbn [andb].
    rewrite (IH (retries - 1) (baseDelay * 2)).
    + rewrite Nat2Z.inj_succ, Z.pow_succ_r by lia.
      replace (retries - 1 - Z.of_nat k) with (retries - Z.succ (Z.of_nat k)) by lia.
      replace (baseDelay * 2 * 2 ^ Z.of_nat k) with (baseDelay * (2 * 2 ^ Z.of_nat k)) by lia.
      reflexivity.
    + lia.
    + intros j Hj. pose proof (Hfail (S j) ltac:(lia)) as Hnext.
      unfold attempt in Hnext |- *. cbn [beforeAttempt] in Hnext.
      rewrite Hfn in Hnext. exact Hnext.
Qed.

(** What the attempts and sleeps of the run look like on the trace, up
    to the attempt of rank [k]. *)
Lemma attempt_schedule {E A} {timers : Timers E} (fn : M E A) (k : nat) :
  quiet fn ->
  forall (baseDelay : Z) (w : World E),
    retrierView (trace (snd (attempt fn k baseDelay w))) =
    retrierView (trace w) ++ backoffSchedule k baseDelay.
Proof.
  intros Hquiet. induction k as [| k IH]; intros baseDelay w.
  - unfold attempt. cbn [beforeAttempt backoffSchedule].
    rewrite Hquiet. apply retrierView_record.
  - change (attempt fn (S k) baseDelay w)
      with (attempt fn k (baseDelay * 2)
              (snd (sleep baseDelay (snd (fn (record EvAttempt w)))))).
    rewrite IH, trace_sleep, retrierView_app, Hquiet, retrierView_record.
    cbn [backoffSchedule]. rewrite <- !app_assoc. reflexivity.
Qed.


(** C6. A failure that is not classified retryable is rethrown as it is by
    the attempt that met it: the retrier stops in the world that the
    failed attempt left, without any sleep and without a further attempt. *)
Theorem withRetry_non_retryable_propagates {E A} {timers : Timers E} (fn : M E A)
    (retries baseDelay : Z) (w w1 : World E) (e : JsError) :
  fn (record EvAttempt w) = (Threw e, w1) ->
  isRetryable e = false ->
  withRetry fn retries baseDelay w = (Threw e, w1)
  /\ (quiet fn ->
      sleepsOf (trace w1) = sleepsOf (trace w) /\
      attemptsOf (trace w1) = S (attemptsOf (trace w))).
Proof.
  intros Hfn He. split.
  - rewrite withRetry_step, Hfn, He, andb_false_r. reflexivity.
  - intros Hq. pose proof (Hq (record EvAttempt w)) as Hv.
    rewrite Hfn, retrierView_record in Hv. simpl in Hv.
    split.
    + rewrite <- (sleepsOf_view (trace w1)), Hv, sleepsOf_app, sleepsOf_view.
      simpl. apply app_nil_r.
    + rewrite <- (attemptsOf_view (trace w1)), Hv, attemptsOf_app, attemptsOf_view.
      simpl. lia.
Qed.

(* ===================================================================== *)
(** ** The operation poller                                               *)
(* ===================================================================== *)

(** Every failure that the poller waits out is one that the retrier would
    retry. *)
Lemma transient_poll_failure_is_retryable (e : JsError) :
  isTransientPollFailure e = true -> isRetryable e = true.
Proof.
  unfold isTransientPollFailure, isRetryable. cbv zeta.
  intros H. rewrite H. reflexivity.
Qed.

Section PollerProperties.
Context {E : Type} {timers : Timers E} (host : Host E).

(** One turn of the [while] loop, as the source reads. *)
Lemma pollLoop_step (startTime : Z) (op : Operation) (w : World E) :
  pollLoop host startTime op w =
  if isDone op then (Returned op, w)
  else if now w - startTime >? MAX_WAIT_TIME then (Threw timeoutError, w)
  else
    match checkStatus host op (snd (sleep POLL_INTERVAL w)) with
    | (Returned op', w2) => pollLoop host startTime op' w2
    | (Threw e, w2) =>
        if isTransientPollFailure e
        then pollLoop host startTime op w2
        else (Threw e, w2)
    end.
Proof.
  funelim (pollLoop host startTime op w); clear Heqcall;
    try match goal with H : isDone _ = _ |- _ => rewrite H end;
    try match goal with H : checkStatus _ _ _ = _ |- _ => rewrite H end;
    try reflexivity;
    destruct (Z.gtb_spec (now w - startTime) MAX_WAIT_TIME); try reflexivity; lia.
Qed.

Lemma checkStatus_latency (limit : Z) (op : Operation) (w : World E) :
  statusLatencyWithin host limit ->
  now (snd (checkStatus host op w)) <= now w + limit.
Proof.
  intros Hlat. unfold checkStatus, call.
  specialize (Hlat op (now w) (remote w)).
  destruct (getVideosOperation host op (now w) (remote w)) as [[latency outcome] e'].
  simpl in *. lia.
Qed.

(** The loop only ever hands back an operation that reports completion. *)
Lemma pollLoop_returns_done (startTime : Z) (op : Operation) (w : World E) :
  forall op' w', pollLoop host startTime op w = (Returned op', w') -> isDone op' = true.
Proof.
  funelim (pollLoop host startTime op w); clear Heqcall;
    intros opR wR HR.
  - injection HR as <- <-. assumption.
  - discriminate.
  - eauto.
  - destruct (isTransientPollFailure e); [eauto | discriminate].
Qed.

(** A sleep ends no later than its delay and the lateness of its timer
    allow. *)
Lemma sleep_latency (lag ms : Z) (w : World E) :
  timersWithin timers lag ->
  now (snd (sleep ms w)) <= now w + Z.max 0 ms + lag.
Proof.
  intros Hlag. unfold sleep. specialize (Hlag ms (now w) (remote w)).
  destruct (lateness ms (now w) (remote w)) as [late e'].
  cbn [snd now fst] in *. lia.
Qed.

(** The loop ends no later than one polling interval, one late timer and
    one status check after the ceiling. *)
Lemma pollLoop_deadline (limit lag : Z) (startTime : Z) (op : Operation) (w : World E) :
  statusLatencyWithin host limit ->
  timersWithin timers lag ->
  now w - startTime <= MAX_WAIT_TIME + POLL_INTERVAL + lag + limit ->
  now (snd (pollLoop host startTime op w)) - startTime
    <= MAX_WAIT_TIME + POLL_INTERVAL + lag + limit.
Proof.
  intros Hlat Hlag.
  funelim (pollLoop host startTime op w); clear Heqcall;
    intros Hentry; cbn [snd]; try assumption.
  - apply H; [exact Hlat | exact Hlag |].
    pose proof (checkStatus_latency limit op (snd (sleep POLL_INTERVAL w)) Hlat) as Hc.
    pose proof (sleep_latency lag POLL_INTERVAL w Hlag) as Hs.
    match goal with Heq : checkStatus _ _ _ = _ |- _ => rewrite Heq in Hc end.
    cbn [snd] in Hc. unfold POLL_INTERVAL in *. lia.
  - pose proof (checkStatus_latency limit op (snd (sleep POLL_INTERVAL w)) Hlat) as Hc.
    pose proof (sleep_latency lag POLL_INTERVAL w Hlag) as Hs.
    match goal with Heq : checkStatus _ _ _ = _ |- _ => rewrite Heq in Hc end.
    cbn [snd] in Hc.
    destruct (isTransientPollFailure e).
    + apply H; [exact Hlat | exact Hlag |]. unfold POLL_INTERVAL in *. lia.
    + cbn [snd]. unfold POLL_INTERVAL in *. lia.
Qed.

Lemma pollLoop_end (startTime : Z) (op : Operation) (w : World E) :
  PollEnd host startTime (pollLoop host startTime op w).
Proof.
  funelim (pollLoop host startTime op w); clear Heqcall.
  - apply EndDone. assumption.
  - apply EndTimeout. assumption.
  - assumption.
  - destruct (isTransientPollFailure e) eqn:Ht; [assumption |].
    eapply EndFailure; eassumption.
Qed.

End PollerProperties.

Section PollerClaims.
Context {E : Type} {timers : Timers E} (host : Host E).

(** C1 (amended). [pollForVideo] never returns an operation whose [done]
    flag is not true, and it always settles, in one of three ways: it
    returns a done operation; or it rethrows a status-check failure that
    the poller does not classify as transient; or it throws the timeout
    error, which it does when a turn of the loop starts with the operation
    not done and more than [MAX_WAIT_TIME] elapsed since entry.  When every
    status check is answered within [limit] milliseconds and every timer
    fires at most [lag] milliseconds late, it settles no later than
    [MAX_WAIT_TIME + POLL_INTERVAL + lag + limit] after entry; the bound of
    5 minutes and 10 seconds is the case [lag = 0] and [limit = 0]. *)
Theorem pollForVideo_settles (limit lag : Z) (operation : Operation) (w : World E) :
  statusLatencyWithin host limit ->
  timersWithin timers lag ->
  let r := pollForVideo host operation w in
  PollEnd host (now w) r
  /\ (forall op', fst r = Returned op' -> isDone op' = true)
  /\ now (snd r) - now w <= MAX_WAIT_TIME + POLL_INTERVAL + lag + limit
  /\ (forall op0 w0,
         isDone op0 = false ->
         now w0 - now w > MAX_WAIT_TIME ->
         pollLoop host (now w) op0 w0 = (Threw timeoutError, w0)).
Proof.
  intros Hlat Hlag r. unfold pollForVideo in r. cbv zeta in r.
  assert (Hlimit : 0 <= limit).
  { pose proof (Hlat operation 0 (remote w)). lia. }
  assert (Hlag0 : 0 <= lag).
  { pose proof (Hlag 0 0 (remote w)). lia. }
  refine (conj _ (conj _ (conj _ _))).
  - apply pollLoop_end.
  - intros op' Hr. subst r.
    destruct (pollLoop host (now w) operation w) as [out w'] eqn:Hrun.
    simpl in Hr. subst out.
    eapply pollLoop_returns_done. exact Hrun.
  - apply pollLoop_deadline; [exact Hlat | exact Hlag |].
    unfold MAX_WAIT_TIME, POLL_INTERVAL. lia.
  - intros op0 w0 Hpending Hlate.
    rewrite pollLoop_step, Hpending.
    destruct (Z.gtb_spec (now w0 - now w) MAX_WAIT_TIME); [reflexivity | lia].
Qed.

(** C3 (amended). When a status check fails, the loop goes on, with the
    same operation handle and the same start time and nothing else kept
    from one turn to the next, if the message of the failure contains
    [503], [Deadline expired] or [UNAVAILABLE]; any other failure is
    rethrown at once and ends the poll.  Every failure that the poller
    waits out is one that the retrier classifies as retryable, and no
    attempt of a retrier is spent on it. *)
Theorem pollLoop_status_failure (startTime : Z) (op : Operation)
    (w w2 : World E) (e : JsError) :
  isDone op = false ->
  now w - startTime <= MAX_WAIT_TIME ->
  checkStatus host op (snd (sleep POLL_INTERVAL w)) = (Threw e, w2) ->
  (isTransientPollFailure e = true ->
     pollLoop host startTime op w = pollLoop host startTime op w2
     /\ isRetryable e = true)
  /\ (isTransientPollFailure e = false ->
        pollLoop host startTime op w = (Threw e, w2))
  /\ isTransientPollFailure e =
       (includes (errorMsg e) "503" || includes (errorMsg e) "Deadline expired"
        || includes (errorMsg e) "UNAVAILABLE")
  /\ attemptsOf (trace w2) = attemptsOf (trace w).
Proof.
  intros Hpending Hearly Hcheck.
  assert (Hstep : pollLoop host startTime op w =
                  if isTransientPollFailure e
                  then pollLoop host startTime op w2
                  else (Threw e, w2)).
  { rewrite pollLoop_step, Hpending, Hcheck.
    destruct (Z.gtb_spec (now w - startTime) MAX_WAIT_TIME); [lia | reflexivity]. }
  refine (conj _ (conj _ (conj _ _))).
  - intros Ht. rewrite Ht in Hstep. split; [exact Hstep |].
    apply transient_poll_failure_is_retryable. exact Ht.
  - intros Ht. rewrite Ht in Hstep. exact Hstep.
  - reflexivity.
  - unfold checkStatus, call in Hcheck.
    destruct (getVideosOperation host op _ _) as [[latency outcome] e'].
    injection Hcheck as _ <-. cbn [trace].
    rewrite trace_sleep, !attemptsOf_app. simpl. lia.
Qed.

(** C10. An operation that is already done when the poller is entered is
    returned as it is, in the world as it was: no status check, no sleep,
    no time spent, whatever else the operation carries and however much
    time the loop would count as elapsed. *)
Theorem pollForVideo_done_at_entry (operation : Operation) (w : World E) :
  isDone operation = true ->
  pollForVideo host operation w = (Returned operation, w)
  /\ (forall startTime : Z, pollLoop host startTime operation w = (Returned operation, w)).
Proof.
  intros Hdone. unfold pollForVideo. cbv zeta.
  split; [| intros startTime]; rewrite pollLoop_step, Hdone; reflexivity.
Qed.

End PollerClaims.

(** With timers that fire two seconds late and status checks answered at
    once, a job that never finishes is given up 5 minutes and 12 seconds
    after entry: the bound is reached. *)
Lemma pollForVideo_settles_witness :
  statusLatencyWithin stalledHost 0
  /\ timersWithin tardy 2000
  /\ fst (pollForVideo (timers := tardy) stalledHost pendingOperation startOfTime)
     = Threw timeoutError
  /\ now (snd (pollForVideo (timers := tardy) stalledHost pendingOperation startOfTime))
     = 312000
  /\ now (snd (pollForVideo (timers := tardy) stalledHost pendingOperation startOfTime)) - 0
     <= MAX_WAIT_TIME + POLL_INTERVAL + 2000 + 0.
Proof.
  assert (Hlat : statusLatencyWithin stalledHost 0).
  { intros op t n; simpl; lia. }
  assert (Hlag : timersWithin tardy 2000).
  { intros ms t n; simpl; lia. }
  split; [exact Hlat |].
  split; [exact Hlag |].
  split; [vm_compute; reflexivity |].
  split; [vm_compute; reflexivity |].
  exact (proj1 (proj2 (proj2
           (pollForVideo_settles (timers := tardy) stalledHost 0 2000
              pendingOperation startOfTime Hlat Hlag)))).
Defined.

(** With status checks that take two seconds each and a job that never
    finishes, the poller gives up 5 minutes and 12 seconds after entry. *)
Lemma pollForVideo_deadline_counterexample :
  let r := pollForVideo sluggishHost pendingOperation startOfTime in
  fst r = Threw timeoutError
  /\ now (snd r) - now startOfTime = 312000
  /\ ~ (now (snd r) - now startOfTime <= MAX_WAIT_TIME + POLL_INTERVAL).
Proof.
  assert (Hnow : now (snd (pollForVideo sluggishHost pendingOperation startOfTime)) = 312000)
    by (vm_compute; reflexivity).
  cbv zeta. rewrite Hnow.
  split; [vm_compute; reflexivity |].
  split; [reflexivity |].
  unfold MAX_WAIT_TIME, POLL_INTERVAL. simpl. lia.
Qed.

Lemma pollLoop_status_failure_witness :
  pollLoop overloadedHost 0 pendingOperation startOfTime =
  pollLoop overloadedHost 0 pendingOperation
    (mkWorld 10150 [EvSleep 10000; EvRequest (ReqGetVideosOperation pendingOperation)] 1%nat)
  /\ isRetryable (newError "503 Service Unavailable") = true.
Proof.
  refine (proj1 (pollLoop_status_failure overloadedHost 0 pendingOperation startOfTime
                   _ (newError "503 Service Unavailable") _ _ _) _).
  - reflexivity.
  - unfold MAX_WAIT_TIME. simpl. lia.
  - reflexivity.
  - reflexivity.
Defined.

(** A status check refused with [429] is a failure that the retrier
    classifies as retryable, and yet it ends the poll at once, although
    the next check would have found the job finished. *)
Lemma pollForVideo_rate_limit_counterexample :
  isRetryable (newError "429 Too Many Requests") = true
  /\ isTransientPollFailure (newError "429 Too Many Requests") = false
  /\ pollForVideo rateLimitedHost pendingOperation startOfTime =
     (Threw (newError "429 Too Many Requests"),
      mkWorld 10000 [EvSleep 10000; EvRequest (ReqGetVideosOperation pendingOperation)] 1%nat)
  /\ fst (checkStatus rateLimitedHost pendingOperation
            (mkWorld 10000 [EvSleep 10000; EvRequest (ReqGetVideosOperation pendingOperation)] 1%nat))
     = Returned finishedOperation.
Proof.
  repeat split; vm_compute; reflexivity.
Qed.

Lemma pollForVideo_done_at_entry_witness :
  isDone finishedOperation = true
  /\ pollForVideo sluggishHost finishedOperation startOfTime
     = (Returned finishedOperation, startOfTime).
Proof.
  split; [reflexivity |].
  apply (proj1 (pollForVideo_done_at_entry sluggishHost finishedOperation startOfTime
                  eq_refl)).
Defined.

(* ===================================================================== *)
(** ** Style suggestion                                                   *)
(* ===================================================================== *)

(** Rounding to a 53-bit significand never carries [r * 13] up to 13. *)
Lemma floorTimes_styles_bound (r : Unit01) : (floorTimes r 13 < 13)%N.
Proof.
  unfold floorTimes. cbv zeta.
  pose proof (mantissa_bound r) as Hm. apply N.ltb_lt in Hm.
  set (n := (mantissa r * 13)%N).
  assert (Hn : (n <= 13 * (2 ^ 53 - 1))%N) by (subst n; lia).
  clearbody n. clear Hm.
  assert (Hs : (N.log2 n + 1 - 53 <= 4)%N).
  { destruct (N.eq_dec n 0) as [-> | Hpos]; [simpl; lia |].
    assert (N.log2 n < 57)%N; [| lia].
    apply N.log2_lt_pow2; [lia |].
    change (2 ^ 57)%N with (16 * 2 ^ 53)%N. lia. }
  set (s := (N.log2 n + 1 - 53)%N) in *.
  apply N.Div0.div_lt_upper_bound.
  rewrite N.pow_add_r.
  assert (Hbound :
    ((if ((0 <? s) && ((2 ^ s / 2 <? n mod 2 ^ s)
                       || ((n mod 2 ^ s =? 2 ^ s / 2) && N.odd (n / 2 ^ s))))%N
      then n / 2 ^ s + 1 else n / 2 ^ s) * 2 ^ s < 13 * 2 ^ 53)%N).
  { assert (Hcases : s = 0%N \/ s = 1%N \/ s = 2%N \/ s = 3%N \/ s = 4%N) by lia.
    clearbody s.
    destruct Hcases as [-> | [-> | [-> | [-> | ->]]]];
      match goal with
      | |- context [(n mod ?c)%N] =>
          let c' := eval compute in c in
          change c with c';
          pose proof (N.div_mod n c' ltac:(discriminate)) as Hdm;
          pose proof (N.mod_lt n c' ltac:(discriminate)) as Hlt;
          let h := eval vm_compute in (c' / 2)%N in
          change (c' / 2)%N with h;
          set (q := (n / c')%N) in *; set (rest := (n mod c')%N) in *;
          clearbody q rest
      end;
      change (2 ^ 53)%N with 9007199254740992%N in *;
      match goal with
      | |- context [if ?b then _ else _] => destruct b eqn:Hb
      end;
      try lia;
      apply andb_prop in Hb; destruct Hb as [_ Hb];
      apply orb_prop in Hb;
      (destruct Hb as [Hb | Hb];
       [apply N.ltb_lt in Hb
       | apply andb_prop in Hb; destruct Hb as [Hb _]; apply N.eqb_eq in Hb]);
      lia. }
  assert (Hscale : (1 <= 2 ^ scale r)%N).
  { pose proof (N.pow_nonzero 2 (scale r)). lia. }
  eapply N.lt_le_trans; [exact Hbound |].
  change (2 ^ 53)%N with 9007199254740992%N in *. nia.
Qed.

Section ClientProperties.
Context {E : Type} {timers : Timers E} (host : Host E).

Lemma getRandomStyle_member (w : World E) :
  exists s, fst (getRandomStyle host w) = Returned (Some s) /\ In s styles.
Proof.
  unfold getRandomStyle, bind, random, ret.
  destruct (mathRandom host (remote w)) as [r e']. cbn [fst].
  pose proof (floorTimes_styles_bound r) as Hr.
  change (N.of_nat (List.length styles)) with 13%N.
  destruct (nth_error styles (N.to_nat (floorTimes r 13))) as [s |] eqn:Hnth.
  - exists s. split; [reflexivity |]. eapply nth_error_In. exact Hnth.
  - apply nth_error_None in Hnth. change (List.length styles) with 13%nat in Hnth. lia.
Qed.

(** C8. When the remote call of a style suggestion fails, or answers
    without text or with text that is empty once trimmed, the call returns
    normally and what it returns is one of the thirteen fallback styles. *)
Theorem generateStyleSuggestion_fallback (text : string) (w : World E)
    (latency : N) (outcome : Outcome GenerateContentResponse) (e' : E) :
  generateContent host (styleRequest text) (now w) (remote w) = ((latency, outcome), e') ->
  ((exists err, outcome = Threw err)
   \/ (exists response, outcome = Returned response /\
         (resp_text response = None
          \/ exists t, resp_text response = Some t /\ trim t = EmptyString))) ->
  exists s, fst (generateStyleSuggestion host text w) = Returned (Some s) /\ In s styles.
Proof.
  intros Hanswer Hcase.
  unfold generateStyleSuggestion, tryCatch, bind, call. rewrite Hanswer.
  destruct Hcase as [[err ->] | [response [-> Htext]]].
  - apply getRandomStyle_member.
  - destruct Htext as [Hnone | [t [Hsome Hblank]]].
    + rewrite Hnone.
      destruct (getRandomStyle_member
                  (mkWorld (now w + Z.of_N latency)
                     (trace w ++ [EvRequest (ReqGenerateContent (styleRequest text))]) e'))
        as [s [Hs Hin]].
      destruct (getRandomStyle host _) as [[v | err] w1]; simpl in Hs; [| discriminate].
      exists s. split; [exact Hs | exact Hin].
    + rewrite Hsome, Hblank. cbn [truthy].
      destruct (getRandomStyle_member
                  (mkWorld (now w + Z.of_N latency)
                     (trace w ++ [EvRequest (ReqGenerateContent (styleRequest text))]) e'))
        as [s [Hs Hin]].
      destruct (getRandomStyle host _) as [[v | err] w1]; simpl in Hs; [| discriminate].
      exists s. split; [exact Hs | exact Hin].
Qed.

Lemma trace_call {A : Type} (req : Request) (answer : Z -> E -> Reply A * E) (w : World E) :
  trace (snd (call req answer w)) = trace w ++ [EvRequest req].
Proof.
  unfold call. destruct (answer (now w) (remote w)) as [[latency outcome] e']. reflexivity.
Qed.

(** Each invocation of the image operation sends one request, the same
    every time. *)
Lemma trace_requestImage (o : TextImageOptions) (w : World E) :
  trace (snd (requestImage host o w)) =
  trace w ++ [EvRequest (ReqGenerateContent (imageRequest o))].
Proof.
  unfold requestImage, bind.
  pose proof (trace_call (ReqGenerateContent (imageRequest o))
                (generateContent host (imageRequest o)) w) as Hc.
  destruct (call _ _ w) as [[response | e] w1]; cbn [snd] in Hc |- *; [| exact Hc].
  destruct (firstInlineData _); exact Hc.
Qed.

(** Each invocation of the download operation sends at most one request. *)
Lemma trace_downloadVideo (uri : string) (w : World E) :
  exists sent, trace (snd (downloadVideo host uri w)) = trace w ++ map EvRequest sent.
Proof.
  unfold downloadVideo, bind, settle.
  destruct (urlWithKey host uri _) as [url | e].
  - pose proof (trace_call (ReqFetch url) (fetch host url) w) as Hc.
    destruct (call _ _ w) as [[videoResponse | e] w1]; cbn [snd] in Hc |- *.
    + exists [ReqFetch url].
      destruct (ok videoResponse); cbn [negb].
      * destruct (body videoResponse) as [blob | e]; [| exact Hc].
        destruct (createObjectURL host blob (remote w1)) as [handle e'].
        exact Hc.
      * exact Hc.
    + exists [ReqFetch url]. exact Hc.
  - exists []. cbn. symmetry. apply app_nil_r.
Qed.

Lemma retrierView_requests (sent : list Request) : retrierView (map EvRequest sent) = [].
Proof. induction sent as [| r sent IH]; [reflexivity | exact IH]. Qed.

Lemma quiet_requestImage (o : TextImageOptions) : quiet (requestImage host o).
Proof.
  intros w0. rewrite trace_requestImage, retrierView_app. apply app_nil_r.
Qed.

Lemma quiet_downloadVideo (uri : string) : quiet (downloadVideo host uri).
Proof.
  intros w0. destruct (trace_downloadVideo uri w0) as [sent ->].
  rewrite retrierView_app, retrierView_requests. apply app_nil_r.
Qed.

(** The requests sent through a retrier are those of its attempts. *)
Lemma withRetry_requests {A : Type} (fn : M E A) (req : Request) :
  (forall w0, requestsOf (trace (snd (fn w0))) = requestsOf (trace w0) ++ [req]) ->
  forall (n : nat) (retries baseDelay : Z) (w : World E),
    Z.to_nat retries = n ->
    exists k : nat,
      (1 <= k)%nat /\
      requestsOf (trace (snd (withRetry fn retries baseDelay w))) =
      requestsOf (trace w) ++ repeat req k.
Proof.
  intros Hfn. induction n as [| n IH]; intros retries baseDelay w Hn;
    rewrite withRetry_step;
    pose proof (Hfn (record EvAttempt w)) as Hone;
    cbn [record trace] in Hone; rewrite requestsOf_app in Hone;
    cbn [requestsOf] in Hone; rewrite app_nil_r in Hone;
    destruct (fn (record EvAttempt w)) as [[a | e] w1]; cbn [snd] in Hone |- *.
  - exists 1%nat. split; [lia | exact Hone].
  - replace (retries >? 0) with false
      by (symmetry; destruct (Z.gtb_spec retries 0); [lia | reflexivity]).
    exists 1%nat. split; [lia | exact Hone].
  - exists 1%nat. split; [lia | exact Hone].
  - destruct ((retries >? 0) && isRetryable e) eqn:Hgo.
    + destruct (IH (retries - 1) (baseDelay * 2) (snd (sleep baseDelay w1))) as [k [Hk Hreq]];
        [lia |].
      exists (S k). split; [lia |].
      rewrite Hreq, trace_sleep.
      rewrite requestsOf_app, Hone. cbn [requestsOf].
      rewrite app_nil_r, <- app_assoc. reflexivity.
    + exists 1%nat. split; [lia | exact Hone].
Qed.

(** C7. Every request that [generateTextImage] sends carries the parts
    built from its options: with a reference image, the inline-data part
    first and the text part second; without one, a single text part. *)
Theorem generateTextImage_parts (o : TextImageOptions) (w : World E) :
  (exists k : nat,
      (1 <= k)%nat /\
      requestsOf (trace (snd (generateTextImage host o w))) =
      requestsOf (trace w) ++ repeat (ReqGenerateContent (imageRequest o)) k)
  /\ gc_contents (imageRequest o) = ContentsParts (imageParts o)
  /\ (forall ref : string,
         referenceImage o = Some ref -> ref <> EmptyString ->
         exists (d : InlineData) (t : string), imageParts o = [PartInline d; PartText t])
  /\ (referenceImage o = None \/ referenceImage o = Some EmptyString ->
      exists t : string, imageParts o = [PartText t]).
Proof.
  refine (conj _ (conj _ (conj _ _))).
  - unfold generateTextImage, withRetryDefault.
    apply (withRetry_requests (requestImage host o) (ReqGenerateContent (imageRequest o)))
      with (n := Z.to_nat 3); [| reflexivity].
    intros w0. rewrite trace_requestImage, requestsOf_app. reflexivity.
  - reflexivity.
  - intros ref Href Hne. unfold imageParts. rewrite Href.
    destruct ref as [| c r]; [congruence |].
    destruct (splitFirstTwo _ _) as [mimeTypePart d]. eauto.
  - intros [Hnone | Hempty]; unfold imageParts.
    + rewrite Hnone. eauto.
    + rewrite Hempty. eauto.
Qed.

(** C5. [generateTextVideo] with an empty seed image throws the
    precondition error at once and leaves the world as it was: nothing is
    sent, nothing is slept. *)
Theorem generateTextVideo_empty_seed (text imageMimeType promptStyle : string)
    (w : World E) :
  generateTextVideo host text EmptyString imageMimeType promptStyle w =
    (Threw (newError "Image generation failed, cannot generate video."), w)
  /\ requestsOf (trace (snd (generateTextVideo host text EmptyString
                               imageMimeType promptStyle w)))
     = requestsOf (trace w).
Proof. split; reflexivity. Qed.

(** C4 (amended). The asset download goes through the retrier with 2
    retries and a base delay of 2000 ms, and with the retrier's own
    classification: a failure that is not classified retryable is rethrown
    by the attempt that met it, and failures classified retryable are
    retried after 2000 ms and then 4000 ms, three attempts in all. *)
Theorem fetchVideoBlob_policy (uri : string) (w : World E) :
  fetchVideoBlob host uri w = withRetry (downloadVideo host uri) 2 2000 w
  /\ (forall (e : JsError) (w1 : World E),
         downloadVideo host uri (record EvAttempt w) = (Threw e, w1) ->
         isRetryable e = false ->
         fetchVideoBlob host uri w = (Threw e, w1))
  /\ ((forall w0,
          (attemptsOf (trace w0) <= attemptsOf (trace w) + 2)%nat ->
          exists e, fst (downloadVideo host uri w0) = Threw e /\ isRetryable e = true) ->
      retrierView (trace (snd (fetchVideoBlob host uri w))) =
      retrierView (trace w) ++ [EvAttempt; EvSleep 2000; EvAttempt; EvSleep 4000; EvAttempt]).
Proof.
  refine (conj eq_refl (conj _ _)).
  - intros e w1 Hfail Hclass. unfold fetchVideoBlob.
    rewrite withRetry_step, Hfail, Hclass, andb_false_r. reflexivity.
  - intros Hfail. unfold fetchVideoBlob.
    apply (withRetry_schedule (downloadVideo host uri) 2 (quiet_downloadVideo uri) 2 2000 w);
      [reflexivity | exact Hfail].
Qed.

End ClientProperties.

(* ===================================================================== *)
(** ** Concrete runs of the retrier and of the client                     *)
(* ===================================================================== *)


Lemma withRetry_non_retryable_propagates_witness :
  withRetry alwaysForbidden 3 3000 startOfTime =
  (Threw (newError "403 Forbidden"), mkWorld 0 [EvAttempt] O).
Proof.
  apply (withRetry_non_retryable_propagates alwaysForbidden 3 3000 startOfTime
           (mkWorld 0 [EvAttempt] O) (newError "403 Forbidden")); reflexivity.
Defined.

Lemma generateStyleSuggestion_fallback_witness :
  (exists s, fst (generateStyleSuggestion offlineHost "HELLO" startOfTime) = Returned (Some s)
             /\ In s styles)
  /\ (exists s, fst (generateStyleSuggestion blankHost "HELLO" startOfTime) = Returned (Some s)
                /\ In s styles).
Proof.
  split.
  - apply (generateStyleSuggestion_fallback offlineHost "HELLO" startOfTime
             0%N (Threw (newError "Failed to fetch")) 1%nat); [reflexivity |].
    left. eexists. reflexivity.
  - apply (generateStyleSuggestion_fallback blankHost "HELLO" startOfTime
             40%N (Returned (mkGenerateContentResponse (Some "   ") None)) 1%nat);
      [reflexivity |].
    right. eexists. split; [reflexivity |].
    right. exists "   ". split; reflexivity.
Defined.

Lemma generateTextImage_parts_witness :
  (exists (d : InlineData) (t : string),
      imageParts helloWithReference = [PartInline d; PartText t])
  /\ (exists t : string, imageParts helloWithoutReference = [PartText t]).
Proof.
  split.
  - apply (proj1 (proj2 (proj2 (generateTextImage_parts offlineHost helloWithReference
                                  startOfTime)))
             "data:image/png;base64,QUJD"); [reflexivity | discriminate].
  - apply (proj2 (proj2 (proj2 (generateTextImage_parts offlineHost helloWithoutReference
                                  startOfTime)))).
    left. reflexivity.
Defined.

Lemma fetchVideoBlob_policy_witness :
  fetchVideoBlob notFoundHost "https://videos.example/1" startOfTime =
  (Threw (newError "Failed to fetch video content: Not Found"),
   mkWorld 0 [EvAttempt; EvRequest (ReqFetch "https://videos.example/1?key=k")] 1%nat)
  /\ retrierView (trace (snd (fetchVideoBlob busyAssetHost "https://videos.example/1" startOfTime)))
     = [EvAttempt; EvSleep 2000; EvAttempt; EvSleep 4000; EvAttempt].
Proof.
  split.
  - apply (proj1 (proj2 (fetchVideoBlob_policy notFoundHost "https://videos.example/1"
                           startOfTime))); reflexivity.
  - apply (proj2 (proj2 (fetchVideoBlob_policy busyAssetHost "https://videos.example/1"
                           startOfTime))).
    intros w0 _. exists (newError "503 Service Unavailable"). split; reflexivity.
Defined.

(** A download answered with 404 is attempted once, although two retries
    remain: the failure is not one that the retrier classifies as
    retryable. *)
Lemma fetchVideoBlob_always_retryable_counterexample :
  let r := fetchVideoBlob notFoundHost "https://videos.example/1" startOfTime in
  fst r = Threw (newError "Failed to fetch video content: Not Found")
  /\ attemptsOf (trace (snd r)) = 1%nat
  /\ sleepsOf (trace (snd r)) = []
  /\ requestsOf (trace (snd r)) = [ReqFetch "https://videos.example/1?key=k"].
Proof. repeat split; vm_compute; reflexivity. Qed.

(* ===================================================================== *)
(** ** Binary64 arithmetic                                                *)
(* ===================================================================== *)





















(** Beyond that point, the numbers are too far apart for the
    timestamps to stay distinct. *)
Lemma sampleTime_collision :
  sampleTime 5629499534213122 = sampleTime 5629499534213123
  /\ 5629499534213123 < 2 ^ 53.
Proof. split; [vm_compute; reflexivity | reflexivity]. Qed.


(* ===================================================================== *)
(** ** The frame transcoder                                               *)
(* ===================================================================== *)


Lemma framesWritten_app (a b : list TranscodeEvent) :
  framesWritten (a ++ b) = framesWritten a ++ framesWritten b.
Proof.
  induction a as [| ev a IH]; [reflexivity |].
  destruct ev; cbn [app framesWritten]; rewrite IH; reflexivity.
Qed.


Lemma framesWritten_shooting (shots : list (ImageData * Frame)) :
  forall i : Z, framesWritten (shooting i shots) = map snd shots.
Proof.
  induction shots as [| [data f] shots IH]; intros i; [reflexivity |].
  cbn [shooting framesWritten map snd]. rewrite IH. reflexivity.
Qed.

(** [1000 / fps] is 100. *)
Lemma frame_delay_100 : over (number 1000) (number fps) = number 100.
Proof. vm_compute. reflexivity. Qed.

Section TranscoderProperties.
Context {V G : Type} (dom : VideoHost V) (lib : GifLibrary G).

(** A turn of the loop that goes through is a shot: it leaves the three
    marks of a shot in the journal and hands its frame to the encoder. *)
Lemma encodeFrame_returns (i : Z) (height : option Z) (gif gif' : G) (s s' : Studio V) :
  encodeFrame dom lib i height gif s = (Returned gif', s') ->
  exists (data : ImageData) (f : Frame),
    Shot dom lib height i (element s) (element s') data f
    /\ journal s' = journal s ++ [Sought (sampleTime i); Drawn data; FrameWritten f]
    /\ writeFrame lib f gif = Returned gif'.
Proof.
  unfold encodeFrame, andThen, waiting, note, draw, library. cbn [element journal].
  destruct (yieldToMainThread dom (element s)) as [[|] v1] eqn:Hyield;
    cbv beta iota; cbn [element journal]; [discriminate |].
  destruct (seek dom (sampleTime i) v1) as [[|] v2] eqn:Hseek;
    cbv beta iota; cbn [element journal]; [discriminate |].
  destruct (capture dom targetWidth height v2) as [[data | e] v3] eqn:Hcapture;
    cbv beta iota; cbn [element journal]; [| discriminate].
  destruct (quantize lib data 256) as [palette | e] eqn:Hquantize;
    cbv beta iota; [| discriminate].
  destruct (applyPalette lib data palette) as [index | e] eqn:Hindex;
    cbv beta iota; [| discriminate].
  rewrite frame_delay_100.
  destruct (writeFrame lib _ gif) as [g | e] eqn:Hwrite;
    cbv beta iota; cbn [element journal]; [| discriminate].
  intros Hrun. injection Hrun as <- <-. cbn [element journal].
  eexists data, _. split; [| split].
  - econstructor; eassumption.
  - rewrite <- !app_assoc. reflexivity.
  - exact Hwrite.
Qed.

(** A turn of the loop that fails leaves the beginning of a shot at most. *)
Lemma encodeFrame_throws (i : Z) (height : option Z) (gif : G) (s s' : Studio V)
    (e : JsError) :
  encodeFrame dom lib i height gif s = (Threw e, s') ->
  exists tail, Interrupted tail /\ journal s' = journal s ++ tail.
Proof.
  unfold encodeFrame, andThen, waiting, note, draw, library. cbn [element journal].
  destruct (yieldToMainThread dom (element s)) as [[|] v1];
    cbv beta iota; cbn [element journal].
  { intros H. apply (f_equal snd) in H. cbn [snd] in H. subst s'.
    exists []. split; [constructor | symmetry; apply app_nil_r]. }
  destruct (seek dom (sampleTime i) v1) as [[|] v2];
    cbv beta iota; cbn [element journal].
  { intros H. apply (f_equal snd) in H. cbn [snd] in H. subst s'.
    eexists. split; [apply after_seek | reflexivity]. }
  destruct (capture dom targetWidth height v2) as [[data | e0] v3];
    cbv beta iota; cbn [element journal].
  2:{ intros H. apply (f_equal snd) in H. cbn [snd] in H. subst s'.
      eexists. split; [apply after_seek | reflexivity]. }
  assert (Hcut : forall (st : Studio V) (err : JsError),
             (Threw err, mkStudio v3 ((journal s ++ [Sought (sampleTime i)]) ++ [Drawn data]))
             = (@Threw G e, st) ->
             exists tail, Interrupted tail /\ journal st = journal s ++ tail).
  { intros st err H. apply (f_equal snd) in H. cbn [snd] in H. subst st.
    eexists. split; [apply after_capture |]. cbn [journal].
    rewrite <- app_assoc. reflexivity. }
  destruct (quantize lib data 256) as [palette | e0]; cbv beta iota;
    [| apply Hcut].
  destruct (applyPalette lib data palette) as [index | e0]; cbv beta iota;
    [| apply Hcut].
  destruct (writeFrame lib _ gif) as [g | e0]; cbv beta iota; cbn [element journal];
    [discriminate | apply Hcut].
Qed.

(** A loop that runs to its end is a row of [count] shots, and the
    encoder has received their frames in that order. *)
Lemma encodeFrames_complete (count : nat) :
  forall (i : Z) (height : option Z) (gif gif' : G) (s s' : Studio V),
    encodeFrames dom lib count i height gif s = (Returned gif', s') ->
    exists shots : list (ImageData * Frame),
      List.length shots = count
      /\ Shots dom lib height i (element s) shots (element s')
      /\ journal s' = journal s ++ shooting i shots
      /\ appendAll lib (map snd shots) gif = Returned gif'.
Proof.
  induction count as [| count IH]; intros i height gif gif' s s' Hrun.
  - cbn [encodeFrames] in Hrun. unfold library in Hrun. injection Hrun as <- <-.
    exists []. cbn [shooting map appendAll List.length]. rewrite app_nil_r.
    repeat split. constructor.
  - cbn [encodeFrames] in Hrun. unfold andThen in Hrun.
    destruct (encodeFrame dom lib i height gif s) as [[gif1 | e] s1] eqn:Hturn;
      [| discriminate].
    apply encodeFrame_returns in Hturn.
    destruct Hturn as [data [f [Hshot [Hjournal Hwrite]]]].
    apply IH in Hrun. destruct Hrun as [shots [Hlen [Hshots [Hrest Happend]]]].
    exists ((data, f) :: shots).
    split; [cbn [List.length]; rewrite Hlen; reflexivity |].
    split; [econstructor; eassumption |].
    split.
    + rewrite Hrest, Hjournal, <- app_assoc. reflexivity.
    + cbn [map snd appendAll]. rewrite Hwrite. exact Happend.
Qed.

(** A loop that fails has made fewer shots than it was to make, and
    leaves the beginning of one more at most. *)
Lemma encodeFrames_fails (count : nat) :
  forall (i : Z) (height : option Z) (gif : G) (s s' : Studio V) (e : JsError),
    encodeFrames dom lib count i height gif s = (Threw e, s') ->
    exists (shots : list (ImageData * Frame)) (tail : list TranscodeEvent),
      (List.length shots < count)%nat
      /\ Interrupted tail
      /\ journal s' = journal s ++ shooting i shots ++ tail.
Proof.
  induction count as [| count IH]; intros i height gif s s' e Hrun.
  - cbn [encodeFrames] in Hrun. unfold library in Hrun. discriminate.
  - cbn [encodeFrames] in Hrun. unfold andThen in Hrun.
    destruct (encodeFrame dom lib i height gif s) as [[gif1 | e1] s1] eqn:Hturn.
    + apply encodeFrame_returns in Hturn.
      destruct Hturn as [data [f [_ [Hjournal _]]]].
      apply IH in Hrun. destruct Hrun as [shots [tail [Hlen [Htail Hrest]]]].
      exists ((data, f) :: shots), tail.
      split; [cbn [List.length]; lia |]. split; [exact Htail |].
      rewrite Hrest, Hjournal, <- !app_assoc. reflexivity.
    + injection Hrun as _ <-.
      apply encodeFrame_throws in Hturn. destruct Hturn as [tail [Htail Hjournal]].
      exists [], tail. split; [cbn [List.length]; lia |]. split; [exact Htail |].
      exact Hjournal.
Qed.

(** The frame count of a video is an integer, [2^53] at most. *)
Lemma totalFrames_countable (video : Metadata) :
  exists n : Z, totalFrames (video_duration video) = Some n /\ n <= 2 ^ 53.
Proof.
  pose proof (duration_countable video) as H. unfold countable in H.
  destruct (totalFrames (video_duration video)) as [n |]; [| discriminate].
  exists n. split; [reflexivity |]. apply Z.leb_le. exact H.
Qed.


End TranscoderProperties.




(** A video that reports 4.1 seconds, the number nearest to 4.1, is
    sampled 41 times: the product by 10 is rounded to 41 before
    [Math.floor] is applied, although the reported duration is slightly
    less than 4.1. *)
Lemma totalFrames_rounds :
  totalFrames (over (number 41) (number 10)) = Some 41
  /\ over (number 41) (number 10) = S754_finite false 4616189618054758 (-50)
  /\ 4616189618054758 * 10 < 41 * 2 ^ 50.
Proof. repeat split. Qed.

(* ===================================================================== *)
(** ** More about the backoff retrier                                     *)
(* ===================================================================== *)

Lemma sum_doublings (k : nat) (b : Z) :
  sumZ (doublings k b) = b * (2 ^ Z.of_nat k - 1).
Proof.
  revert b. induction k as [| k IH]; intros b.
  - simpl. lia.
  - cbn [doublings sumZ]. rewrite IH.
    rewrite Nat2Z.inj_succ, Z.pow_succ_r by lia. lia.
Qed.

(** Whatever the attempts do, the retrier follows a prefix of its
    schedule. *)
Lemma withRetry_schedule_prefix {E A} {timers : Timers E} (fn : M E A) :
  quiet fn ->
  forall (n : nat) (retries baseDelay : Z) (w : World E),
    Z.to_nat retries = n ->
    exists k : nat,
      (k <= n)%nat /\
      retrierView (trace (snd (withRetry fn retries baseDelay w))) =
      retrierView (trace w) ++ backoffSchedule k baseDelay.
Proof.
  intros Hquiet. induction n as [| n IH]; intros retries baseDelay w Hn;
    rewrite withRetry_step;
    pose proof (Hquiet (record EvAttempt w)) as Hq;
    rewrite retrierView_record in Hq;
    destruct (fn (record EvAttempt w)) as [[a | e] w1]; cbn [snd] in Hq |- *.
  - exists 0%nat. split; [lia | exact Hq].
  - replace (retries >? 0) with false
      by (symmetry; destruct (Z.gtb_spec retries 0); [lia | reflexivity]).
    exists 0%nat. split; [lia | exact Hq].
  - exists 0%nat. split; [lia | exact Hq].
  - destruct ((retries >? 0) && isRetryable e) eqn:Hgo.
    + destruct (IH (retries - 1) (baseDelay * 2) (snd (sleep baseDelay w1))) as [k [Hk Hview]];
        [lia |].
      exists (S k). split; [lia |].
      rewrite Hview, trace_sleep.
      rewrite retrierView_app, Hq. simpl. rewrite <- !app_assoc. reflexivity.
    + exists 0%nat. split; [lia | exact Hq].
Qed.

(** X1. Whatever the wrapped operation does, [withRetry] invokes it at
    least once and at most [retries + 1] times, sleeps only between two
    attempts, [baseDelay * 2^k] after the attempt of rank [k], and so never
    sleeps more than [baseDelay * (2^retries - 1)] in all. *)
Theorem withRetry_bounded {E A} {timers : Timers E} (fn : M E A) (retries baseDelay : Z) (w : World E) :
  quiet fn ->
  let w' := snd (withRetry fn retries baseDelay w) in
  exists k : nat,
    Z.of_nat k <= Z.max 0 retries
    /\ retrierView (trace w') = retrierView (trace w) ++ backoffSchedule k baseDelay
    /\ attemptsOf (trace w') = (attemptsOf (trace w) + k + 1)%nat
    /\ sleepsOf (trace w') = sleepsOf (trace w) ++ doublings k baseDelay
    /\ (0 <= baseDelay ->
        sumZ (doublings k baseDelay) <= baseDelay * (2 ^ Z.max 0 retries - 1)).
Proof.
  intros Hquiet w'.
  destruct (withRetry_schedule_prefix fn Hquiet (Z.to_nat retries) retries baseDelay w eq_refl)
    as [k [Hk Hview]].
  fold w' in Hview.
  exists k. refine (conj _ (conj Hview (conj _ (conj _ _)))).
  - lia.
  - rewrite <- (attemptsOf_view (trace w')), Hview, attemptsOf_app,
      attemptsOf_view, attemptsOf_schedule. lia.
  - rewrite <- (sleepsOf_view (trace w')), Hview, sleepsOf_app,
      sleepsOf_view, sleepsOf_schedule. reflexivity.
  - intros Hb. rewrite sum_doublings.
    apply Z.mul_le_mono_nonneg_l; [exact Hb |].
    assert (2 ^ Z.of_nat k <= 2 ^ Z.max 0 retries)
      by (apply Z.pow_le_mono_r; lia).
    lia.
Qed.

(** X2. When the first [k] attempts of a run fail with a retryable error,
    [k] being at most [retries], and the next attempt succeeds, [withRetry]
    returns what that attempt returned, in the world it left: after
    exactly [k + 1] attempts, with the [k] sleeps [baseDelay],
    [2 * baseDelay], ... in between. *)
Theorem withRetry_recovers {E A} {timers : Timers E} (fn : M E A) (k : nat)
    (retries baseDelay : Z) (w w' : World E) (a : A) :
  Z.of_nat k <= retries ->
  (forall j : nat,
      (j < k)%nat ->
      exists e, fst (attempt fn j baseDelay w) = Threw e /\ isRetryable e = true) ->
  attempt fn k baseDelay w = (Returned a, w') ->
  withRetry fn retries baseDelay w = (Returned a, w')
  /\ (quiet fn ->
      retrierView (trace w') = retrierView (trace w) ++ backoffSchedule k baseDelay
      /\ attemptsOf (trace w') = (attemptsOf (trace w) + k + 1)%nat
      /\ sleepsOf (trace w') = sleepsOf (trace w) ++ doublings k baseDelay).
Proof.
  intros Hk Hfail Hok. split.
  - rewrite (withRetry_after_failures fn k retries baseDelay w Hk Hfail).
    rewrite withRetry_step. fold (attempt fn k baseDelay w). rewrite Hok. reflexivity.
  - intros Hquiet.
    assert (Hview : retrierView (trace w') =
                    retrierView (trace w) ++ backoffSchedule k baseDelay).
    { pose proof (attempt_schedule fn k Hquiet baseDelay w) as Hv.
      rewrite Hok in Hv. exact Hv. }
    refine (conj Hview (conj _ _)).
    + rewrite <- (attemptsOf_view (trace w')), Hview, attemptsOf_app,
        attemptsOf_view, attemptsOf_schedule. lia.
    + rewrite <- (sleepsOf_view (trace w')), Hview, sleepsOf_app,
        sleepsOf_view, sleepsOf_schedule. reflexivity.
Qed.

(** X3. What [withRetry] returns or throws is what one invocation of the
    wrapped operation returned or threw, in the world that this invocation
    left: the retrier never alters a value, replaces an error or adds an
    effect after its last attempt. *)
Theorem withRetry_outcome_of_last_attempt {E A} {timers : Timers E} (fn : M E A)
    (retries baseDelay : Z) (w : World E) :
  exists w0 : World E, withRetry fn retries baseDelay w = fn (record EvAttempt w0).
Proof.
  remember (Z.to_nat retries) as n eqn:Hn.
  revert retries baseDelay w Hn.
  induction n as [| n IH]; intros retries baseDelay w Hn; rewrite withRetry_step;
    destruct (fn (record EvAttempt w)) as [[a | e] w1] eqn:Hfn.
  - exists w. rewrite Hfn. reflexivity.
  - replace (retries >? 0) with false
      by (symmetry; destruct (Z.gtb_spec retries 0); [lia | reflexivity]).
    exists w. rewrite Hfn. reflexivity.
  - exists w. rewrite Hfn. reflexivity.
  - destruct ((retries >? 0) && isRetryable e) eqn:Hgo.
    + apply IH. apply andb_prop in Hgo. destruct Hgo as [Hpos _].
      destruct (Z.gtb_spec retries 0); [lia | discriminate].
    + exists w. rewrite Hfn. reflexivity.
Qed.

(* ===================================================================== *)
(** ** More about the operation poller                                    *)
(* ===================================================================== *)

Section PollerBounds.
Context {E : Type} {timers : Timers E} (host : Host E).

Lemma trace_checkStatus (op : Operation) (w : World E) :
  trace (snd (checkStatus host op w)) = trace w ++ [EvRequest (ReqGetVideosOperation op)].
Proof. apply trace_call. Qed.

Lemma now_checkStatus (op : Operation) (w : World E) :
  now w <= now (snd (checkStatus host op w)).
Proof.
  unfold checkStatus, call.
  destruct (getVideosOperation host op (now w) (remote w)) as [[latency outcome] e'].
  simpl. lia.
Qed.

Lemma pollLoop_turns (startTime : Z) (op : Operation) (w : World E) :
  exists ops : list Operation,
    trace (snd (pollLoop host startTime op w)) = trace w ++ flat_map pollTurn ops
    /\ Z.of_nat (List.length ops) <= turnsLeft startTime w.
Proof.
  funelim (pollLoop host startTime op w); clear Heqcall.
  - exists []. simpl. rewrite app_nil_r. split; [reflexivity |].
    unfold turnsLeft, MAX_WAIT_TIME, POLL_INTERVAL.
    destruct (_ >? _) eqn:Hgt; [lia |].
    destruct (Z.gtb_spec (now w - startTime) 300000); [discriminate |].
    Z.to_euclidean_division_equations; lia.
  - exists []. simpl. rewrite app_nil_r. split; [reflexivity |].
    unfold turnsLeft.
    destruct (Z.gtb_spec (now w - startTime) MAX_WAIT_TIME); lia.
  - destruct H as [ops [Htrace Hlen]].
    pose proof (trace_checkStatus op (snd (sleep POLL_INTERVAL w))) as Ht.
    pose proof (now_checkStatus op (snd (sleep POLL_INTERVAL w))) as Hn.
    match goal with Heq : checkStatus _ _ _ = _ |- _ => rewrite Heq in Ht, Hn end.
    cbn [snd] in Ht, Hn. rewrite trace_sleep in Ht.
    pose proof (now_sleep POLL_INTERVAL w) as Hs.
    exists (op :: ops). split.
    + rewrite Htrace, Ht. cbn [flat_map pollTurn app]. rewrite <- !app_assoc. reflexivity.
    + cbn [List.length]. rewrite Nat2Z.inj_succ.
      unfold turnsLeft, MAX_WAIT_TIME, POLL_INTERVAL in *.
      destruct (Z.gtb_spec (now w - startTime) 300000); [lia |].
      destruct (Z.gtb_spec (now w2 - startTime) 300000);
        Z.to_euclidean_division_equations; lia.
  - pose proof (trace_checkStatus op (snd (sleep POLL_INTERVAL w))) as Ht.
    pose proof (now_checkStatus op (snd (sleep POLL_INTERVAL w))) as Hn.
    match goal with Heq : checkStatus _ _ _ = _ |- _ => rewrite Heq in Ht, Hn end.
    cbn [snd] in Ht, Hn. rewrite trace_sleep in Ht.
    pose proof (now_sleep POLL_INTERVAL w) as Hs.
    destruct (isTransientPollFailure e).
    + destruct H as [ops [Htrace Hlen]].
      exists (op :: ops). split.
      * rewrite Htrace, Ht. cbn [flat_map pollTurn app]. rewrite <- !app_assoc. reflexivity.
      * cbn [List.length]. rewrite Nat2Z.inj_succ.
        unfold turnsLeft, MAX_WAIT_TIME, POLL_INTERVAL in *.
        destruct (Z.gtb_spec (now w - startTime) 300000); [lia |].
        destruct (Z.gtb_spec (now w2 - startTime) 300000);
          Z.to_euclidean_division_equations; lia.
    + exists [op]. split.
      * cbn [snd]. rewrite Ht. cbn [flat_map pollTurn app]. rewrite <- !app_assoc. reflexivity.
      * cbn [List.length].
        unfold turnsLeft, MAX_WAIT_TIME, POLL_INTERVAL in *.
        destruct (Z.gtb_spec (now w - startTime) 300000); [lia |].
        Z.to_euclidean_division_equations; lia.
Qed.

(** X4. However the service answers, one call of [pollForVideo] makes at
    most 31 status checks, each of them after a sleep of 10 seconds, and
    does nothing else: no other request, no other sleep, no attempt of a
    retrier. *)
Theorem pollForVideo_turns (operation : Operation) (w : World E) :
  exists ops : list Operation,
    trace (snd (pollForVideo host operation w)) = trace w ++ flat_map pollTurn ops
    /\ (List.length ops <= 31)%nat
    /\ requestsOf (trace (snd (pollForVideo host operation w))) =
       requestsOf (trace w) ++ map ReqGetVideosOperation ops
    /\ sleepsOf (trace (snd (pollForVideo host operation w))) =
       sleepsOf (trace w) ++ repeat POLL_INTERVAL (List.length ops)
    /\ attemptsOf (trace (snd (pollForVideo host operation w))) = attemptsOf (trace w).
Proof.
  unfold pollForVideo. cbv zeta.
  destruct (pollLoop_turns (now w) operation w) as [ops [Htrace Hlen]].
  exists ops. rewrite Htrace.
  assert (Hturn : turnsLeft (now w) w = 31).
  { unfold turnsLeft. rewrite Z.sub_diag. reflexivity. }
  rewrite Hturn in Hlen.
  refine (conj eq_refl (conj _ (conj _ (conj _ _)))).
  - lia.
  - rewrite requestsOf_app. f_equal.
    clear. induction ops as [| op ops IH]; [reflexivity |].
    cbn [flat_map pollTurn app requestsOf map]. rewrite IH. reflexivity.
  - rewrite sleepsOf_app. f_equal.
    clear. induction ops as [| op ops IH]; [reflexivity |].
    cbn [flat_map pollTurn app sleepsOf List.length repeat]. rewrite IH. reflexivity.
  - rewrite attemptsOf_app.
    assert (attemptsOf (flat_map pollTurn ops) = 0%nat) as ->; [| lia].
    clear. induction ops as [| op ops IH]; [reflexivity |].
    cbn [flat_map pollTurn app attemptsOf]. exact IH.
Qed.

(** X5. A job whose first status check fails with a transient error, in
    time for a second turn, and whose second status check reports
    completion is returned by the poller after these two checks. *)
Theorem pollForVideo_rides_out_failure (operation op' : Operation)
    (w w1 w2 : World E) (e : JsError) :
  isDone operation = false ->
  checkStatus host operation (snd (sleep POLL_INTERVAL w)) = (Threw e, w1) ->
  isTransientPollFailure e = true ->
  now w1 - now w <= MAX_WAIT_TIME ->
  checkStatus host operation (snd (sleep POLL_INTERVAL w1)) = (Returned op', w2) ->
  isDone op' = true ->
  pollForVideo host operation w = (Returned op', w2)
  /\ requestsOf (trace w2) =
     requestsOf (trace w) ++ [ReqGetVideosOperation operation; ReqGetVideosOperation operation]
  /\ sleepsOf (trace w2) = sleepsOf (trace w) ++ [POLL_INTERVAL; POLL_INTERVAL].
Proof.
  intros Hpending Hfirst Htransient Hintime Hsecond Hdone.
  assert (Hrun : pollForVideo host operation w = (Returned op', w2)).
  { unfold pollForVideo. cbv zeta.
    rewrite pollLoop_step, Hpending, Z.sub_diag. cbn [Z.gtb Z.compare MAX_WAIT_TIME].
    rewrite Hfirst, Htransient.
    rewrite pollLoop_step, Hpending.
    destruct (Z.gtb_spec (now w1 - now w) MAX_WAIT_TIME); [lia |].
    rewrite Hsecond, pollLoop_step, Hdone. reflexivity. }
  split; [exact Hrun |].
  pose proof (trace_checkStatus operation (snd (sleep POLL_INTERVAL w))) as H1.
  pose proof (trace_checkStatus operation (snd (sleep POLL_INTERVAL w1))) as H2.
  rewrite Hfirst in H1. rewrite Hsecond in H2. cbn [snd] in H1, H2. rewrite trace_sleep in H1, H2.
  rewrite H2, H1. rewrite !requestsOf_app, !sleepsOf_app. cbn [requestsOf sleepsOf].
  rewrite !app_nil_r, <- !app_assoc. split; reflexivity.
Qed.

End PollerBounds.

(* ===================================================================== *)
(** ** More about [cleanBase64] and data URLs                             *)
(* ===================================================================== *)

Lemma afterLastComma_tail (c : ascii) (s : string) :
  isLineTerminator c = false ->
  afterLastComma (String c s) = None -> afterLastComma s = None.
Proof.
  intros Hc H. cbn [afterLastComma] in H. rewrite Hc in H.
  destruct (afterLastComma s); [discriminate | reflexivity].
Qed.

(** What follows the last comma of a line has no comma on its first line. *)
Lemma afterLastComma_twice (s t : string) :
  afterLastComma s = Some t -> afterLastComma t = None.
Proof.
  induction s as [| c s IH]; intros H; cbn [afterLastComma] in H; [discriminate |].
  destruct (isLineTerminator c); [discriminate |].
  destruct (afterLastComma s) as [t' |] eqn:Hs.
  - injection H as <-. apply IH. reflexivity.
  - destruct (nat_of_ascii c =? 44)%nat; [| discriminate].
    injection H as <-. exact Hs.
Qed.

Lemma afterLastComma_lacks (s : string) :
  lacks "," s = true -> afterLastComma s = None.
Proof.
  induction s as [| c s IH]; intros H; [reflexivity |].
  cbn [lacks] in H. apply andb_prop in H. destruct H as [Hc Hs].
  cbn [afterLastComma]. destruct (isLineTerminator c); [reflexivity |].
  rewrite (IH Hs).
  destruct (nat_of_ascii c =? 44)%nat eqn:Hcomma; [| reflexivity].
  apply Nat.eqb_eq in Hcomma.
  assert (c = ","%char) as ->.
  { rewrite <- (ascii_nat_embedding c), Hcomma. reflexivity. }
  discriminate.
Qed.

Lemma afterLastComma_header (header payload : string) :
  singleLine header = true ->
  afterLastComma payload = None ->
  afterLastComma (header ++ "," ++ payload) = Some payload.
Proof.
  intros Hline Hpayload. induction header as [| c header IH].
  - change ("" ++ "," ++ payload)%string with (String "," payload).
    cbn [afterLastComma]. rewrite Hpayload. reflexivity.
  - cbn [singleLine] in Hline. apply andb_prop in Hline. destruct Hline as [Hc Hrest].
    apply negb_true_iff in Hc.
    change (String c header ++ "," ++ payload)%string
      with (String c (header ++ "," ++ payload)%string).
    cbn [afterLastComma]. rewrite Hc, (IH Hrest). reflexivity.
Qed.

(** X6. [cleanBase64] is idempotent: what it returns has no data-URL
    prefix left to remove. *)
Theorem cleanBase64_idempotent (data : string) :
  cleanBase64 (cleanBase64 data) = cleanBase64 data.
Proof.
  unfold cleanBase64 at 2 3.
  destruct (String.prefix "data:" data) eqn:Hprefix.
  - destruct (afterLastComma (dropChars 5 data)) as [t |] eqn:Hcut.
    + apply afterLastComma_twice in Hcut.
      unfold cleanBase64. destruct (String.prefix "data:" t) eqn:Ht; [| reflexivity].
      assert (Hnone : afterLastComma (dropChars 5 t) = None).
      { do 5 (destruct t as [| ? t];
              [cbn [String.prefix] in Ht;
               repeat match type of Ht with
                      | (if ?d then _ else _) = true =>
                          destruct d as [<- |]; [| discriminate]
                      end; discriminate |]).
        cbn [String.prefix] in Ht.
        repeat match type of Ht with
               | (if ?d then _ else _) = true =>
                   destruct d as [<- |]; [| discriminate]
               end.
        cbn [dropChars].
        do 5 (apply afterLastComma_tail in Hcut; [| reflexivity]).
        exact Hcut. }
      rewrite Hnone. reflexivity.
    + unfold cleanBase64. rewrite Hprefix, Hcut. reflexivity.
  - unfold cleanBase64. rewrite Hprefix. reflexivity.
Qed.

Lemma cleanBase64_prefixed (rest t : string) :
  afterLastComma rest = Some t -> cleanBase64 ("data:" ++ rest) = t.
Proof.
  intros Hcut. unfold cleanBase64.
  assert (Hprefix : String.prefix "data:" ("data:" ++ rest) = true).
  { cbn [String.prefix append].
    repeat (destruct (ascii_dec _ _) as [_ | Hne]; [| congruence]).
    destruct rest; reflexivity. }
  rewrite Hprefix.
  change (dropChars 5 ("data:" ++ rest)) with rest.
  rewrite Hcut. reflexivity.
Qed.

Lemma append_assoc (a b c : string) : ((a ++ b) ++ c = a ++ b ++ c)%string.
Proof.
  induction a as [| x a IH]; [reflexivity |]. cbn [append]. rewrite IH. reflexivity.
Qed.

Lemma singleLine_app (a b : string) :
  singleLine a = true -> singleLine b = true -> singleLine (a ++ b) = true.
Proof.
  intros Ha Hb. induction a as [| c a IH]; [exact Hb |].
  cbn [singleLine] in Ha. apply andb_prop in Ha. destruct Ha as [Hc Hr].
  cbn [append singleLine]. rewrite Hc, (IH Hr). reflexivity.
Qed.

(** X7. [cleanBase64] gives back the payload of a data URL, whatever its
    header, when the header holds on one line and the payload has no
    comma.  The pattern is anchored: a string that does not start with
    [data:] is left as it is, commas or not, and so is one that starts
    with [data:] but has no comma on its first line. *)
Theorem cleanBase64_data_url :
  (forall header payload : string,
      singleLine header = true ->
      lacks "," payload = true ->
      cleanBase64 ("data:" ++ header ++ "," ++ payload) = payload
      /\ cleanBase64 (dataUrl header payload) = payload)
  /\ (forall raw : string,
         String.prefix "data:" raw = false -> cleanBase64 raw = raw)
  /\ (forall rest : string,
         afterLastComma rest = None ->
         cleanBase64 ("data:" ++ rest) = ("data:" ++ rest)%string).
Proof.
  refine (conj _ (conj _ _)).
  - intros header payload Hheader Hpayload.
    assert (Hnone : afterLastComma payload = None)
      by (apply afterLastComma_lacks; exact Hpayload).
    split.
    + apply cleanBase64_prefixed, afterLastComma_header; assumption.
    + unfold dataUrl. apply cleanBase64_prefixed.
      change (header ++ ";base64," ++ payload)%string
        with (header ++ ";base64" ++ "," ++ payload)%string.
      rewrite <- append_assoc.
      apply afterLastComma_header; [| exact Hnone].
      apply singleLine_app; [exact Hheader | reflexivity].
  - intros raw Hraw. unfold cleanBase64. rewrite Hraw. reflexivity.
  - intros rest Hnone. unfold cleanBase64.
    destruct (String.prefix "data:" ("data:" ++ rest)); [| reflexivity].
    change (dropChars 5 ("data:" ++ rest)) with rest.
    rewrite Hnone. reflexivity.
Qed.

(* ===================================================================== *)
(** ** More about the generation client                                   *)
(* ===================================================================== *)

Lemma prefix_base64_other (c : ascii) (s : string) :
  c <> ";"%char -> String.prefix ";base64," (String c s) = false.
Proof.
  intros Hc. cbn [String.prefix]. destruct (ascii_dec ";" c) as [Heq | _]; [congruence | reflexivity].
Qed.

Lemma cut_skip (sep : string) (c : ascii) (s : string) :
  String.prefix sep (String c s) = false ->
  cut sep (String c s) =
  match cut sep s with
  | Some (before, after) => Some (String c before, after)
  | None => None
  end.
Proof. intros H. cbn [cut]. rewrite H. reflexivity. Qed.

Lemma cut_base64_absent (s : string) :
  lacks ";" s = true -> cut ";base64," s = None.
Proof.
  induction s as [| c s IH]; intros H; [reflexivity |].
  cbn [lacks] in H. apply andb_prop in H. destruct H as [Hc Hs].
  apply negb_true_iff, Ascii.eqb_neq in Hc.
  rewrite cut_skip by (apply prefix_base64_other; exact Hc).
  rewrite (IH Hs). reflexivity.
Qed.

Lemma cut_base64_first (a b : string) :
  lacks ";" a = true -> cut ";base64," (a ++ ";base64," ++ b) = Some (a, b).
Proof.
  induction a as [| c a IH]; intros H.
  - change ("" ++ ";base64," ++ b)%string with (";base64," ++ b)%string.
    destruct b; reflexivity.
  - cbn [lacks] in H. apply andb_prop in H. destruct H as [Hc Ha].
    apply negb_true_iff, Ascii.eqb_neq in Hc.
    change (String c a ++ ";base64," ++ b)%string
      with (String c (a ++ ";base64," ++ b)%string).
    rewrite cut_skip by (apply prefix_base64_other; exact Hc).
    rewrite (IH Ha). reflexivity.
Qed.

Lemma replaceFirst_data_prefix (s : string) : replaceFirst "data:" "" ("data:" ++ s) = s.
Proof.
  unfold replaceFirst. cbn [append cut String.prefix].
  repeat (destruct (ascii_dec _ _) as [_ | Hne]; [| congruence]).
  destruct s; reflexivity.
Qed.

Lemma splitFirstTwo_dataUrl (mime payload : string) :
  lacks ";" mime = true ->
  lacks ";" payload = true ->
  splitFirstTwo ";base64," (dataUrl mime payload) = (("data:" ++ mime)%string, Some payload).
Proof.
  intros Hmime Hpayload. unfold splitFirstTwo, dataUrl.
  rewrite <- (append_assoc "data:" mime).
  rewrite cut_base64_first by exact Hmime.
  rewrite (cut_base64_absent payload Hpayload). reflexivity.
Qed.

(** X8. A reference image given as the data URL of a media type and a
    base64 payload, neither of which contains a semicolon, is sent as an
    inline part that carries exactly that payload and that media type. *)
Theorem imageParts_reference_data_url (o : TextImageOptions) (mime payload : string) :
  lacks ";" mime = true ->
  lacks ";" payload = true ->
  referenceImage o = Some (dataUrl mime payload) ->
  exists t : string,
    imageParts o = [PartInline (mkInlineData (Some payload) (Some mime)); PartText t].
Proof.
  intros Hmime Hpayload Href. unfold imageParts. rewrite Href.
  destruct (dataUrl mime payload) as [| c r] eqn:Hurl; [discriminate |].
  rewrite <- Hurl, (splitFirstTwo_dataUrl mime payload Hmime Hpayload).
  rewrite replaceFirst_data_prefix. eauto.
Qed.

Section ClientExtras.
Context {E : Type} {timers : Timers E} (host : Host E).

Lemma styles_not_empty : Forall (fun s => s <> EmptyString) styles.
Proof. repeat constructor; discriminate. Qed.

Lemma truthy_not_empty (s : string) : truthy s = true -> s <> EmptyString.
Proof. destruct s; [discriminate | discriminate]. Qed.

Lemma getRandomStyle_run (w : World E) :
  exists s, In s styles /\
    getRandomStyle host w =
    (Returned (Some s), mkWorld (now w) (trace w) (snd (mathRandom host (remote w)))).
Proof.
  destruct (getRandomStyle_member host w) as [s [Hs Hin]].
  exists s. split; [exact Hin |].
  assert (Hw : snd (getRandomStyle host w) =
               mkWorld (now w) (trace w) (snd (mathRandom host (remote w)))).
  { unfold getRandomStyle, bind, random, ret.
    destruct (mathRandom host (remote w)) as [r e']. reflexivity. }
  destruct (getRandomStyle host w) as [out w1]. cbn [fst snd] in Hs, Hw.
  rewrite Hs, Hw. reflexivity.
Qed.

(** X9. [generateStyleSuggestion] never throws and never retries: it
    sends its one request, sleeps nowhere, and returns a string that is
    not empty, namely the trimmed text of the answer when there is one and
    one of the fallback styles otherwise. *)
Theorem generateStyleSuggestion_always_returns (text : string) (w : World E) :
  exists (s : string) (w' : World E),
    generateStyleSuggestion host text w = (Returned (Some s), w')
    /\ s <> EmptyString
    /\ trace w' = trace w ++ [EvRequest (ReqGenerateContent (styleRequest text))]
    /\ (forall latency response e' t,
           generateContent host (styleRequest text) (now w) (remote w)
             = ((latency, Returned response), e') ->
           resp_text response = Some t ->
           trim t <> EmptyString ->
           s = trim t /\ remote w' = e')
    /\ (In s styles \/
        exists latency response e' t,
          generateContent host (styleRequest text) (now w) (remote w)
            = ((latency, Returned response), e')
          /\ resp_text response = Some t /\ s = trim t).
Proof.
  unfold generateStyleSuggestion, tryCatch, bind, call.
  destruct (generateContent host (styleRequest text) (now w) (remote w))
    as [[latency [response | err]] e'] eqn:Hanswer.
  - destruct (resp_text response) as [t |] eqn:Htext.
    + destruct (truthy (trim t)) eqn:Htruthy.
      * exists (trim t), (mkWorld (now w + Z.of_N latency)
                           (trace w ++ [EvRequest (ReqGenerateContent (styleRequest text))]) e').
        refine (conj eq_refl (conj _ (conj eq_refl (conj _ _)))).
        -- apply truthy_not_empty. exact Htruthy.
        -- intros latency0 response0 e0 t0 Heq Ht0 _.
           injection Heq as <- <- <-. rewrite Htext in Ht0. injection Ht0 as <-.
           split; reflexivity.
        -- right. exists latency, response, e', t. repeat split. exact Htext.
      * destruct (getRandomStyle_run
                    (mkWorld (now w + Z.of_N latency)
                       (trace w ++ [EvRequest (ReqGenerateContent (styleRequest text))]) e'))
          as [s [Hin Hrun]].
        rewrite Hrun. eexists s, _.
        refine (conj eq_refl (conj _ (conj eq_refl (conj _ _)))).
        -- pose proof styles_not_empty as Hall. rewrite Forall_forall in Hall. auto.
        -- intros latency0 response0 e0 t0 Heq Ht0 Hne.
           injection Heq as <- <- <-. rewrite Htext in Ht0. injection Ht0 as <-.
           destruct (trim t); [congruence | discriminate].
        -- left. exact Hin.
    + destruct (getRandomStyle_run
                  (mkWorld (now w + Z.of_N latency)
                     (trace w ++ [EvRequest (ReqGenerateContent (styleRequest text))]) e'))
        as [s [Hin Hrun]].
      rewrite Hrun. eexists s, _.
      refine (conj eq_refl (conj _ (conj eq_refl (conj _ _)))).
      * pose proof styles_not_empty as Hall. rewrite Forall_forall in Hall. auto.
      * intros latency0 response0 e0 t0 Heq Ht0 _.
        injection Heq as <- <- <-. congruence.
      * left. exact Hin.
  - destruct (getRandomStyle_run
                (mkWorld (now w + Z.of_N latency)
                   (trace w ++ [EvRequest (ReqGenerateContent (styleRequest text))]) e'))
      as [s [Hin Hrun]].
    rewrite Hrun. eexists s, _.
    refine (conj eq_refl (conj _ (conj eq_refl (conj _ _)))).
    + pose proof styles_not_empty as Hall. rewrite Forall_forall in Hall. auto.
    + intros latency0 response0 e0 t0 Heq. discriminate.
    + left. exact Hin.
Qed.

(** X10. An answer without any inline data makes [generateTextImage] fail
    with "No image generated" after that one request: the failure is not
    one that the retrier retries. *)
Theorem generateTextImage_no_image (o : TextImageOptions) (w : World E)
    (latency : N) (response : GenerateContentResponse) (e' : E) :
  generateContent host (imageRequest o) (now w) (remote w) = ((latency, Returned response), e') ->
  firstInlineData (answerParts response) = None ->
  generateTextImage host o w =
  (Threw (newError "No image generated"),
   mkWorld (now w + Z.of_N latency)
     (trace w ++ [EvAttempt; EvRequest (ReqGenerateContent (imageRequest o))]) e').
Proof.
  intros Hanswer Hnone.
  unfold generateTextImage, withRetryDefault. rewrite withRetry_step.
  unfold requestImage at 1, bind, call. cbn [record now remote trace].
  rewrite Hanswer. fold (answerParts response). rewrite Hnone.
  unfold throw. cbn [isRetryable]. rewrite <- app_assoc. reflexivity.
Qed.

(** X11. [generateTextImage] returns the first part of the answer that
    carries inline data, skipping the text parts before it and ignoring
    what follows, with [image/png] as media type when the part declares
    none; one request is enough. *)
Theorem generateTextImage_first_inline (o : TextImageOptions) (w : World E)
    (latency : N) (response : GenerateContentResponse) (e' : E)
    (texts : list string) (d : InlineData) (rest : list Part) :
  generateContent host (imageRequest o) (now w) (remote w) = ((latency, Returned response), e') ->
  resp_parts response = Some (map PartText texts ++ PartInline d :: rest) ->
  exists m : string,
    generateTextImage host o w =
    (Returned (mkImageResult (data d) m),
     mkWorld (now w + Z.of_N latency)
       (trace w ++ [EvAttempt; EvRequest (ReqGenerateContent (imageRequest o))]) e')
    /\ (forall t, mimeType d = Some t -> t <> EmptyString -> m = t)
    /\ (mimeType d = None \/ mimeType d = Some EmptyString -> m = "image/png").
Proof.
  intros Hanswer Hparts.
  assert (Hfirst : forall ts, firstInlineData (map PartText ts ++ PartInline d :: rest) =
                         firstInlineData (PartInline d :: rest)).
  { induction ts as [| t ts IH]; [reflexivity | exact IH]. }
  eexists. split.
  - unfold generateTextImage, withRetryDefault. rewrite withRetry_step.
    unfold requestImage at 1, bind, call. cbn [record now remote trace].
    rewrite Hanswer, Hparts, Hfirst. cbn [firstInlineData ret].
    rewrite <- app_assoc. reflexivity.
  - split.
    + intros t Ht Hne. rewrite Ht. destruct t; [congruence | reflexivity].
    + intros [Hm | Hm]; rewrite Hm; reflexivity.
Qed.

End ClientExtras.

Section VideoExtras.
Context {E : Type} {timers : Timers E} (host : Host E).

(** The operation that [generateTextVideo] hands to the retrier. *)
Lemma generateTextVideo_unfold (text imageBase64 imageMimeType promptStyle : string)
    (w : World E) :
  imageBase64 <> EmptyString ->
  generateTextVideo host text imageBase64 imageMimeType promptStyle w =
  match withRetryDefault (submitVideo host text imageBase64 imageMimeType promptStyle) w with
  | (Threw e, w1) => (Threw e, w1)
  | (Returned operation, w1) =>
      match pollForVideo host operation w1 with
      | (Threw e, w2) => (Threw e, w2)
      | (Returned op, w2) =>
          match error op, video_uri op with
          | None, Some (String c r as uri) => fetchVideoBlob host uri w2
          | Some err, _ => (Threw (newError (jobErrorMessage err)), w2)
          | None, _ => (Threw (newError "Unable to generate video."), w2)
          end
      end
  end.
Proof.
  intros Hne. unfold generateTextVideo.
  destruct imageBase64 as [| c s]; [congruence |]. cbn [truthy negb].
  unfold bind, submitVideo.
  destruct (withRetryDefault _ w) as [[operation | e] w1]; [| reflexivity].
  destruct (pollForVideo host operation w1) as [[op | e] w2]; [| reflexivity].
  destruct (error op) as [err |]; [reflexivity |].
  destruct (video_uri op) as [[| c' r'] |]; reflexivity.
Qed.

(** X12. Once the job is submitted and polled to its end, what
    [generateTextVideo] does depends on the final snapshot only: a snapshot
    that carries an error makes it throw that error's message, or a
    generic one when the message is missing or empty, without any
    download, even when a video locator is present; a snapshot without
    error and without locator makes it throw "Unable to generate video.";
    a snapshot without error and with a locator is downloaded. *)
Theorem generateTextVideo_after_polling
    (text imageBase64 imageMimeType promptStyle : string)
    (w w1 w2 : World E) (operation op : Operation) :
  imageBase64 <> EmptyString ->
  withRetryDefault (submitVideo host text imageBase64 imageMimeType promptStyle) w
    = (Returned operation, w1) ->
  pollForVideo host operation w1 = (Returned op, w2) ->
  let run := generateTextVideo host text imageBase64 imageMimeType promptStyle w in
  (forall err, error op = Some err ->
     run = (Threw (newError (jobErrorMessage err)), w2)
     /\ (forall m, op_message err = Some m -> m <> EmptyString -> jobErrorMessage err = m))
  /\ (error op = None ->
      video_uri op = None \/ video_uri op = Some EmptyString ->
      run = (Threw (newError "Unable to generate video."), w2))
  /\ (forall uri, error op = None -> video_uri op = Some uri -> uri <> EmptyString ->
      run = fetchVideoBlob host uri w2)
  /\ isDone op = true.
Proof.
  intros Hne Hsubmit Hpoll run. subst run.
  rewrite (generateTextVideo_unfold _ _ _ _ _ Hne), Hsubmit, Hpoll.
  refine (conj _ (conj _ (conj _ _))).
  - intros err Herr. rewrite Herr. split; [reflexivity |].
    intros m Hm Hmne. unfold jobErrorMessage. rewrite Hm.
    destruct m; [congruence | reflexivity].
  - intros Herr [Huri | Huri]; rewrite Herr, Huri; reflexivity.
  - intros uri Herr Huri Hurine. rewrite Herr, Huri.
    destruct uri; [congruence | reflexivity].
  - unfold pollForVideo in Hpoll. eapply pollLoop_returns_done. exact Hpoll.
Qed.

(** The requests sent through a retrier, when each attempt sends at most
    one. *)
Lemma withRetry_requests_bounded {A : Type} (fn : M E A) (P : Request -> Prop) :
  (forall w0, exists sent,
      requestsOf (trace (snd (fn w0))) = requestsOf (trace w0) ++ sent
      /\ Forall P sent /\ (List.length sent <= 1)%nat) ->
  forall (n : nat) (retries baseDelay : Z) (w : World E),
    Z.to_nat retries = n ->
    exists sent,
      requestsOf (trace (snd (withRetry fn retries baseDelay w))) = requestsOf (trace w) ++ sent
      /\ Forall P sent /\ (List.length sent <= n + 1)%nat.
Proof.
  intros Hfn. induction n as [| n IH]; intros retries baseDelay w Hn;
    rewrite withRetry_step;
    destruct (Hfn (record EvAttempt w)) as [sent [Hone [HP Hlen]]];
    cbn [record trace] in Hone; rewrite requestsOf_app in Hone;
    cbn [requestsOf] in Hone; rewrite app_nil_r in Hone;
    destruct (fn (record EvAttempt w)) as [[a | e] w1]; cbn [snd] in Hone |- *.
  - exists sent. repeat split; [exact Hone | exact HP | lia].
  - replace (retries >? 0) with false
      by (symmetry; destruct (Z.gtb_spec retries 0); [lia | reflexivity]).
    exists sent. repeat split; [exact Hone | exact HP | lia].
  - exists sent. repeat split; [exact Hone | exact HP | lia].
  - destruct ((retries >? 0) && isRetryable e) eqn:Hgo.
    + destruct (IH (retries - 1) (baseDelay * 2) (snd (sleep baseDelay w1)))
        as [more [Hreq [HPmore Hlenmore]]]; [lia |].
      exists (sent ++ more). split; [| split].
      * rewrite Hreq, trace_sleep.
        rewrite requestsOf_app, Hone. cbn [requestsOf].
        rewrite app_nil_r, <- app_assoc. reflexivity.
      * apply Forall_app. split; assumption.
      * rewrite length_app. lia.
    + exists sent. repeat split; [exact Hone | exact HP | lia].
Qed.

Lemma requests_submitVideo (text imageBase64 imageMimeType promptStyle : string)
    (w0 : World E) :
  exists sent,
    requestsOf (trace (snd (submitVideo host text imageBase64 imageMimeType promptStyle w0)))
      = requestsOf (trace w0) ++ sent
    /\ Forall (eq (ReqGenerateVideos (videoRequest host text imageBase64 imageMimeType promptStyle)))
         sent
    /\ (List.length sent <= 1)%nat.
Proof.
  eexists [_]. unfold submitVideo. rewrite trace_call, requestsOf_app.
  split; [reflexivity |]. split; [| simpl; lia].
  constructor; [reflexivity | constructor].
Qed.

Lemma requests_downloadVideo (uri : string) (w0 : World E) :
  exists sent,
    requestsOf (trace (snd (downloadVideo host uri w0))) = requestsOf (trace w0) ++ sent
    /\ Forall isDownload sent /\ (List.length sent <= 1)%nat.
Proof.
  unfold downloadVideo, bind, settle.
  destruct (urlWithKey host uri _) as [url | e].
  - exists [ReqFetch url].
    pose proof (trace_call (ReqFetch url) (fetch host url) w0) as Hc.
    split; [| split; [repeat constructor | simpl; lia]].
    destruct (call _ _ w0) as [[videoResponse | e] w1]; cbn [snd] in Hc |- *.
    + destruct (ok videoResponse); cbn [negb].
      * destruct (body videoResponse) as [blob | e].
        -- destruct (createObjectURL host blob (remote w1)) as [handle e'].
           cbn [snd trace]. rewrite Hc, requestsOf_app. reflexivity.
        -- cbn [snd]. rewrite Hc, requestsOf_app. reflexivity.
      * cbn [snd throw]. rewrite Hc, requestsOf_app. reflexivity.
    + rewrite Hc, requestsOf_app. reflexivity.
  - exists []. cbn [snd]. rewrite app_nil_r. split; [reflexivity |].
    split; [constructor | simpl; lia].
Qed.

(** X13. One call of [generateTextVideo] sends its requests in three
    phases, in this order: at most 4 submissions, all of them the same
    request, then at most 31 status checks, then at most 3 downloads; 38
    requests at most, and none of another kind. *)
Theorem generateTextVideo_requests (text imageBase64 imageMimeType promptStyle : string)
    (w : World E) :
  exists submissions checks downloads : list Request,
    requestsOf (trace (snd (generateTextVideo host text imageBase64 imageMimeType promptStyle w)))
      = requestsOf (trace w) ++ submissions ++ checks ++ downloads
    /\ Forall (eq (ReqGenerateVideos (videoRequest host text imageBase64 imageMimeType promptStyle)))
         submissions
    /\ (List.length submissions <= 4)%nat
    /\ Forall isStatusCheck checks /\ (List.length checks <= 31)%nat
    /\ Forall isDownload downloads /\ (List.length downloads <= 3)%nat.
Proof.
  destruct imageBase64 as [| c s] eqn:Himage.
  - exists [], [], []. cbn. rewrite app_nil_r.
    repeat split; try apply Forall_nil; lia.
  - rewrite <- Himage. assert (Hne : imageBase64 <> EmptyString) by (subst; discriminate).
    clear Himage.
    rewrite (generateTextVideo_unfold _ _ _ _ _ Hne).
    destruct (withRetry_requests_bounded
                (submitVideo host text imageBase64 imageMimeType promptStyle) _
                (requests_submitVideo text imageBase64 imageMimeType promptStyle)
                (Z.to_nat 3) 3 3000 w eq_refl)
      as [submissions [Hsub [HsubP Hsublen]]].
    unfold withRetryDefault.
    destruct (withRetry _ 3 3000 w) as [[operation | e] w1]; cbn [snd] in Hsub |- *.
    2:{ exists submissions, [], []. rewrite Hsub. cbn [app]. rewrite app_nil_r.
        split; [reflexivity |].
        repeat split; try assumption; try apply Forall_nil; simpl in *; lia. }
    destruct (pollForVideo_turns host operation w1) as [ops [_ [Hopslen [Hreq _]]]].
    assert (Hchecks : Forall isStatusCheck (map ReqGetVideosOperation ops)).
    { apply Forall_forall. intros r Hr. apply in_map_iff in Hr.
      destruct Hr as [op0 [<- _]]. exact I. }
    destruct (pollForVideo host operation w1) as [[op | e] w2]; cbn [snd] in Hreq |- *.
    2:{ exists submissions, (map ReqGetVideosOperation ops), [].
        rewrite Hreq, Hsub. rewrite app_nil_r, <- app_assoc.
        split; [reflexivity |].
        repeat split; try assumption; try apply Forall_nil; try rewrite length_map;
          simpl in *; lia. }
    assert (Hstop : forall e : JsError,
               exists submissions0 checks downloads : list Request,
                 requestsOf (trace (snd (@Threw string e, w2)))
                   = requestsOf (trace w) ++ submissions0 ++ checks ++ downloads
                 /\ Forall (eq (ReqGenerateVideos
                                  (videoRequest host text imageBase64 imageMimeType promptStyle)))
                      submissions0
                 /\ (List.length submissions0 <= 4)%nat
                 /\ Forall isStatusCheck checks /\ (List.length checks <= 31)%nat
                 /\ Forall isDownload downloads /\ (List.length downloads <= 3)%nat).
    { intros e. exists submissions, (map ReqGetVideosOperation ops), [].
      cbn [snd]. rewrite Hreq, Hsub. rewrite app_nil_r, <- app_assoc.
      split; [reflexivity |].
      repeat split; try assumption; try apply Forall_nil; try rewrite length_map;
        simpl in *; lia. }
    destruct (error op) as [err |]; [apply Hstop |].
    destruct (video_uri op) as [[| c' r'] |]; try apply Hstop.
    destruct (withRetry_requests_bounded (downloadVideo host (String c' r')) _
                (requests_downloadVideo (String c' r')) (Z.to_nat 2) 2 2000 w2 eq_refl)
      as [downloads [Hdl [HdlP Hdllen]]].
    exists submissions, (map ReqGetVideosOperation ops), downloads.
    unfold fetchVideoBlob. rewrite Hdl, Hreq, Hsub. rewrite <- !app_assoc.
    split; [reflexivity |].
    repeat split; try assumption; try rewrite length_map; simpl in *; lia.
Qed.

End VideoExtras.

(* ===================================================================== *)
(** ** More about the frame transcoder                                    *)
(* ===================================================================== *)

Lemma rem_2_even (h : Z) : (Z.rem h 2 =? 0) = Z.even h.
Proof.
  pose proof (Z.rem_bound_abs h 2 ltac:(lia)) as Hb.
  pose proof (Z.quot_rem' h 2) as Hq.
  destruct (Z.even h) eqn:He.
  - apply Z.even_spec in He. destruct He as [k ->].
    apply Z.eqb_eq. rewrite Z.mul_comm. apply Z.rem_mul. lia.
  - apply Z.eqb_neq. intros Hr.
    assert (Z.even h = true); [| congruence].
    apply Z.even_spec. exists (Z.quot h 2). lia.
Qed.

(** X14. The height of the frames is always even: it is what
    [Math.floor] makes of the binary64 product, less one when that is
    odd.  It is not a finite number when the video has no width.  The
    rounding of the quotient shows in it: a video of 640 by 368 gets
    frames 228 high where exact arithmetic would give 230. *)
Theorem targetHeight_even (m : Metadata) :
  (forall h : Z,
      targetHeight m = Some h ->
      Z.even h = true
      /\ exists height : Z,
           floor (times (over (number (Z.of_N (videoHeight m)))
                           (number (Z.of_N (videoWidth m))))
                    (number 400)) = Some height
           /\ height - 1 <= h <= height
           /\ (Z.even height = true -> h = height))
  /\ (videoWidth m = 0%N -> targetHeight m = None)
  /\ (videoWidth m = 640%N -> videoHeight m = 368%N ->
      targetHeight m = Some 228 /\ 368 * 400 / 640 = 230)
  /\ (videoWidth m = 1280%N -> videoHeight m = 720%N -> targetHeight m = Some 224).
Proof.
  refine (conj _ (conj _ (conj _ _))).
  - intros h Hh. unfold targetHeight in Hh. change targetWidth with 400 in Hh.
    destruct (floor _) as [height |]; [| discriminate].
    injection Hh as <-. rewrite rem_2_even.
    destruct (Z.even height) eqn:Heven; cbn [negb].
    + split; [exact Heven |]. exists height. repeat split; try lia.
    + split.
      * rewrite Z.even_sub, Heven. reflexivity.
      * exists height. repeat split; try lia. intros Htrue. congruence.
  - intros Hw. unfold targetHeight. rewrite Hw.
    destruct (number (Z.of_N (videoHeight m))); reflexivity.
  - intros Hw Hh. unfold targetHeight. rewrite Hw, Hh. split; reflexivity.
  - intros Hw Hh. unfold targetHeight. rewrite Hw, Hh. reflexivity.
Qed.

Section TranscoderExtras.
Context {V G : Type} (dom : VideoHost V) (lib : GifLibrary G).

(** X15. A transcoding that fails has made whole shots only, no more of
    them than the video has frames, followed at most by the beginning of
    one: never a frame without its timestamp and its pixels.  When the
    library is not loaded, it fails with the message that says so and
    leaves the studio untouched; when the video does not load, or the
    canvas gives no context, it fails with the message of that failure
    before anything is sought. *)
Theorem createGifFromVideo_failure (videoUrl : string) (s s' : Studio V) (e : JsError) :
  createGifFromVideo dom lib videoUrl s = (Threw e, s') ->
  (exists (shots : list (ImageData * Frame)) (tail : list TranscodeEvent),
      Interrupted tail
      /\ journal s' = journal s ++ shooting 0 shots ++ tail
      /\ framesWritten (journal s') = framesWritten (journal s) ++ map snd shots
      /\ forall (video : Metadata) (n : Z),
           fst (loadMetadata dom videoUrl (element s)) = Some video ->
           totalFrames (video_duration video) = Some n ->
           Z.of_nat (List.length shots) <= Z.max 0 n)
  /\ (encoderLoaded lib = false ->
      e = newError "GIF library failed to load correctly. Please refresh the page."
      /\ s' = s)
  /\ (encoderLoaded lib = true ->
      fst (loadMetadata dom videoUrl (element s)) = None ->
      e = newError "Video load failed" /\ journal s' = journal s)
  /\ (encoderLoaded lib = true ->
      (exists video, fst (loadMetadata dom videoUrl (element s)) = Some video) ->
      contextAvailable dom = false ->
      e = newError "Could not get canvas context" /\ journal s' = journal s).
Proof.
  intros Hrun. unfold createGifFromVideo in Hrun.
  assert (Hnone : forall st : Studio V,
             journal st = journal s ->
             exists (shots : list (ImageData * Frame)) (tail : list TranscodeEvent),
               Interrupted tail
               /\ journal st = journal s ++ shooting 0 shots ++ tail
               /\ framesWritten (journal st) = framesWritten (journal s) ++ map snd shots
               /\ forall (video : Metadata) (n : Z),
                    fst (loadMetadata dom videoUrl (element s)) = Some video ->
                    totalFrames (video_duration video) = Some n ->
                    Z.of_nat (List.length shots) <= Z.max 0 n).
  { intros st Hst. exists [], []. rewrite Hst. cbn [shooting map app List.length].
    rewrite !app_nil_r. repeat split; [constructor | intros; lia]. }
  destruct (encoderLoaded lib) eqn:Hlib; cbn [negb] in Hrun.
  2:{ injection Hrun as <- <-.
      split; [apply Hnone; reflexivity |].
      split; [intros _; split; reflexivity |].
      split; intros; discriminate. }
  destruct (loadMetadata dom videoUrl (element s)) as [[video |] v] eqn:Hload.
  2:{ injection Hrun as <- <-.
      split; [apply Hnone; reflexivity |].
      split; [intros; discriminate |].
      split; [intros _ _; split; reflexivity |].
      intros _ [video Hvideo]. discriminate. }
  destruct (contextAvailable dom) eqn:Hctx; cbn [negb] in Hrun.
  2:{ injection Hrun as <- <-.
      split; [apply Hnone; reflexivity |].
      split; [intros; discriminate |].
      split; [intros _ Hv; discriminate |].
      intros _ _ _. split; reflexivity. }
  split.
  2:{ split; [intros; discriminate |].
      split; [intros _ Hv; discriminate | intros _ _ Hc; discriminate]. }
  destruct (totalFrames_countable video) as [n [Hn Hbound]].
  rewrite Hn in Hrun. unfold andThen, library in Hrun.
  destruct (GIFEncoder lib) as [gif0 | e0].
  2:{ injection Hrun as _ <-. apply Hnone. reflexivity. }
  destruct (encodeFrames dom lib (Z.to_nat n) 0 (targetHeight video) gif0
              (mkStudio v (journal s))) as [[gif | e1] s1] eqn:Hloop.
  - apply encodeFrames_complete in Hloop.
    destruct Hloop as [shots [Hlen [_ [Hjournal _]]]]. cbn [journal] in Hjournal.
    assert (Hs1 : s' = s1).
    { destruct (finish lib gif) as [gif' | e2]; [| injection Hrun as _ <-; reflexivity].
      destruct (bytes lib gif') as [buffer | e3]; [discriminate |].
      injection Hrun as _ <-. reflexivity. }
    subst s'. exists shots, []. rewrite app_nil_r.
    split; [constructor |]. split; [exact Hjournal |].
    split; [rewrite Hjournal, framesWritten_app, framesWritten_shooting; reflexivity |].
    intros video0 n0 Hv0 Hn0. cbn [fst] in Hv0. injection Hv0 as <-.
    rewrite Hn in Hn0. injection Hn0 as <-. lia.
  - injection Hrun as _ <-.
    apply encodeFrames_fails in Hloop.
    destruct Hloop as [shots [tail [Hlen [Htail Hjournal]]]]. cbn [journal] in Hjournal.
    exists shots, tail. split; [exact Htail |]. split; [exact Hjournal |].
    split.
    + rewrite Hjournal, !framesWritten_app, framesWritten_shooting.
      destruct Htail; cbn [framesWritten]; rewrite app_nil_r; reflexivity.
    + intros video0 n0 Hv0 Hn0. cbn [fst] in Hv0. injection Hv0 as <-.
      rewrite Hn in Hn0. injection Hn0 as <-. lia.
Qed.

(** The frames of shots in a row are built the same way, each from the
    pixels of its own shot. *)
Lemma Shots_frames (height : option Z) (i : Z) (v v' : V)
    (shots : list (ImageData * Frame)) :
  Shots dom lib height i v shots v' ->
  Forall (fun shot : ImageData * Frame =>
            frame_width (snd shot) = 400
            /\ frame_height (snd shot) = height
            /\ frame_delay (snd shot) = number 100
            /\ quantize lib (fst shot) 256 = Returned (frame_palette (snd shot))
            /\ applyPalette lib (fst shot) (frame_palette (snd shot))
               = Returned (frame_index (snd shot)))
    shots.
Proof.
  induction 1 as [| i v v' v'' data f rest Hshot _ IH]; constructor; [| exact IH].
  destruct Hshot. cbn [fst snd frame_width frame_height frame_delay frame_palette frame_index].
  repeat split; assumption.
Qed.

(** X16. A transcoding that completes is a row of shots from the index 0
    on, each of them starting from the element as the shot before left
    it: the timestamp of the index is sought, the canvas is read back
    after that seek, and the frame handed to the encoder is built from
    the pixels read back then.  Every frame is 400 wide and as high as the
    even target height, is shown for 100 ms, and is indexed with the
    palette of at most 256 colours quantized from its own pixels; the
    blob holds what the encoder makes of these frames, in this order. *)
Theorem createGifFromVideo_frames (videoUrl : string) (s s' : Studio V) (blob : Blob) :
  createGifFromVideo dom lib videoUrl s = (Returned blob, s') ->
  exists (video : Metadata) (v0 : V) (shots : list (ImageData * Frame)),
    loadMetadata dom videoUrl (element s) = (Some video, v0)
    /\ Shots dom lib (targetHeight video) 0 v0 shots (element s')
    /\ journal s' = journal s ++ shooting 0 shots
    /\ framesWritten (journal s') = framesWritten (journal s) ++ map snd shots
    /\ Forall (fun shot : ImageData * Frame =>
                 frame_width (snd shot) = 400
                 /\ frame_height (snd shot) = targetHeight video
                 /\ frame_delay (snd shot) = number 100
                 /\ quantize lib (fst shot) 256 = Returned (frame_palette (snd shot))
                 /\ applyPalette lib (fst shot) (frame_palette (snd shot))
                    = Returned (frame_index (snd shot)))
         shots
    /\ (forall h, targetHeight video = Some h -> Z.even h = true)
    /\ (exists gif0 gif gif' : G,
           GIFEncoder lib = Returned gif0
           /\ appendAll lib (map snd shots) gif0 = Returned gif
           /\ finish lib gif = Returned gif'
           /\ bytes lib gif' = Returned (blob_bytes blob)).
Proof.
  intros Hrun. unfold createGifFromVideo in Hrun.
  destruct (encoderLoaded lib); [| discriminate]. cbn [negb] in Hrun.
  destruct (loadMetadata dom videoUrl (element s)) as [[video |] v]; [| discriminate].
  destruct (contextAvailable dom); [| discriminate]. cbn [negb] in Hrun.
  destruct (totalFrames_countable video) as [n [Hn Hbound]].
  rewrite Hn in Hrun. unfold andThen, library in Hrun.
  destruct (GIFEncoder lib) as [gif0 | e] eqn:Hnew; [| discriminate].
  destruct (encodeFrames dom lib (Z.to_nat n) 0 (targetHeight video) gif0
              (mkStudio v (journal s))) as [[gif | e] s1] eqn:Hloop; [| discriminate].
  destruct (finish lib gif) as [gif' | e] eqn:Hfinish; [| discriminate].
  destruct (bytes lib gif') as [buffer | e] eqn:Hbytes; [| discriminate].
  injection Hrun as <- <-.
  apply encodeFrames_complete in Hloop.
  destruct Hloop as [shots [Hlen [Hshots [Hjournal Happend]]]].
  cbn [journal element] in Hjournal, Hshots.
  exists video, v, shots.
  split; [reflexivity |]. split; [exact Hshots |]. split; [exact Hjournal |].
  split; [rewrite Hjournal, framesWritten_app, framesWritten_shooting; reflexivity |].
  split; [eapply Shots_frames; exact Hshots |].
  split; [intros h Hh; apply (proj1 (targetHeight_even video)) in Hh; apply Hh |].
  exists gif0, gif, gif'. repeat split; assumption.
Qed.

End TranscoderExtras.

(* ===================================================================== *)
(** ** History management                                                 *)
(* ===================================================================== *)

Module HistoryProperties.
Import History HistoryVocabulary.

Lemma restore_toStored (item : HistoryItem) : restore (toStored item) = item.
Proof. destruct item as [i t s p src [| c r] ts m]; reflexivity. Qed.

Lemma map_restore_toStored (items : list HistoryItem) :
  map restore (map toStored items) = items.
Proof.
  induction items as [| item items IH]; [reflexivity |].
  cbn [map]. rewrite restore_toStored, IH. reflexivity.
Qed.

Section WithLawfulJson.
Context (json : Json) (Hjson : lawful json).

(** What is read after a write that went through is what was written. *)
Lemma getHistory_after_setItem (items : list HistoryItem) (st st' : Storage) (u : unit) :
  setItem (stringify json (map toStored items)) st = (Returned u, st') ->
  getHistory json st' = items.
Proof.
  destruct Hjson as [Hround Hnonempty].
  unfold setItem. destruct (available st); cbn [negb]; [| discriminate].
  destruct (_ <=? _)%nat; [| discriminate].
  intros H. injection H as _ <-.
  unfold getHistory, getItem. cbn [available slot].
  destruct (stringify json (map toStored items)) as [| c r] eqn:Hs.
  - exfalso. exact (Hnonempty _ Hs).
  - rewrite <- Hs, Hround. apply map_restore_toStored.
Qed.

Lemma setItem_fits (items : list HistoryItem) (st : Storage) :
  fits json items st = true ->
  exists st', setItem (stringify json (map toStored items)) st = (Returned tt, st').
Proof.
  unfold fits, setItem. intros H. apply andb_prop in H. destruct H as [Ha Hc].
  rewrite Ha, Hc. cbn [negb]. eauto.
Qed.

Lemma setItem_failure (value : string) (st st' : Storage) (e : JsError) :
  setItem value st = (Threw e, st') -> st' = st.
Proof.
  unfold setItem. destruct (available st); cbn [negb].
  - destruct (_ <=? _)%nat; [discriminate |]. intros H. injection H as _ <-. reflexivity.
  - intros H. injection H as _ <-. reflexivity.
Qed.

Lemma setItem_does_not_fit (items : list HistoryItem) (st : Storage) :
  fits json items st = false ->
  exists e, setItem (stringify json (map toStored items)) st = (Threw e, st).
Proof.
  unfold fits, setItem. intros H.
  destruct (available st); cbn [negb andb] in *; [| eauto].
  rewrite H. eauto.
Qed.

(** X17. When the new array can be stored, [saveToHistory] leaves a
    history that starts with the new item, goes on with the former items
    in their order, holds 20 items at most and no [blob:] address at
    all. *)
Theorem saveToHistory_stores (item : NewItem) (stamp : Stamp) (st : Storage) :
  let saved := map withoutBlobUrl
                 (firstn 20 (newHistoryItem item stamp :: getHistory json st)) in
  fits json saved st = true ->
  getHistory json (saveToHistory json item stamp st) = saved
  /\ saved = withoutBlobUrl (newHistoryItem item stamp)
             :: map withoutBlobUrl (firstn 19 (getHistory json st))
  /\ (List.length saved <= 20)%nat
  /\ Forall (fun i => hasBlobUrl i = false) saved.
Proof.
  intros saved Hfits.
  refine (conj _ (conj eq_refl (conj _ _))).
  - destruct (setItem_fits saved st Hfits) as [st' Hset].
    unfold saveToHistory. cbv zeta.
    change (Z.to_nat MAX_HISTORY_ITEMS) with 20%nat. fold saved.
    rewrite Hset. eapply getHistory_after_setItem. exact Hset.
  - subst saved. rewrite length_map. apply firstn_le_length.
  - subst saved. apply Forall_forall. intros i Hi.
    apply in_map_iff in Hi. destruct Hi as [i0 [<- _]].
    unfold hasBlobUrl, withoutBlobUrl. cbn [videoUrl].
    destruct (String.prefix "blob:" (videoUrl i0)) eqn:Hp; [reflexivity | exact Hp].
Qed.

(** X18. When the storage can be used but the new array does not fit in
    it, the new item is not saved: the history is cut down to its first 10
    items if that array fits, and the storage is left as it was if not. *)
Theorem saveToHistory_when_full (item : NewItem) (stamp : Stamp) (st : Storage) :
  available st = true ->
  fits json (map withoutBlobUrl
               (firstn 20 (newHistoryItem item stamp :: getHistory json st))) st = false ->
  let trimmed := firstn 10 (getHistory json st) in
  (fits json trimmed st = true ->
     getHistory json (saveToHistory json item stamp st) = trimmed)
  /\ (fits json trimmed st = false -> saveToHistory json item stamp st = st).
Proof.
  intros Havailable Hfull trimmed.
  destruct (setItem_does_not_fit _ st Hfull) as [e Hset].
  assert (Hrun : saveToHistory json item stamp st =
                 match setItem (stringify json (map toStored trimmed)) st with
                 | (Returned _, st'') => st''
                 | (Threw _, st'') => st''
                 end).
  { unfold saveToHistory. cbv zeta.
    change (Z.to_nat MAX_HISTORY_ITEMS) with 20%nat. rewrite Hset. reflexivity. }
  split; intros Hfit; rewrite Hrun.
  - destruct (setItem_fits trimmed st Hfit) as [st' Hset'].
    rewrite Hset'. eapply getHistory_after_setItem. exact Hset'.
  - destruct (setItem_does_not_fit trimmed st Hfit) as [e' Hset'].
    rewrite Hset'. reflexivity.
Qed.

(** X19. [saveToHistory] never lets the history grow beyond 20 items: a
    history of at most 20 items is one of at most 20 items afterwards,
    whether the write goes through, falls back or fails. *)
Theorem saveToHistory_bounded (item : NewItem) (stamp : Stamp) (st : Storage) :
  (List.length (getHistory json st) <= 20)%nat ->
  (List.length (getHistory json (saveToHistory json item stamp st)) <= 20)%nat.
Proof.
  intros Hbefore. unfold saveToHistory. cbv zeta.
  change (Z.to_nat MAX_HISTORY_ITEMS) with 20%nat.
  change (Z.to_nat (MAX_HISTORY_ITEMS / 2)) with 10%nat.
  destruct (setItem _ st) as [[u | e] st'] eqn:Hset.
  - rewrite (getHistory_after_setItem _ st st' u Hset).
    rewrite length_map. apply firstn_le_length.
  - apply setItem_failure in Hset. subst st'.
    destruct (setItem _ st) as [[u | e'] st''] eqn:Hset'.
    + rewrite (getHistory_after_setItem _ st st'' u Hset').
      pose proof (firstn_le_length 10 (getHistory json st)). lia.
    + apply setItem_failure in Hset'. subst st''. exact Hbefore.
Qed.

(** X20. When the filtered array can be stored, [removeHistoryItem]
    leaves the former history without the items that bear the identifier,
    the others in their order; in no case does the history get longer. *)
Theorem removeHistoryItem_removes (id0 : string) (st : Storage) :
  let kept := filter (fun item => negb (String.eqb (id item) id0)) (getHistory json st) in
  (fits json kept st = true ->
     getHistory json (removeHistoryItem json id0 st) = kept
     /\ ~ In id0 (map id (getHistory json (removeHistoryItem json id0 st))))
  /\ (List.length (getHistory json (removeHistoryItem json id0 st))
      <= List.length (getHistory json st))%nat.
Proof.
  intros kept.
  assert (Hlen : (List.length kept <= List.length (getHistory json st))%nat)
    by apply filter_length_le.
  split.
  - intros Hfit. destruct (setItem_fits kept st Hfit) as [st' Hset].
    assert (Hafter : getHistory json (removeHistoryItem json id0 st) = kept).
    { unfold removeHistoryItem. cbv zeta. fold kept. rewrite Hset.
      eapply getHistory_after_setItem. exact Hset. }
    split; [exact Hafter |].
    rewrite Hafter. intros Hin. apply in_map_iff in Hin.
    destruct Hin as [i [Hid Hi]]. apply filter_In in Hi. destruct Hi as [_ Hne].
    rewrite Hid, String.eqb_refl in Hne. discriminate.
  - unfold removeHistoryItem. cbv zeta. fold kept.
    destruct (setItem _ st) as [[u | e] st'] eqn:Hset.
    + rewrite (getHistory_after_setItem _ st st' u Hset). exact Hlen.
    + apply setItem_failure in Hset. subst st'. lia.
Qed.

End WithLawfulJson.

(** X21. After [clearHistory] the history is empty, whatever the storage
    held and whether or not it can be used; a storage that can be used
    holds nothing under the key any more. *)
Theorem clearHistory_empties (json : Json) (st : Storage) :
  getHistory json (clearHistory st) = []
  /\ (available st = true -> slot (clearHistory st) = None)
  /\ capacity (clearHistory st) = capacity st.
Proof.
  unfold clearHistory, removeItem, getHistory, getItem.
  destruct st as [[|] s c]; cbn; repeat split; intros; try reflexivity; discriminate.
Qed.

(** X22. [formatHistoryDate] never shows a count of zero or a count that
    belongs to the next unit: it answers "Just now" below one minute (and
    for a timestamp ahead of the clock), 1 to 59 minutes, 1 to 23 hours,
    1 to 6 days, and the local date from 7 days on. *)
Theorem formatHistoryDate_ranges (toLocaleDateString : Z -> string) (nowMs timestamp : Z) :
  let age := nowMs - timestamp in
  let shown := formatHistoryDate toLocaleDateString nowMs timestamp in
  (age < 60000 -> shown = "Just now")
  /\ (60000 <= age < 3600000 ->
      exists n, 1 <= n <= 59 /\ n = age / 60000 /\ shown = (decimal n ++ "m ago")%string)
  /\ (3600000 <= age < 86400000 ->
      exists n, 1 <= n <= 23 /\ n = age / 3600000 /\ shown = (decimal n ++ "h ago")%string)
  /\ (86400000 <= age < 604800000 ->
      exists n, 1 <= n <= 6 /\ n = age / 86400000 /\ shown = (decimal n ++ "d ago")%string)
  /\ (604800000 <= age -> shown = toLocaleDateString timestamp).
Proof.
  intros age shown. subst shown. unfold formatHistoryDate. cbv zeta. fold age.
  refine (conj _ (conj _ (conj _ (conj _ _)))); intros Hage.
  - destruct (Z.ltb_spec (age / 60000) 1); [reflexivity |].
    Z.to_euclidean_division_equations; lia.
  - destruct (Z.ltb_spec (age / 60000) 1); [Z.to_euclidean_division_equations; lia |].
    destruct (Z.ltb_spec (age / 60000) 60); [| Z.to_euclidean_division_equations; lia].
    exists (age / 60000). split; [lia | split; reflexivity].
  - destruct (Z.ltb_spec (age / 60000) 1); [Z.to_euclidean_division_equations; lia |].
    destruct (Z.ltb_spec (age / 60000) 60); [Z.to_euclidean_division_equations; lia |].
    destruct (Z.ltb_spec (age / 3600000) 24); [| Z.to_euclidean_division_equations; lia].
    exists (age / 3600000).
    split; [Z.to_euclidean_division_equations; lia | split; reflexivity].
  - destruct (Z.ltb_spec (age / 60000) 1); [Z.to_euclidean_division_equations; lia |].
    destruct (Z.ltb_spec (age / 60000) 60); [Z.to_euclidean_division_equations; lia |].
    destruct (Z.ltb_spec (age / 3600000) 24); [Z.to_euclidean_division_equations; lia |].
    destruct (Z.ltb_spec (age / 86400000) 7); [| Z.to_euclidean_division_equations; lia].
    exists (age / 86400000).
    split; [Z.to_euclidean_division_equations; lia | split; reflexivity].
  - destruct (Z.ltb_spec (age / 60000) 1); [Z.to_euclidean_division_equations; lia |].
    destruct (Z.ltb_spec (age / 60000) 60); [Z.to_euclidean_division_equations; lia |].
    destruct (Z.ltb_spec (age / 3600000) 24); [Z.to_euclidean_division_equations; lia |].
    destruct (Z.ltb_spec (age / 86400000) 7); [Z.to_euclidean_division_equations; lia |].
    reflexivity.
Qed.

End HistoryProperties.

(* ===================================================================== *)
(** ** The hero carousel                                                  *)
(* ===================================================================== *)

(** X23. From the initial index 0 on, the index of the carousel always
    designates one of the four videos: next and previous keep it between 0
    and 3, wrap around at the ends, and undo each other. *)
Theorem carousel_index_valid (i : Z) :
  0 <= i < 4 ->
  0 <= Carousel.handleNext i < 4
  /\ 0 <= Carousel.handlePrev i < 4
  /\ Carousel.handlePrev (Carousel.handleNext i) = i
  /\ Carousel.handleNext (Carousel.handlePrev i) = i
  /\ Carousel.handleNext 3 = 0 /\ Carousel.handlePrev 0 = 3
  /\ (exists v, Carousel.currentVideo i = Some v)
  /\ (exists v, Carousel.currentVideo (Carousel.handleNext i) = Some v)
  /\ (exists v, Carousel.currentVideo (Carousel.handlePrev i) = Some v).
Proof.
  intros Hi.
  assert (Hcases : i = 0 \/ i = 1 \/ i = 2 \/ i = 3) by lia.
  destruct Hcases as [-> | [-> | [-> | ->]]];
    repeat split; try (vm_compute; congruence); try (eexists; vm_compute; reflexivity).
Qed.

Lemma carousel_index_valid_witness :
  Carousel.handlePrev (Carousel.handleNext 3) = 3
  /\ exists v, Carousel.currentVideo (Carousel.handleNext 3) = Some v.
Proof.
  pose proof (carousel_index_valid 3 ltac:(lia)) as [_ [_ [Hround [_ [_ [_ [_ [Hnext _]]]]]]]].
  split; [exact Hround | exact Hnext].
Defined.

(* ===================================================================== *)
(** ** The generation session                                             *)
(* ===================================================================== *)

Module AppProperties.
Import App.

Section WithHost.
Context {E : Type} {timers : Timers E} (host : Host E) (shell : Shell E).

Lemma trace_keySelected (w : World E) :
  trace (snd (keySelected host shell w)) = trace w.
Proof.
  unfold keySelected. destruct (hasSelectedApiKey shell) as [ask |]; [| reflexivity].
  destruct (ask (remote w)) as [answer e']. reflexivity.
Qed.

(** The world in which the image is requested, and the style that goes
    with it. *)
Lemma startProcess_prelude (ui : Ui) (w0 : World E) :
  exists (styleToUse : string) (w2 : World E),
    trace w2 = trace w0 /\ now w2 = now w0 /\
    forall (A : Type) (k : Outcome string -> World E -> A),
      (let '(styleOutcome, w) :=
         if truthy (trim (inputStyle ui))
         then (Returned (trim (inputStyle ui)),
               match videoSrc ui with
               | Some v =>
                   if String.prefix "blob:" v
                   then mkWorld (now w0) (trace w0) (revokeObjectURL shell v (remote w0))
                   else w0
               | None => w0
               end)
         else
           match getRandomStyle host
                   match videoSrc ui with
                   | Some v =>
                       if String.prefix "blob:" v
                       then mkWorld (now w0) (trace w0) (revokeObjectURL shell v (remote w0))
                       else w0
                   | None => w0
                   end with
           | (Returned s, w) => (Returned (render s), w)
           | (Threw e, w) => (Threw e, w)
           end in
       k styleOutcome w) = k (Returned styleToUse) w2.
Proof.
  set (w1 := match videoSrc ui with
             | Some v =>
                 if String.prefix "blob:" v
                 then mkWorld (now w0) (trace w0) (revokeObjectURL shell v (remote w0))
                 else w0
             | None => w0
             end).
  assert (Hw1 : trace w1 = trace w0 /\ now w1 = now w0).
  { subst w1. destruct (videoSrc ui) as [v |]; [| split; reflexivity].
    destruct (String.prefix "blob:" v); split; reflexivity. }
  destruct Hw1 as [Ht Hn].
  destruct (truthy (trim (inputStyle ui))).
  - exists (trim (inputStyle ui)), w1. repeat split; assumption.
  - destruct (getRandomStyle_run host w1) as [s [_ Hrun]]. rewrite Hrun.
    exists s, (mkWorld (now w1) (trace w1) (snd (mathRandom host (remote w1)))).
    split; [exact Ht |]. split; [exact Hn |]. reflexivity.
Qed.


(** X25. With text and a selected key, a session run to its end leaves
    the component either playing, with the address of the video and the
    image as a data URL, or in error, with a message that is not empty and
    no video; it is never left generating, and no failure of a generation
    escapes the handler. *)
Theorem startProcess_settles (ui : Ui) (w w0 : World E) :
  trim (inputText ui) <> EmptyString ->
  keySelected host shell w = (Returned true, w0) ->
  exists (ui' : Ui) (w' : World E),
    startProcess host shell ui w = (Returned ui', w')
    /\ ((state ui' = PLAYING
         /\ (exists url, videoSrc ui' = Some url)
         /\ (exists mime payload, imageSrc ui' = Some (dataUrl mime payload)))
        \/ (state ui' = ERROR /\ videoSrc ui' = None
            /\ statusMessage ui' <> EmptyString))
    /\ isGifGenerating ui' = false
    /\ inputText ui' = inputText ui.
Proof.
  intros Htext Hkey. unfold startProcess.
  destruct (trim (inputText ui)) as [| c r] eqn:Htrim; [congruence |].
  cbn [truthy negb]. unfold bind. rewrite Hkey. cbn [negb].
  destruct (startProcess_prelude ui w0) as [styleToUse [w2 [_ [_ Hprelude]]]].
  rewrite Hprelude.
  assert (Hfailed : forall u err, state (failed u err) = ERROR
                                  /\ statusMessage (failed u err) <> EmptyString
                                  /\ videoSrc (failed u err) = videoSrc u
                                  /\ isGifGenerating (failed u err) = isGifGenerating u
                                  /\ inputText (failed u err) = inputText u).
  { intros u err. unfold failed. cbn.
    destruct (message err) as [[| c' r'] |]; repeat split; discriminate. }
  destruct (generateTextImage host _ w2) as [[image | err] w3].
  - destruct (generateTextVideo host _ _ _ _ w3) as [[videoUrl | err] w4].
    + eexists _, _. split; [reflexivity |]. split; [| split; reflexivity].
      left. cbn. split; [reflexivity |]. split; [eauto |].
      exists (image_type image), (render (image_data image)). reflexivity.
    + eexists _, _. split; [reflexivity |].
      destruct (Hfailed
                  (mkUi GENERATING_VIDEO (showKeyDialog ui) (inputText ui) (inputStyle ui)
                     (typographyPrompt ui) (referenceImage ui)
                     (Some ("data:" ++ image_type image ++ ";base64," ++ render (image_data image))%string)
                     None "Animating..." false) err)
        as [Hs [Hm [Hv [Hg Hi]]]].
      split; [right; repeat split; assumption | split; assumption].
  - eexists _, _. split; [reflexivity |].
    destruct (Hfailed
                (mkUi GENERATING_IMAGE (showKeyDialog ui) (inputText ui) (inputStyle ui)
                   (typographyPrompt ui) (referenceImage ui) None None
                   ("Designing " ++ dquote ++ inputText ui ++ dquote ++ "...")%string false) err)
      as [Hs [Hm [Hv [Hg Hi]]]].
    split; [right; repeat split; assumption | split; assumption].
Qed.

(** The requests sent through a retrier, when each attempt sends the
    same single request. *)
Lemma withRetry_requests_repeat {A : Type} (fn : M E A) (req : Request) :
  (forall w0, requestsOf (trace (snd (fn w0))) = requestsOf (trace w0) ++ [req]) ->
  forall (n : nat) (retries baseDelay : Z) (w0 : World E),
    Z.to_nat retries = n ->
    exists k : nat,
      (1 <= k <= n + 1)%nat /\
      requestsOf (trace (snd (withRetry fn retries baseDelay w0))) =
      requestsOf (trace w0) ++ repeat req k.
Proof.
  intros Hfn. induction n as [| n IH]; intros retries baseDelay w0 Hn;
    rewrite withRetry_step;
    pose proof (Hfn (record EvAttempt w0)) as Hone;
    cbn [record trace] in Hone; rewrite requestsOf_app in Hone;
    cbn [requestsOf] in Hone; rewrite app_nil_r in Hone;
    destruct (fn (record EvAttempt w0)) as [[a | e] w1]; cbn [snd] in Hone |- *.
  - exists 1%nat. split; [lia | exact Hone].
  - replace (retries >? 0) with false
      by (symmetry; destruct (Z.gtb_spec retries 0); [lia | reflexivity]).
    exists 1%nat. split; [lia | exact Hone].
  - exists 1%nat. split; [lia | exact Hone].
  - destruct ((retries >? 0) && isRetryable e) eqn:Hgo.
    + destruct (IH (retries - 1) (baseDelay * 2) (snd (sleep baseDelay w1))) as [k [Hk Hreq]];
        [lia |].
      exists (S k). split; [lia |].
      rewrite Hreq, trace_sleep.
      rewrite requestsOf_app, Hone. cbn [requestsOf].
      rewrite app_nil_r, <- app_assoc. reflexivity.
    + exists 1%nat. split; [lia | exact Hone].
Qed.

(** X26. One session sends its requests in this order: at most 4 image
    requests, all the same, then, only if an image request was sent, at
    most 4 submissions of the video job, at most 31 status checks and at
    most 3 downloads; it sends nothing else, 42 requests at most. *)
Theorem startProcess_requests (ui : Ui) (w : World E) :
  exists (o : TextImageOptions) (k : nat)
         (submissions checks downloads : list Request),
    requestsOf (trace (snd (startProcess host shell ui w)))
      = requestsOf (trace w) ++ repeat (ReqGenerateContent (imageRequest o)) k
        ++ submissions ++ checks ++ downloads
    /\ (k <= 4)%nat
    /\ text o = inputText ui
    /\ Forall isSubmission submissions /\ (List.length submissions <= 4)%nat
    /\ Forall isStatusCheck checks /\ (List.length checks <= 31)%nat
    /\ Forall isDownload downloads /\ (List.length downloads <= 3)%nat
    /\ (k = 0%nat -> submissions = [] /\ checks = [] /\ downloads = []).
Proof.
  assert (Hnothing : forall w' : World E, trace w' = trace w ->
            exists (o : TextImageOptions) (k : nat)
                   (submissions checks downloads : list Request),
              requestsOf (trace w')
                = requestsOf (trace w) ++ repeat (ReqGenerateContent (imageRequest o)) k
                  ++ submissions ++ checks ++ downloads
              /\ (k <= 4)%nat
              /\ text o = inputText ui
              /\ Forall isSubmission submissions /\ (List.length submissions <= 4)%nat
              /\ Forall isStatusCheck checks /\ (List.length checks <= 31)%nat
              /\ Forall isDownload downloads /\ (List.length downloads <= 3)%nat
              /\ (k = 0%nat -> submissions = [] /\ checks = [] /\ downloads = [])).
  { intros w' Hw'.
    exists (mkTextImageOptions (inputText ui) EmptyString None None), 0%nat, [], [], [].
    rewrite Hw'. cbn [app repeat]. rewrite app_nil_r.
    split; [reflexivity |].
    repeat split; try apply Forall_nil; simpl; lia. }
  unfold startProcess.
  destruct (truthy (trim (inputText ui))); cbn [negb]; [| apply Hnothing; reflexivity].
  unfold bind. pose proof (trace_keySelected w) as Hkey.
  destruct (keySelected host shell w) as [[selected | e] w0]; cbn [snd] in Hkey;
    [| apply Hnothing; exact Hkey].
  destruct selected; cbn [negb]; [| apply Hnothing; exact Hkey].
  destruct (startProcess_prelude ui w0) as [styleToUse [w2 [Hw2 [_ Hprelude]]]].
  rewrite Hprelude. clear Hprelude.
  set (o := mkTextImageOptions (inputText ui) styleToUse (Some (typographyPrompt ui))
              (orElse (referenceImage ui) None)).
  destruct (withRetry_requests_repeat (requestImage host o) (ReqGenerateContent (imageRequest o))
              (fun w0 => eq_trans (f_equal requestsOf (trace_requestImage host o w0))
                           (requestsOf_app _ _))
              (Z.to_nat 3) 3 3000 w2 eq_refl) as [k [Hk Himg]].
  unfold generateTextImage, withRetryDefault.
  rewrite Hw2, Hkey in Himg.
  destruct (withRetry (requestImage host o) 3 3000 w2) as [[image | err] w3];
    cbn [snd] in Himg |- *.
  - destruct (generateTextVideo_requests host (inputText ui)
                (match image_data image with Some b => b | None => "" end)
                (image_type image) styleToUse w3)
      as [submissions [checks [downloads [Hreq [HsubP [Hsublen [HchkP [Hchklen [HdlP Hdllen]]]]]]]]].
    assert (Hsub : Forall isSubmission submissions).
    { eapply Forall_impl; [| exact HsubP]. intros r <-. exact I. }
    exists o, k, submissions, checks, downloads.
    destruct (generateTextVideo host _ _ _ _ w3) as [[videoUrl | err] w4];
      cbn [snd] in Hreq |- *; rewrite Hreq, Himg, <- !app_assoc;
      (split; [reflexivity |]);
      repeat split; try assumption; try (simpl in *; lia).
  - exists o, k, [], [], []. rewrite Himg. cbn [app]. rewrite app_nil_r.
    split; [reflexivity |].
    repeat split; try assumption; try apply Forall_nil; simpl in *; lia.
Qed.

End WithHost.

End AppProperties.

(* ===================================================================== *)
(** ** Concrete runs for the properties above                             *)
(* ===================================================================== *)

Lemma withRetry_bounded_witness :
  exists k : nat,
    Z.of_nat k <= 3
    /\ sleepsOf (trace (snd (withRetry alwaysForbidden 3 3000 startOfTime))) = doublings k 3000
    /\ sumZ (doublings k 3000) <= 21000.
Proof.
  destruct (withRetry_bounded alwaysForbidden 3 3000 startOfTime
              (fun w0 => eq_refl)) as [k [Hk [_ [_ [Hsleeps Hsum]]]]].
  exists k. split; [exact Hk |]. split; [exact Hsleeps |].
  apply Hsum. lia.
Defined.

(** The image operation against a service that refuses its first two
    requests: the third one is served and its picture returned, 3000 and
    then 6000 ms having been slept. *)
Lemma withRetry_recovers_witness :
  withRetry (requestImage (flakyHost 2) helloWithoutReference) 3 3000 startOfTime
  = (Returned (mkImageResult (Some "QUJD") "image/png"),
     mkWorld 10140
       [EvAttempt; EvRequest (ReqGenerateContent (imageRequest helloWithoutReference));
        EvSleep 3000;
        EvAttempt; EvRequest (ReqGenerateContent (imageRequest helloWithoutReference));
        EvSleep 6000;
        EvAttempt; EvRequest (ReqGenerateContent (imageRequest helloWithoutReference))]
       3%nat).
Proof.
  apply (withRetry_recovers (requestImage (flakyHost 2) helloWithoutReference)
           2 3 3000 startOfTime).
  - lia.
  - intros [| [| j]] Hj; try (eexists; split; vm_compute; reflexivity).
    lia.
  - vm_compute. reflexivity.
Defined.

Lemma pollForVideo_rides_out_failure_witness :
  pollForVideo overloadedHost pendingOperation startOfTime =
  (Returned finishedOperation,
   mkWorld 20300
     [EvSleep 10000; EvRequest (ReqGetVideosOperation pendingOperation);
      EvSleep 10000; EvRequest (ReqGetVideosOperation pendingOperation)] 2%nat).
Proof.
  refine (proj1 (pollForVideo_rides_out_failure overloadedHost pendingOperation
                   finishedOperation startOfTime
                   (mkWorld 10150 [EvSleep 10000; EvRequest (ReqGetVideosOperation pendingOperation)] 1%nat)
                   _ (newError "503 Service Unavailable") _ _ _ _ _ _)).
  - reflexivity.
  - reflexivity.
  - reflexivity.
  - unfold MAX_WAIT_TIME. simpl. lia.
  - reflexivity.
  - reflexivity.
Defined.

Lemma cleanBase64_data_url_witness :
  cleanBase64 "data:image/png;base64,QUJD" = "QUJD"
  /\ cleanBase64 "a,b" = "a,b"
  /\ cleanBase64 "data:QUJD" = "data:QUJD".
Proof.
  destruct cleanBase64_data_url as [Hurl [Hraw Hbare]].
  split; [apply (proj1 (Hurl "image/png;base64" "QUJD" eq_refl eq_refl)) |].
  split; [apply (Hraw "a,b" eq_refl) | apply (Hbare "QUJD" eq_refl)].
Defined.

Lemma imageParts_reference_data_url_witness :
  exists t : string,
    imageParts helloWithReference =
    [PartInline (mkInlineData (Some "QUJD") (Some "image/png")); PartText t].
Proof.
  apply (imageParts_reference_data_url helloWithReference "image/png" "QUJD");
    reflexivity.
Defined.

Lemma generateTextImage_no_image_witness :
  generateTextImage wordsOnlyHost helloWithoutReference startOfTime =
  (Threw (newError "No image generated"),
   mkWorld 900
     [EvAttempt; EvRequest (ReqGenerateContent (imageRequest helloWithoutReference))] 1%nat).
Proof.
  apply (generateTextImage_no_image wordsOnlyHost helloWithoutReference startOfTime 900%N
           (mkGenerateContentResponse (Some "Sorry.") (Some [PartText "Sorry."])) 1%nat);
    reflexivity.
Defined.

Lemma generateTextImage_first_inline_witness :
  exists m : string,
    generateTextImage pictureHost helloWithoutReference startOfTime =
    (Returned (mkImageResult (Some "QUJD") m),
     mkWorld 900
       [EvAttempt; EvRequest (ReqGenerateContent (imageRequest helloWithoutReference))] 1%nat)
    /\ m = "image/png".
Proof.
  destruct (generateTextImage_first_inline pictureHost helloWithoutReference startOfTime
              900%N pictureResponse 1%nat ["Here it is."] (mkInlineData (Some "QUJD") None) []
              eq_refl eq_refl) as [m [Hrun [_ Hdefault]]].
  exists m. split; [exact Hrun |]. apply Hdefault. left. reflexivity.
Defined.

Lemma generateTextVideo_after_polling_witness :
  generateTextVideo failingJobHost "HELLO" "QUJD" "image/png" "neon" startOfTime =
  (Threw (newError "Quota exceeded."),
   snd (generateTextVideo failingJobHost "HELLO" "QUJD" "image/png" "neon" startOfTime))
  /\ requestsOf (trace (snd (generateTextVideo failingJobHost "HELLO" "QUJD" "image/png" "neon"
                               startOfTime)))
     = [ReqGenerateVideos (videoRequest failingJobHost "HELLO" "QUJD" "image/png" "neon");
        ReqGetVideosOperation pendingOperation].
Proof.
  pose proof (generateTextVideo_after_polling failingJobHost "HELLO" "QUJD" "image/png" "neon"
                startOfTime
                (snd (withRetryDefault (submitVideo failingJobHost "HELLO" "QUJD" "image/png" "neon")
                        startOfTime))
                (snd (pollForVideo failingJobHost pendingOperation
                        (snd (withRetryDefault
                                (submitVideo failingJobHost "HELLO" "QUJD" "image/png" "neon")
                                startOfTime))))
                pendingOperation failedOperation
                ltac:(discriminate) ltac:(vm_compute; reflexivity) ltac:(vm_compute; reflexivity))
    as H.
  cbv zeta in H. destruct H as [Herr _].
  destruct (Herr (mkOpError (Some "Quota exceeded.")) eq_refl) as [Hrun _].
  split.
  - rewrite Hrun at 1. vm_compute. reflexivity.
  - vm_compute. reflexivity.
Defined.

Lemma targetHeight_even_witness :
  targetHeight fiveSeconds = Some 224 /\ Z.even 224 = true.
Proof.
  split; [reflexivity |].
  exact (proj1 (proj1 (targetHeight_even fiveSeconds) 224 eq_refl)).
Defined.

(** A canvas that cannot be read back fails the transcoding at its first
    shot, once the first timestamp is sought; a stream that breaks during
    the third seek fails it with the message of [video.onerror], two
    frames having been appended by then. *)
Lemma createGifFromVideo_failure_witness :
  createGifFromVideo taintedVideoHost plainGif "blob:video" emptyStudio
  = (Threw (newError "The canvas has been tainted by cross-origin data."),
     mkStudio tt [Sought (sampleTime 0)])
  /\ fst (createGifFromVideo brokenStreamHost plainGif "blob:video" (mkStudio O []))
     = Threw (newError "Video load failed")
  /\ List.length (framesWritten (journal (snd
        (createGifFromVideo brokenStreamHost plainGif "blob:video" (mkStudio O [])))))
     = 2%nat
  /\ exists (shots : list (ImageData * Frame)) (tail : list TranscodeEvent),
       Interrupted tail
       /\ journal (snd (createGifFromVideo brokenStreamHost plainGif "blob:video"
                          (mkStudio O [])))
          = shooting 0 shots ++ tail.
Proof.
  split; [vm_compute; reflexivity |].
  split; [vm_compute; reflexivity |].
  split; [vm_compute; reflexivity |].
  destruct (proj1 (createGifFromVideo_failure brokenStreamHost plainGif "blob:video"
                     (mkStudio O [])
                     (snd (createGifFromVideo brokenStreamHost plainGif "blob:video"
                             (mkStudio O [])))
                     (newError "Video load failed")
                     ltac:(vm_compute; reflexivity)))
    as [shots [tail [Htail [Hjournal _]]]].
  exists shots, tail. split; [exact Htail | exact Hjournal].
Defined.

Lemma createGifFromVideo_frames_witness :
  exists (s' : Studio unit) (blob : Blob) (shots : list (ImageData * Frame)),
    createGifFromVideo (stillVideoHost fiveSeconds) plainGif "blob:video" emptyStudio
      = (Returned blob, s')
    /\ List.length (framesWritten (journal s')) = 50%nat
    /\ framesWritten (journal s') = map snd shots
    /\ Forall (fun shot : ImageData * Frame =>
                 frame_height (snd shot) = Some 224
                 /\ fst shot = [Byte.x00; Byte.x00; Byte.x00; Byte.x00]
                 /\ frame_index (snd shot) = fst shot) shots.
Proof.
  let v := eval vm_compute in
      (createGifFromVideo (stillVideoHost fiveSeconds) plainGif "blob:video" emptyStudio) in
  match v with
  | (Returned ?b, ?s1) =>
      assert (Hrun : createGifFromVideo (stillVideoHost fiveSeconds) plainGif
                       "blob:video" emptyStudio = (Returned b, s1))
        by (vm_compute; reflexivity);
      destruct (createGifFromVideo_frames (stillVideoHost fiveSeconds) plainGif
                  "blob:video" emptyStudio s1 b Hrun)
        as [video [v0 [shots [Hload [Hshots [_ [Hframes [Hall _]]]]]]]];
      exists s1, b, shots
  end.
  cbn in Hload. injection Hload as <- <-.
  split; [exact Hrun |].
  split; [vm_compute; reflexivity |].
  split; [exact Hframes |].
  clear Hframes Hrun. 
  induction Hshots as [| i v v' v'' data f rest Hshot _ IH]; constructor.
  - destruct Hshot as [v0 v1 v2 v3 data palette index _ _ Hcapture _ Hindex].
    cbn in Hcapture, Hindex. injection Hcapture as <- _. injection Hindex as <-.
    repeat split.
  - apply IH. inversion Hall; assumption.
Defined.

Module HistoryRuns.
Import History HistoryVocabulary TallyJson.

Lemma readTally_tally (n : nat) (rest : string) :
  readTally (tally n ++ rest) = Some (n, rest).
Proof.
  induction n as [| n IH]; [reflexivity |].
  cbn [tally append readTally]. cbn [Ascii.eqb Bool.eqb]. rewrite IH. reflexivity.
Qed.

Lemma splitAt_app (s rest : string) :
  splitAt (String.length s) (s ++ rest) = Some (s, rest).
Proof.
  induction s as [| c s IH]; [reflexivity |].
  cbn [String.length append splitAt]. rewrite IH. reflexivity.
Qed.

Lemma readString_write (s rest : string) :
  readString (writeString s ++ rest) = Some (s, rest).
Proof.
  unfold readString, writeString. rewrite append_assoc, readTally_tally.
  apply splitAt_app.
Qed.

Lemma readOption_write (o : option string) (rest : string) :
  readOption (writeOption o ++ rest) = Some (o, rest).
Proof.
  destruct o as [s |]; [| reflexivity].
  cbn [writeOption append readOption]. cbn [Ascii.eqb Bool.eqb].
  rewrite readString_write. reflexivity.
Qed.

Lemma readZ_write (z : Z) (rest : string) :
  readZ (writeZ z ++ rest) = Some (z, rest).
Proof.
  unfold writeZ, readZ. cbn [append]. rewrite readTally_tally.
  destruct (Z.ltb_spec z 0); cbn [Ascii.eqb Bool.eqb]; do 2 f_equal; lia.
Qed.

Lemma readItem_write (i : StoredItem) (rest : string) :
  readItem (writeItem i ++ rest) = Some (i, rest).
Proof.
  unfold writeItem, readItem. rewrite !append_assoc.
  rewrite !readString_write, readOption_write, readZ_write, readString_write.
  destruct i; reflexivity.
Qed.

Lemma readItems_write (l : list StoredItem) (rest : string) :
  readItems (List.length l) (writeItems l ++ rest) = Some (l, rest).
Proof.
  induction l as [| i l IH]; [reflexivity |].
  cbn [List.length writeItems readItems].
  rewrite append_assoc, readItem_write, IH. reflexivity.
Qed.

Lemma append_empty (s : string) : (s ++ "")%string = s.
Proof. induction s as [| c s IH]; [reflexivity |]. cbn [append]. rewrite IH. reflexivity. Qed.

Lemma tallyJson_lawful : lawful tallyJson.
Proof.
  split; intros l; cbn [stringify parse tallyJson]; unfold tallyStringify, tallyParse.
  - rewrite readTally_tally.
    rewrite <- (append_empty (writeItems l)), readItems_write. reflexivity.
  - destruct (List.length l); discriminate.
Qed.

Lemma saveToHistory_stores_witness :
  getHistory tallyJson (saveToHistory tallyJson helloItem firstStamp emptyStorage) =
  [mkHistoryItem "history_7_k3x9q1zab" "HELLO" "neon" "" "data:image/png;base64,QUJD" ""
     7 "image/png"].
Proof.
  apply (proj1 (HistoryProperties.saveToHistory_stores tallyJson tallyJson_lawful
                  helloItem firstStamp emptyStorage eq_refl)).
Defined.

Lemma saveToHistory_when_full_witness :
  getHistory tallyJson (saveToHistory tallyJson helloItem firstStamp (mkStorage true None 3)) = [].
Proof.
  apply (proj1 (HistoryProperties.saveToHistory_when_full tallyJson tallyJson_lawful
                  helloItem firstStamp (mkStorage true None 3) eq_refl eq_refl)).
  reflexivity.
Defined.

Lemma saveToHistory_bounded_witness :
  (List.length (getHistory tallyJson
                  (saveToHistory tallyJson helloItem firstStamp emptyStorage)) <= 20)%nat.
Proof.
  apply (HistoryProperties.saveToHistory_bounded tallyJson tallyJson_lawful
           helloItem firstStamp emptyStorage).
  simpl. lia.
Defined.

Lemma removeHistoryItem_removes_witness :
  getHistory tallyJson
    (removeHistoryItem tallyJson "history_7_k3x9q1zab"
       (saveToHistory tallyJson helloItem firstStamp emptyStorage)) = [].
Proof.
  apply (proj1 (proj1 (HistoryProperties.removeHistoryItem_removes tallyJson tallyJson_lawful
                         "history_7_k3x9q1zab"
                         (saveToHistory tallyJson helloItem firstStamp emptyStorage))
                  ltac:(vm_compute; reflexivity))).
Defined.

Lemma formatHistoryDate_ranges_witness :
  formatHistoryDate (fun _ => "1/2/2026") 7500000 0 = "2h ago".
Proof.
  destruct (proj1 (proj2 (proj2 (HistoryProperties.formatHistoryDate_ranges
                                   (fun _ => "1/2/2026") 7500000 0)))
              ltac:(lia)) as [n [_ [Hn Hshown]]].
  rewrite Hshown, Hn. reflexivity.
Defined.

End HistoryRuns.

Module AppRuns.
Import App.


Lemma startProcess_settles_witness :
  exists (ui' : Ui) (w' : World nat),
    startProcess servingHost plainShell helloForm startOfTime = (Returned ui', w')
    /\ isGifGenerating ui' = false
    /\ fst (startProcess servingHost plainShell helloForm startOfTime)
       = Returned (mkUi PLAYING false "HELLO" "neon" "" None
                     (Some "data:image/png;base64,QUJD") (Some "blob:video")
                     "Animating..." false).
Proof.
  destruct (AppProperties.startProcess_settles servingHost plainShell helloForm startOfTime
              startOfTime ltac:(discriminate) eq_refl) as [ui' [w' [Hrun [_ [Hgif _]]]]].
  exists ui', w'. split; [exact Hrun |]. split; [exact Hgif |].
  vm_compute. reflexivity.
Defined.

End AppRuns.
